(** * Dress-bodice pattern generator: model of [pattern_generator.py]

    The development embeds the measurement resolver
    ([Measurements.__post_init__]), the point derivation engine
    ([PatternGenerator.calculate_base_values], [calculate_points],
    [apply_adjustments], [generate_pattern]) and the persistence helpers
    ([save_measurements], [load_measurements]) and proves the properties the
    specification states about them.

    Numbers are Python floats, that is IEEE-754 binary64 values: they are
    modelled by Rocq's primitive floats, whose operations round exactly as
    the interpreter's do.  Integer literals of the source ([0], [1], [13],
    the exponent [2]) are the floats of the same value, which is what Python
    makes of them as soon as they meet a float.

    Dictionaries ([points], [calculated_values], the adjustments, a saved
    document) are finite maps with string keys.  A method is a function
    from the object's state to the state it leaves and the value it returns
    or the exception it raises; the exceptions carry the messages of
    CPython's [math] and [float] implementations.

    The drawing ([plot_pattern]), the design variations of
    [pattern_modifications.py], the entry points of
    [pattern_interface.py] and the first script [pattern_making.py] are
    modelled after the generator, on the same representation.

    Layout: the model, module by module as in the source; the notions the
    statements use; the verification. *)

From Stdlib Require Import Floats ZArith Bool List.
From stdpp Require Import gmap strings.

(* 2.3, 2.2 are not binary64 values; like Python, the nearest one is used. *)
Set Warnings "-inexact-float".

Local Open Scope float_scope.

(** ** The Python runtime: exceptions and fallible float operations *)

Module Py.

Inductive exn : Type :=
| ValueError (msg : string)
| OverflowError (msg : string)
| ZeroDivisionError (msg : string)
| KeyError (key : string)
| TypeError (msg : string)
| FileNotFoundError (filename : string).

Definition result (A : Type) : Type := (exn + A)%type.

Definition ok {A : Type} (a : A) : result A := inr a.
Definition raise {A : Type} (e : exn) : result A := inl e.

Definition bind {A B : Type} (r : result A) (k : A -> result B) : result B :=
  match r with
  | inl e => inl e
  | inr a => k a
  end.

(** [x / y]: float division raises on a zero divisor (of either sign). *)
Definition truediv (x y : float) : result float :=
  if y =? 0 then raise (ZeroDivisionError "float division by zero")
  else ok (x / y).

(** *** The platform

    [x ** 2] on floats is CPython's [float_pow], which settles the special
    cases itself and hands every other base to [pow] of the C library.
    IEEE-754 does not fix the result of [pow]: it is what the library of
    the platform returns, and it can differ from the correctly rounded
    square by a unit in the last place.  The model takes the library as a
    parameter: [pow_2 x] is the double that [pow(x, 2.0)] returns and
    whether [errno] is [ERANGE] after the call. *)
Class Libm : Type := { pow_2 : float -> float * bool }.

(** A library whose [pow] rounds the square correctly and reports a range
    error when the square is out of range.  A statement that names no
    platform is made on this one; [derive_on_agreeing_platforms] carries
    it to every platform that squares the shoulder length and the two
    drops of the record in the same way, as a platform does when the
    squares are floats and its [pow] returns them (15, 4 and 7 of the
    default record). *)
#[global] Instance correctly_rounded : Libm :=
  {| pow_2 := fun x => (x * x, is_infinity (x * x)) |}.

Section Platform.

Context `{libm : Libm}.

(** [x ** 2] in [float_pow], up to the test of [errno]: the double it
    would return and whether [errno] is set at that point.  NaN, the
    infinities, the zeros and the bases 1 and -1 never reach the library;
    a negative base is negated first; [_Py_ADJUST_ERANGE1] sets [errno]
    for an infinite result and clears it for a zero result. *)
Definition float_pow2 (x : float) : float * bool :=
  if is_nan x then (x, false)
  else if is_infinity x then (abs x, false)
  else if x =? 0 then (0, false)
  else
    let iv := if x <? 0 then - x else x in
    if iv =? 1 then (1, false)
    else
      let '(ix, erange) := pow_2 iv in
      let erange := if erange then negb (ix =? 0) else is_infinity ix in
      (ix, erange).

(** [x ** 2]: [OverflowError] when [errno] is set. *)
Definition pow2 (x : float) : result float :=
  let '(ix, erange) := float_pow2 x in
  if erange
  then raise (OverflowError "(34, 'Numerical result out of range')")
  else ok ix.

End Platform.

(** [math.sqrt x]: a negative argument (minus infinity included) raises
    [ValueError]; NaN goes through silently. *)
Definition math_sqrt (x : float) : result float :=
  if x <? 0 then raise (ValueError "math domain error")
  else ok (sqrt x).

(** A dict display [{k1: v1, ...}] and [d.update({...})]: the items are
    stored from left to right, a later item replacing an earlier one under
    the same key. *)
Definition update {V : Type} (d : gmap string V) (items : list (string * V))
  : gmap string V :=
  fold_left (fun acc kv => <[fst kv := snd kv]> acc) items d.

Definition dict {V : Type} (items : list (string * V)) : gmap string V :=
  update ∅ items.

End Py.

Notation "'let*' x ':=' e 'in' k" := (Py.bind e (fun x => k))
  (at level 10, x name, e at level 100, k at level 200).

(** ** Measurements and the resolver *)

Module Measurements.

Record t : Type := mk {
  size : float;
  shoulder_width : float;
  waist_circumference : float;
  hip_circumference : float;
  chest_circumference : float;
  jacket_length : float;
  waist_from_A : float;
  hip_from_waist : float;
  shoulder_bone : float;
  neck_depth : float
}.

(** The dataclass field defaults. *)
Definition defaults : t :=
  mk 40.0 40.0 80.0 92.0 88.0 85.0 42.0 19.0 12.0 2.0.

Definition set_waist_circumference (v : float) (self : t) : t :=
  mk (size self) (shoulder_width self) v (hip_circumference self)
     (chest_circumference self) (jacket_length self) (waist_from_A self)
     (hip_from_waist self) (shoulder_bone self) (neck_depth self).

Definition set_hip_circumference (v : float) (self : t) : t :=
  mk (size self) (shoulder_width self) (waist_circumference self) v
     (chest_circumference self) (jacket_length self) (waist_from_A self)
     (hip_from_waist self) (shoulder_bone self) (neck_depth self).

Definition set_chest_circumference (v : float) (self : t) : t :=
  mk (size self) (shoulder_width self) (waist_circumference self)
     (hip_circumference self) v (jacket_length self) (waist_from_A self)
     (hip_from_waist self) (shoulder_bone self) (neck_depth self).

Definition set_shoulder_width (v : float) (self : t) : t :=
  mk (size self) v (waist_circumference self) (hip_circumference self)
     (chest_circumference self) (jacket_length self) (waist_from_A self)
     (hip_from_waist self) (shoulder_bone self) (neck_depth self).

(** [__post_init__]: four assignments in sequence, each guarded by a test
    on the record as it stands at that point. *)
Definition __post_init__ (self : t) : t :=
  let self :=
    if (waist_circumference self =? 80.0) && negb (size self =? 40.0)
    then set_waist_circumference (size self * 2) self else self in
  let self :=
    if (hip_circumference self =? 92.0) && negb (size self =? 40.0)
    then set_hip_circumference (size self * 2.3) self else self in
  let self :=
    if (chest_circumference self =? 88.0) && negb (size self =? 40.0)
    then set_chest_circumference (size self * 2.2) self else self in
  let self :=
    if (shoulder_width self =? 40.0) && negb (size self =? 40.0)
    then set_shoulder_width (size self) self else self in
  self.

(** The field names, in declaration order. *)
Definition fields : list string :=
  ["size"; "shoulder_width"; "waist_circumference"; "hip_circumference";
   "chest_circumference"; "jacket_length"; "waist_from_A"; "hip_from_waist";
   "shoulder_bone"; "neck_depth"].

(** The generated [__init__], called with keyword arguments [kw].  A
    keyword that is not a field is a [TypeError] that names it (of several
    such keywords Python names the first one passed, an order the map of
    keywords does not keep); an absent field takes its default; then
    [__post_init__] runs. *)
Definition init (kw : gmap string float) : Py.result t :=
  match filter (fun k => bool_decide (k ∉ fields)) (elements (dom kw)) with
  | k :: _ =>
      Py.raise
        (Py.TypeError
           ("Measurements.__init__() got an unexpected keyword argument '"
            +:+ k +:+ "'"))
  | [] =>
      let arg (name : string) (d : t -> float) : float :=
        default (d defaults) (kw !! name) in
      Py.ok (__post_init__
        (mk (arg "size" size)
            (arg "shoulder_width" shoulder_width)
            (arg "waist_circumference" waist_circumference)
            (arg "hip_circumference" hip_circumference)
            (arg "chest_circumference" chest_circumference)
            (arg "jacket_length" jacket_length)
            (arg "waist_from_A" waist_from_A)
            (arg "hip_from_waist" hip_from_waist)
            (arg "shoulder_bone" shoulder_bone)
            (arg "neck_depth" neck_depth)))
  end.

End Measurements.

(** ** The tailoring constants *)

Module PatternConstants.

Record t : Type := mk {
  rule_add : float;
  buttons : float;
  mid_back_seam : float;
  side_seam_back : float;
  side_seam_front : float;
  back_shoulder_add : float;
  front_dart_width : float;
  shoulder_add : float;
  u_rule_constant : float;
  back_shoulder_drop : float;
  front_shoulder_drop : float;
  waist_inset : float;
  dart_depth : float;
  u_inset : float
}.

Definition defaults : t :=
  mk 10.0 3.0 1.0 1.0 1.0 3.0 5.0 3.0 2.0 4.0 7.0 2.5 13.0 3.0.

End PatternConstants.

(** ** The generator *)

(** A point is a pair of coordinates, x to the right and y up. *)
Abbreviation point := (float * float)%type (only parsing).

Module PatternGenerator.

Import Measurements PatternConstants.

(** The object state.  [calculated_values] maps a name to a float or to
    [None] (the placeholder the source stores under ['back_width']). *)
Record t : Type := mk {
  measurements : Measurements.t;
  constants : PatternConstants.t;
  points : gmap string point;
  calculated_values : gmap string (option float)
}.

(** [__init__]: [constants or PatternConstants()]. *)
Definition init (measurements : Measurements.t)
    (constants : option PatternConstants.t) : t :=
  mk measurements (default PatternConstants.defaults constants) ∅ ∅.

Definition set_points (p : gmap string point) (self : t) : t :=
  mk (measurements self) (constants self) p (calculated_values self).

Definition set_calculated_values (cv : gmap string (option float)) (self : t) : t :=
  mk (measurements self) (constants self) (points self) cv.

(** [cv[key]] used as a number: a missing key is a [KeyError]; a [None]
    entry cannot enter the arithmetic and is reported where it is read. *)
Definition cv_get (cv : gmap string (option float)) (key : string)
  : Py.result float :=
  match cv !! key with
  | None => Py.raise (Py.KeyError key)
  | Some None =>
      Py.raise (Py.TypeError "unsupported operand type(s): 'NoneType'")
  | Some (Some v) => Py.ok v
  end.

(** A method: it may change the object and then returns or raises. *)
Definition method (A : Type) : Type := t -> t * Py.result A.

Definition calculate_base_values : method unit := fun self =>
  let m := measurements self in
  let c := constants self in
  let self := set_calculated_values
    (Py.update (calculated_values self)
       [("shoulder_length", Some (shoulder_bone m + shoulder_add c));
        ("armhole_depth", Some ((shoulder_width m + rule_add c) / 2 + 1));
        ("width", Some (shoulder_width m + rule_add c + buttons c
                        + mid_back_seam c + side_seam_back c
                        + side_seam_front c));
        ("back_width", None);
        ("armhole_value", Some (((shoulder_width m + rule_add c) / 4) + 2));
        ("back_shoulder_length",
           Some (shoulder_width m / 2 + back_shoulder_add c));
        ("u_rule", Some (u_rule_constant c + shoulder_width m / 4))])
    self in
  match cv_get (calculated_values self) "width" with
  | inl e => (self, inl e)
  | inr width =>
      let self := set_calculated_values
        (<["back_width" :=
             Some ((width - mid_back_seam c - buttons c) / 2
                   + mid_back_seam c)]> (calculated_values self)) self in
      match cv_get (calculated_values self) "armhole_value" with
      | inl e => (self, inl e)
      | inr armhole_value =>
          (set_calculated_values
             (<["half_arm" := Some (armhole_value / 2)]>
                (calculated_values self)) self,
           inr tt)
      end
  end.

Section Platform.

Context `{libm : Py.Libm}.

(** The body of [calculate_points] up to the dict display it stores: the
    list of (label, point) items of that display, in source order. *)
Definition calculate_points_items (self : t)
  : Py.result (list (string * point)) :=
  let m := measurements self in
  let c := constants self in
  let cv := calculated_values self in
  (* Base rectangle points *)
  let A : point := (0, jacket_length m) in
  let B : point := (0, 0) in
  let* width := cv_get cv "width" in
  let D : point := (width, jacket_length m) in
  let C : point := (width, 0) in
  (* Horizontal lines *)
  let* armhole_depth := cv_get cv "armhole_depth" in
  let G : point := (0, jacket_length m - armhole_depth) in
  let E : point := (0, jacket_length m - waist_from_A m) in
  let F : point := (0, jacket_length m - (waist_from_A m + hip_from_waist m)) in
  (* Corresponding right points *)
  let G_prime : point := (width, snd G) in
  let E_prime : point := (width, snd E) in
  let F_prime : point := (width, snd F) in
  (* Center back line *)
  let* back_width := cv_get cv "back_width" in
  let H : point := (back_width, jacket_length m) in
  let H_prime : point := (back_width, 0) in
  let I : point := (back_width, snd G) in
  (* Armhole points *)
  let* half_arm := cv_get cv "half_arm" in
  let J : point := (back_width - half_arm, snd G) in
  let K : point := (back_width + half_arm, snd G) in
  let J_prime : point := (fst J, jacket_length m) in
  let K_prime : point := (fst K, jacket_length m) in
  (* Shoulder points *)
  let L : point := (fst J, jacket_length m - back_shoulder_drop c) in
  let M : point := (fst K, jacket_length m - front_shoulder_drop c) in
  let L_prime : point := (0, snd L) in
  let M_prime : point := (0, snd M) in
  let* back_shoulder_length := cv_get cv "back_shoulder_length" in
  let N : point := (back_shoulder_length, snd L) in
  (* Calculate P point *)
  let* shoulder_length := cv_get cv "shoulder_length" in
  let* sl2 := Py.pow2 shoulder_length in
  let* bd2 := Py.pow2 (back_shoulder_drop c) in
  let* horiz_back := Py.math_sqrt (sl2 - bd2) in
  let P_x := fst N - horiz_back in
  let P : point := (P_x, jacket_length m) in
  (* Neck calculations *)
  let neck_width := P_x - mid_back_seam c in
  let front_neck_width := neck_width + buttons c in
  let R_x := width - front_neck_width in
  let R : point := (R_x, jacket_length m) in
  let S_x := R_x - front_dart_width c in
  let S : point := (S_x, jacket_length m) in
  (* Calculate T point *)
  let* sl2' := Py.pow2 shoulder_length in
  let* fd2 := Py.pow2 (front_shoulder_drop c) in
  let* horiz_front := Py.math_sqrt (sl2' - fd2) in
  let T_x := S_x - horiz_front in
  let T : point := (T_x, snd M) in
  (* More points *)
  let Q : point := (0, jacket_length m - neck_depth m) in
  let Q_prime : point := (P_x, snd Q) in
  let* u_rule := cv_get cv "u_rule" in
  let U : point := (width - u_rule, snd G) in
  (* Armhole curve helper points *)
  let km_length := armhole_depth - front_shoulder_drop c in
  let jl_length := armhole_depth - back_shoulder_drop c in
  let V_y := snd K + (km_length / 3) in
  let V : point := (fst K, V_y) in
  let V_prime_y := snd J + (jl_length / 3) in
  let V_prime : point := (fst J, V_prime_y) in
  (* Waist and dart points *)
  let W : point := (back_width, snd E) in
  let X : point := (back_width - waist_inset c, snd E) in
  let X_prime : point := (back_width + waist_inset c, snd E) in
  (* Calculate dart points *)
  let dist_x_e := abs (fst X - fst E) in
  let adj_dist := (dist_x_e - 1) / 2 + 1 in
  let Z : point := (adj_dist, snd E) in
  let Z_prime : point := (fst Z - 1, snd Z) in
  let Z_double_prime : point := (fst Z + 1.5, snd Z) in
  let bda_x := fst Z in
  let z_triple_prime : point := (bda_x, snd Z - dart_depth c) in
  (* More calculated points *)
  let AB_point : point := (bda_x, snd G) in
  (* Line PN intersection with vertical line at bda_x *)
  let dx_pn := fst N - fst P in
  let dy_pn := snd N - snd P in
  let* param :=
    if negb (dx_pn =? 0) then Py.truediv (bda_x - fst P) dx_pn
    else Py.ok 0 in
  let ac_y := snd P + param * dy_pn in
  let AC : point := (bda_x, ac_y) in
  (* More points *)
  let* unit_dx :=
    if negb (shoulder_length =? 0) then Py.truediv dx_pn shoulder_length
    else Py.ok 0 in
  let* unit_dy :=
    if negb (shoulder_length =? 0) then Py.truediv dy_pn shoulder_length
    else Py.ok 0 in
  let AD : point := (fst AC + unit_dx * 1, snd AC + unit_dy * 1) in
  let AE : point := (1, snd E) in
  let U_prime_prime : point := (fst U, snd U - u_inset c) in
  let Y : point := (fst U, snd E) in
  let Y_prime : point := (fst Y, snd Y + 1) in
  let Y_double_prime : point := (fst Y, snd Y - 1.5) in
  let Y_triple_prime : point := (fst Y, snd Y + 13) in
  (* Store all points *)
  Py.ok
    [("A", A); ("B", B); ("C", C); ("D", D); ("G", G); ("E", E); ("F", F);
     ("G'", G_prime); ("E'", E_prime); ("F'", F_prime);
     ("H", H); ("H'", H_prime); ("I", I); ("J", J); ("K", K);
     ("J'", J_prime); ("K'", K_prime); ("L", L); ("M", M);
     ("L'", L_prime); ("M'", M_prime); ("N", N); ("P", P); ("Q", Q);
     ("Q'", Q_prime); ("R", R); ("S", S); ("T", T); ("U", U);
     ("V", V); ("V'", V_prime); ("W", W); ("X", X); ("X'", X_prime);
     ("Z", Z); ("Z'", Z_prime); ("Z''", Z_double_prime);
     ("z'''", z_triple_prime); ("AB", AB_point); ("AC", AC); ("AD", AD);
     ("AE", AE); ("Y", Y); ("Y'", Y_prime);
     ("Y''", Y_double_prime); ("Y'''", Y_triple_prime);
     ("U''", U_prime_prime)].

Definition calculate_points : method unit := fun self =>
  match calculate_points_items self with
  | inl e => (self, inl e)
  | inr items => (set_points (Py.dict items) self, inr tt)
  end.

(** [apply_adjustments]: only the ['waist_adjustment'] branch has a body
    that touches the object; the other two read their entry and stop. *)
Definition apply_adjustments (adjustments : gmap string float) : method unit :=
  fun self =>
  let self :=
    match adjustments !! "waist_adjustment" with
    | Some waist_adj =>
        let self :=
          match points self !! "X" with
          | Some x_point =>
              set_points
                (<["X" := (fst x_point + waist_adj / 4, snd x_point)]>
                   (points self)) self
          | None => self
          end in
        let self :=
          match points self !! "X'" with
          | Some x_prime_point =>
              set_points
                (<["X'" := (fst x_prime_point - waist_adj / 4,
                            snd x_prime_point)]> (points self)) self
          | None => self
          end in
        self
    | None => self
    end in
  (self, inr tt).

(** [generate_pattern]: [if adjustments:] holds for a dict that is neither
    [None] nor empty. *)
Definition generate_pattern (adjustments : option (gmap string float))
  : method (gmap string point) := fun self =>
  match calculate_base_values self with
  | (self, inl e) => (self, inl e)
  | (self, inr _) =>
      match calculate_points self with
      | (self, inl e) => (self, inl e)
      | (self, inr _) =>
          match adjustments with
          | Some adj =>
              if bool_decide (adj = ∅) then (self, inr (points self))
              else
                match apply_adjustments adj self with
                | (self, inl e) => (self, inl e)
                | (self, inr _) => (self, inr (points self))
                end
          | None => (self, inr (points self))
          end
      end
  end.

End Platform.

(** *** Persistence

    A saved profile is a JSON document with two members, each an object
    whose values are numbers or [null].  Numbers are written by [repr] and
    read back by [float], which returns the float that was written, so the
    text between [json.dump] and [json.load] is left out: a file holds the
    document itself.  The file system is a map from names to documents. *)
Definition document : Type := gmap string (gmap string (option float)).

Definition save_measurements (filename : string) (self : t)
    (fs : gmap string document) : gmap string document :=
  let m := measurements self in
  let data : document :=
    Py.dict
      [("measurements",
        Py.dict
          [("size", Some (size m));
           ("shoulder_width", Some (shoulder_width m));
           ("waist_circumference", Some (waist_circumference m));
           ("hip_circumference", Some (hip_circumference m));
           ("chest_circumference", Some (chest_circumference m));
           ("jacket_length", Some (jacket_length m));
           ("waist_from_A", Some (waist_from_A m));
           ("hip_from_waist", Some (hip_from_waist m));
           ("shoulder_bone", Some (shoulder_bone m));
           ("neck_depth", Some (neck_depth m))]);
       ("calculated_values", calculated_values self)] in
  <[filename := data]> fs.

(** The keyword arguments read from a JSON object.  The record holds
    floats, so a [null] member is rejected here (Python would store [None]
    and fail at its first arithmetic use). *)
Definition keywords (obj : gmap string (option float))
  : Py.result (gmap string float) :=
  if bool_decide (map_Forall (fun _ v => is_Some v) obj)
  then Py.ok (omap id obj)
  else Py.raise (Py.TypeError "unsupported operand type(s): 'NoneType'").

(** [load_measurements]: a class method; the generator it returns has the
    default constants. *)
Definition load_measurements (filename : string) (fs : gmap string document)
  : Py.result t :=
  match fs !! filename with
  | None => Py.raise (Py.FileNotFoundError filename)
  | Some data =>
      match data !! "measurements" with
      | None => Py.raise (Py.KeyError "measurements")
      | Some obj =>
          let* kw := keywords obj in
          let* measurements := Measurements.init kw in
          Py.ok (init measurements None)
      end
  end.

End PatternGenerator.

(** ** The engine's function boundary *)

(** [derive measurements constants]: a fresh generator run without
    adjustments; the derived scalars and the point map on success. *)
Definition derive `{Py.Libm} (m : Measurements.t) (c : PatternConstants.t)
  : Py.result (gmap string (option float) * gmap string point) :=
  match PatternGenerator.generate_pattern None
          (PatternGenerator.init m (Some c)) with
  | (_, inl e) => inl e
  | (self, inr pts) => inr (PatternGenerator.calculated_values self, pts)
  end.

(** * The drawing: [PatternGenerator.plot_pattern] *)

(** What [plot_pattern] hands to the plotting library: the axis limits,
    the labelled markers and the place of their texts, the straight
    segments, the armhole polyline and the control points of the back-neck
    curve.  Rendering and the PDF file are left out. *)
Module Drawing.

Record t : Type := mk {
  xlim : float * float;
  ylim : float * float;
  markers : gmap string point;
  texts : gmap string point;
  lines : list (point * point);
  armhole_points : list point;
  verts : list point
}.

End Drawing.

Module PatternPlot.

Import Measurements PatternGenerator.

(** [self.points[label]] *)
Definition getitem (points : gmap string point) (label : string)
  : Py.result point :=
  match points !! label with
  | Some p => Py.ok p
  | None => Py.raise (Py.KeyError label)
  end.

(** A list display of pairs [(self.points[a], self.points[b])], evaluated
    from left to right. *)
Fixpoint segments (points : gmap string point)
    (pairs : list (string * string)) : Py.result (list (point * point)) :=
  match pairs with
  | [] => Py.ok []
  | (a, b) :: rest =>
      let* start := getitem points a in
      let* end_ := getitem points b in
      let* others := segments points rest in
      Py.ok ((start, end_) :: others)
  end.

(** A list display [[self.points[a], ...]]. *)
Fixpoint polyline (points : gmap string point) (labels : list string)
  : Py.result (list point) :=
  match labels with
  | [] => Py.ok []
  | a :: rest =>
      let* p := getitem points a in
      let* others := polyline points rest in
      Py.ok (p :: others)
  end.

(** The end points of the segments of [lines], in source order. *)
Definition line_labels : list (string * string) :=
  [("A", "B"); ("B", "C"); ("C", "D"); ("D", "A");
   ("G", "G'"); ("E", "E'"); ("F", "F'");
   ("H", "H'");
   ("J", "J'"); ("K", "K'");
   ("N", "P");
   ("U", "R"); ("U", "S");
   ("M", "M'");
   ("S", "T");
   ("Y'''", "Y'");
   ("U", "Y'"); ("U", "Y'''");
   ("I", "X"); ("I", "X'");
   ("Z'", "z'''"); ("Z''", "z'''");
   ("AD", "AB"); ("AE", "A"); ("AE", "B");
   ("U''", "Y'"); ("U''", "Y'''");
   ("AB", "Z'"); ("AB", "Z''"); ("AB", "AC")].

(** The body of [plot_pattern] after its first statement: it reads the
    generator and changes nothing. *)
Definition draw (self : t) : Py.result Drawing.t :=
  let cv := calculated_values self in
  let m := measurements self in
  let* width := cv_get cv "width" in
  let xlim := (-5, width + 5) in
  let ylim := (-5, jacket_length m + 5) in
  (* Plot points *)
  let markers := points self in
  let texts := (fun p => (fst p + 0.5, snd p + 0.5)) <$> points self in
  (* Draw lines *)
  let* lines := segments (points self) line_labels in
  (* Armhole curve *)
  let* armhole_points := polyline (points self) ["T"; "V"; "I"; "V'"; "N"] in
  (* Back neck curve *)
  let* P := getitem (points self) "P" in
  let* Q := getitem (points self) "Q" in
  let* Q_prime := getitem (points self) "Q'" in
  let verts :=
    [P;
     (fst P, (snd P + snd Q_prime) / 2);
     (fst Q + (fst Q_prime - fst Q) / 2, snd Q);
     Q] in
  Py.ok (Drawing.mk xlim ylim markers texts lines armhole_points verts).


(** [ax.set_xlim(left, right)] and [ax.set_ylim(bottom, top)] of the
    plotting library: a limit that is NaN or infinite is refused. *)
Definition set_lim (low high : float) : Py.result unit :=
  if is_finite low && is_finite high then Py.ok tt
  else Py.raise (Py.ValueError "Axis limits cannot be NaN or Inf").

(** The drawing on the axes of the library: the two limits are set, in
    the order of the source, before any point is looked up. *)
Definition draw_on_axes (self : t) : Py.result Drawing.t :=
  let cv := calculated_values self in
  let m := measurements self in
  let* width := cv_get cv "width" in
  let* _ := set_lim (-5) (width + 5) in
  let* _ := set_lim (-5) (jacket_length m + 5) in
  draw self.

(** [plot_pattern] with the library's check of the axis limits. *)
Definition plot_pattern_on_axes `{Py.Libm} : method Drawing.t := fun self =>
  let (self, generated) :=
    if bool_decide (points self = ∅) then generate_pattern None self
    else (self, inr (points self)) in
  match generated with
  | inl e => (self, inl e)
  | inr _ => (self, draw_on_axes self)
  end.

End PatternPlot.

(** * Design variations: model of [pattern_modifications.py] *)

(** ** Loops over the items of the point map

    [for name, (x, y) in self.generator.points.items(): ...] with a body
    that, for the item it is given, raises, stores nothing, or stores a new
    point under the item's own name.  An item is read when the loop reaches
    it; an exception ends the loop and leaves the stores made so far.
    [for_items_in] runs the loop over the names in a given order;
    [for_items] takes the order of [map_to_list].  Python iterates in
    insertion order, which a finite map does not record: the verification
    shows that the loops of this module give the same result in every
    order. *)

Fixpoint for_items_in (order : list string)
    (body : string -> point -> Py.result (option point))
    (pts : gmap string point) : gmap string point * Py.result unit :=
  match order with
  | [] => (pts, inr tt)
  | name :: rest =>
      match pts !! name with
      | None => for_items_in rest body pts
      | Some p =>
          match body name p with
          | inl e => (pts, inl e)
          | inr None => for_items_in rest body pts
          | inr (Some q) => for_items_in rest body (<[name := q]> pts)
          end
      end
  end.

Definition for_items (body : string -> point -> Py.result (option point))
    (pts : gmap string point) : gmap string point * Py.result unit :=
  for_items_in (map fst (map_to_list pts)) body pts.

(** ** Design options *)

Module DesignOptions.

Record t : Type := mk {
  sleeve_type : string;
  neckline_type : string;
  dress_style : string;
  dart_style : string;
  length_style : string;
  back_closure : string
}.

(** The dataclass field defaults. *)
Definition defaults : t :=
  mk "sleeveless" "round" "fitted" "standard" "midi" "zipper".

Definition set_neckline_type (v : string) (self : t) : t :=
  mk (sleeve_type self) v (dress_style self) (dart_style self)
     (length_style self) (back_closure self).

Definition set_dress_style (v : string) (self : t) : t :=
  mk (sleeve_type self) (neckline_type self) v (dart_style self)
     (length_style self) (back_closure self).

Definition set_length_style (v : string) (self : t) : t :=
  mk (sleeve_type self) (neckline_type self) (dress_style self)
     (dart_style self) v (back_closure self).

End DesignOptions.

(** ** The modifier *)

Module AdvancedPatternModifier.

(** What a method of the modifier can raise: an exception of the runtime
    model, or the [UnboundLocalError] of a local variable read before any
    assignment to it. *)
Inductive exn : Type :=
| Raised (e : Py.exn)
| UnboundLocalError (name : string).

Definition result (A : Type) : Type := (exn + A)%type.

(** The object state.  The modifier holds a reference to the generator it
    was given and changes that generator in place: the generator's state is
    part of the modifier's, and is what the caller sees afterwards. *)
Record t : Type := mk {
  generator : PatternGenerator.t;
  original_points : option (gmap string point)
}.

(** [__init__] *)
Definition init (generator : PatternGenerator.t) : t := mk generator None.

(** A method: it may change the object and then returns or raises. *)
Definition method (A : Type) : Type := t -> t * result A.

Definition ret {A : Type} (a : A) : method A := fun self => (self, inr a).

Definition raise {A : Type} (e : exn) : method A := fun self => (self, inl e).

Definition bind {A B : Type} (f : method A) (k : A -> method B) : method B :=
  fun self =>
  match f self with
  | (self, inl e) => (self, inl e)
  | (self, inr a) => k a self
  end.

#[local] Notation "'let!' x ':=' f 'in' k" := (bind f (fun x => k))
  (at level 10, x name, f at level 100, k at level 200, only parsing).

(** *** The accesses to the generator *)

Definition of_python {A : Type} (r : Py.result A) : result A :=
  match r with inl e => inl (Raised e) | inr a => inr a end.

(** A call of a method of [self.generator]. *)
Definition call {A : Type} (f : PatternGenerator.method A) : method A :=
  fun self =>
  let (g, r) := f (generator self) in
  (mk g (original_points self), of_python r).

(** [self.generator.points] *)
Definition points : method (gmap string point) := fun self =>
  (self, inr (PatternGenerator.points (generator self))).

(** [name in self.generator.points] *)
Definition contains (name : string) : method bool := fun self =>
  (self,
   inr match PatternGenerator.points (generator self) !! name with
       | Some _ => true
       | None => false
       end).

(** [self.generator.points[name]] *)
Definition getitem (name : string) : method point := fun self =>
  match PatternGenerator.points (generator self) !! name with
  | Some p => (self, inr p)
  | None => (self, inl (Raised (Py.KeyError name)))
  end.

(** [self.generator.points[name] = p] *)
Definition setitem (name : string) (p : point) : method unit := fun self =>
  (mk (PatternGenerator.set_points
         (<[name := p]> (PatternGenerator.points (generator self)))
         (generator self))
      (original_points self),
   inr tt).

(** [self.generator.calculated_values] *)
Definition calculated_values : method (gmap string (option float)) :=
  fun self =>
  (self, inr (PatternGenerator.calculated_values (generator self))).

(** [self.generator.calculated_values[key]] used as a number. *)
Definition cv (key : string) : method float := fun self =>
  (self,
   of_python
     (PatternGenerator.cv_get
        (PatternGenerator.calculated_values (generator self)) key)).

(** [self.generator.calculated_values[key] = v] *)
Definition set_cv (key : string) (v : float) : method unit := fun self =>
  (mk (PatternGenerator.set_calculated_values
         (<[key := Some v]>
            (PatternGenerator.calculated_values (generator self)))
         (generator self))
      (original_points self),
   inr tt).

(** [self.generator.measurements.jacket_length] *)
Definition jacket_length : method float := fun self =>
  (self,
   inr (Measurements.jacket_length
          (PatternGenerator.measurements (generator self)))).

(** [self.generator.measurements.jacket_length = v] *)
Definition set_jacket_length (v : float) : method unit := fun self =>
  let g := generator self in
  let m := PatternGenerator.measurements g in
  (mk (PatternGenerator.mk
         (Measurements.mk
            (Measurements.size m) (Measurements.shoulder_width m)
            (Measurements.waist_circumference m)
            (Measurements.hip_circumference m)
            (Measurements.chest_circumference m) v
            (Measurements.waist_from_A m) (Measurements.hip_from_waist m)
            (Measurements.shoulder_bone m) (Measurements.neck_depth m))
         (PatternGenerator.constants g) (PatternGenerator.points g)
         (PatternGenerator.calculated_values g))
      (original_points self),
   inr tt).

(** The loop over [self.generator.points.items()]. *)
Definition for_each_item
    (body : string -> point -> Py.result (option point)) : method unit :=
  fun self =>
  let (pts, r) := for_items body (PatternGenerator.points (generator self)) in
  (mk (PatternGenerator.set_points pts (generator self))
      (original_points self),
   of_python r).

(** [if a in self.generator.points and b in self.generator.points: body] *)
Fixpoint contains_all (names : list string) : method bool :=
  match names with
  | [] => ret true
  | name :: rest =>
      let! b := contains name in
      if b : bool then contains_all rest else ret false
  end.

Definition when_in (names : list string) (body : method unit) : method unit :=
  let! b := contains_all names in
  if b : bool then body else ret tt.

(** *** The adjustments *)

Definition _adjust_dart_width (adjustment : float) : method unit :=
  when_in ["Z'"; "z'''"]
    (let! z_prime := getitem "Z'" in
     let! z_double_prime := getitem "Z''" in
     (* Adjust dart points *)
     let! _ := setitem "Z'" (fst z_prime - adjustment / 2, snd z_prime) in
     setitem "Z''"
       (fst z_double_prime + adjustment / 2, snd z_double_prime)).

Definition _adjust_waist (adjustment : float) : method unit :=
  let half_adj := adjustment / 2 in
  let quarter_adj := adjustment / 4 in
  (* Adjust center back waist points *)
  let! _ :=
    when_in ["X"]
      (let! p := getitem "X" in setitem "X" (fst p - quarter_adj, snd p)) in
  let! _ :=
    when_in ["X'"]
      (let! p := getitem "X'" in setitem "X'" (fst p + quarter_adj, snd p)) in
  (* Adjust side seam points *)
  let! _ :=
    when_in ["Z"]
      (let! p := getitem "Z" in setitem "Z" (fst p + quarter_adj, snd p)) in
  (* Adjust dart width if needed *)
  if 2 <? abs adjustment then
    let dart_adj := adjustment * 0.3 in
    _adjust_dart_width dart_adj
  else ret tt.

(** The body of the loop of [_adjust_hip]. *)
Definition _adjust_hip_item (hip_level quarter_adj : float)
    (calculated_values : gmap string (option float))
    (point_name : string) '((x, y) : point) : Py.result (option point) :=
  if abs (y - hip_level) <? 2 then
    let* width := PatternGenerator.cv_get calculated_values "width" in
    if width / 2 <? x then Py.ok (Some (x + quarter_adj, y))
    else if 0 <? x then Py.ok (Some (x - quarter_adj, y))
    else Py.ok None
  else Py.ok None.

Definition _adjust_hip (adjustment : float) : method unit :=
  let! has_F := contains "F" in
  let! hip_level :=
    if has_F : bool then let! F := getitem "F" in ret (snd F) else ret 0 in
  let quarter_adj := adjustment / 4 in
  let! calculated_values := calculated_values in
  (* Find and adjust points at hip level *)
  for_each_item (_adjust_hip_item hip_level quarter_adj calculated_values).

Definition _adjust_bust_dart (adjustment : float) : method unit :=
  when_in ["S"; "R"]
    (let! s := getitem "S" in
     let! r := getitem "R" in
     (* Adjust dart width *)
     let dart_width_change := adjustment * 0.5 in
     setitem "S" (fst s - dart_width_change, snd s)).

Definition _adjust_chest (adjustment : float) : method unit :=
  let quarter_adj := adjustment / 4 in
  (* Adjust armhole width *)
  let! _ :=
    when_in ["K"]
      (let! p := getitem "K" in
       let! _ := setitem "K" (fst p + quarter_adj, snd p) in
       (* Update corresponding points *)
       let! k_prime := getitem "K'" in
       setitem "K'" (fst p + quarter_adj, snd k_prime)) in
  let! _ :=
    when_in ["J"]
      (let! p := getitem "J" in
       let! _ := setitem "J" (fst p - quarter_adj, snd p) in
       let! j_prime := getitem "J'" in
       setitem "J'" (fst p - quarter_adj, snd j_prime)) in
  (* Adjust bust dart if significant change *)
  if 3 <? abs adjustment then
    let bust_dart_adj := adjustment * 0.4 in
    _adjust_bust_dart bust_dart_adj
  else ret tt.

Definition _recalculate_shoulder_dependent_points : method unit := ret tt.

Definition _adjust_shoulder (adjustment : float) : method unit :=
  let half_adj := adjustment / 2 in
  let! _ :=
    when_in ["N"]
      (let! p := getitem "N" in setitem "N" (fst p + half_adj, snd p)) in
  let! _ :=
    when_in ["T"]
      (let! p := getitem "T" in setitem "T" (fst p - half_adj, snd p)) in
  (* Recalculate dependent points *)
  _recalculate_shoulder_dependent_points.

(** The labels [_adjust_length] leaves where they are. *)
Definition top_edge_points : list string :=
  ["A"; "D"; "H"; "J'"; "K'"; "P"; "Q"; "Q'"; "R"; "S"].

(** The body of the loop of [_adjust_length]. *)
Definition _adjust_length_item (adjustment : float)
    (point_name : string) '((x, y) : point) : Py.result (option point) :=
  if bool_decide (point_name ∈ top_edge_points) then Py.ok None
  else
    let new_y := y + adjustment in
    Py.ok (Some (x, new_y)).

Definition _adjust_length (adjustment : float) : method unit :=
  let! _ := for_each_item (_adjust_length_item adjustment) in
  (* Update measurements *)
  let! current := jacket_length in
  set_jacket_length (current + adjustment).

Definition _recalculate_armhole_points : method unit :=
  (* Update G points (armhole line) *)
  let! jacket_length := jacket_length in
  let! armhole_depth := cv "armhole_depth" in
  let new_g_y := jacket_length - armhole_depth in
  let! _ := setitem "G" (0, new_g_y) in
  let! width := cv "width" in
  let! _ := setitem "G'" (width, new_g_y) in
  let! back_width := cv "back_width" in
  setitem "I" (back_width, new_g_y).

Definition _adjust_armhole (adjustment : float) : method unit :=
  (* Adjust armhole depth *)
  let! current_depth := cv "armhole_depth" in
  let new_depth := current_depth + adjustment in
  let! _ := set_cv "armhole_depth" new_depth in
  (* Recalculate armhole points *)
  _recalculate_armhole_points.

(** [if key in adjustments: step(adjustments[key])] *)
Definition with_entry (adjustments : gmap string float) (key : string)
    (step : float -> method unit) : method unit :=
  match adjustments !! key with
  | Some v => step v
  | None => ret tt
  end.

(** [if self.original_points is None:] the point map is copied. *)
Definition store_original_points : method unit := fun self =>
  match original_points self with
  | None =>
      (mk (generator self) (Some (PatternGenerator.points (generator self))),
       inr tt)
  | Some _ => (self, inr tt)
  end.

Definition apply_advanced_adjustments `{Py.Libm}
    (adjustments : gmap string float)
  : method unit :=
  let! pts := points in
  let! _ :=
    if bool_decide (pts = ∅)
    then let! _ := call (PatternGenerator.generate_pattern None) in ret tt
    else ret tt in
  (* Store original points for reference *)
  let! _ := store_original_points in
  let! _ := with_entry adjustments "waist_adjustment" _adjust_waist in
  let! _ := with_entry adjustments "hip_adjustment" _adjust_hip in
  let! _ := with_entry adjustments "chest_adjustment" _adjust_chest in
  let! _ := with_entry adjustments "shoulder_adjustment" _adjust_shoulder in
  let! _ := with_entry adjustments "length_adjustment" _adjust_length in
  with_entry adjustments "armhole_adjustment" _adjust_armhole.

(** *** The design variations *)

Definition _modify_neckline (neckline_type : string) : method unit :=
  if bool_decide (neckline_type = "v_neck") then
    (* Lower the front neckline *)
    when_in ["R"] (let! p := getitem "R" in setitem "R" (fst p, snd p - 3))
  else if bool_decide (neckline_type = "square") then
    (* Create square neckline *)
    when_in ["Q"; "R"]
      (let! q := getitem "Q" in
       let! r := getitem "R" in
       (* Make front and back the same depth *)
       setitem "R" (fst r, snd q))
  else if bool_decide (neckline_type = "boat") then
    (* Wider, shallower neckline *)
    when_in ["Q"; "R"]
      (let! q := getitem "Q" in
       let! r := getitem "R" in
       (* Raise neckline and widen *)
       let! _ := setitem "Q" (fst q, snd q + 1) in
       setitem "R" (fst r - 2, snd r + 1))
  else ret tt.

Definition _apply_a_line_flare (hem_increase : float) : method unit :=
  let quarter_increase := hem_increase / 4 in
  (* Adjust bottom points *)
  let! _ :=
    when_in ["C"]
      (let! p := getitem "C" in
       setitem "C" (fst p + quarter_increase, snd p)) in
  when_in ["B"]
    (let! p := getitem "B" in setitem "B" (fst p - quarter_increase, snd p)).

(** [i_x] is assigned in the first branch only; the second branch reads it
    whether or not the first was taken. *)
Definition _remove_waist_shaping : method unit :=
  let! b := contains_all ["X"; "I"] in
  let! i_x :=
    if b : bool then
      let! i := getitem "I" in
      let! x := getitem "X" in
      let! _ := setitem "X" (fst i, snd x) in
      ret (Some (fst i))
    else ret None in
  when_in ["X'"]
    (match i_x with
     | None => raise (UnboundLocalError "i_x")
     | Some i_x =>
         let! x_prime := getitem "X'" in
         setitem "X'" (i_x, snd x_prime)
     end).

(** The body of the loop of [_apply_flare_from_waist]. *)
Definition _apply_flare_from_waist_item (waist_y quarter_increase : float)
    (calculated_values : gmap string (option float))
    (point_name : string) '((x, y) : point) : Py.result (option point) :=
  if y <? waist_y then
    let* width := PatternGenerator.cv_get calculated_values "width" in
    if width / 2 <? x then
      (* Gradually increase flare towards hem *)
      let* flare_factor := Py.truediv (waist_y - y) waist_y in
      let adjustment := quarter_increase * flare_factor in
      Py.ok (Some (x + adjustment, y))
    else if 0 <? x then
      let* flare_factor := Py.truediv (waist_y - y) waist_y in
      let adjustment := quarter_increase * flare_factor in
      Py.ok (Some (x - adjustment, y))
    else Py.ok None
  else Py.ok None.

Definition _apply_flare_from_waist (flare_increase : float) : method unit :=
  let! has_E := contains "E" in
  let! waist_y :=
    if has_E : bool then let! E := getitem "E" in ret (snd E) else ret 0 in
  let quarter_increase := flare_increase / 4 in
  let! calculated_values := calculated_values in
  (* Adjust points below waist *)
  for_each_item
    (_apply_flare_from_waist_item waist_y quarter_increase calculated_values).

Definition _modify_silhouette (dress_style : string) : method unit :=
  if bool_decide (dress_style = "a_line") then
    (* Gradually increase width towards hem *)
    let hem_increase := 8 in
    _apply_a_line_flare hem_increase
  else if bool_decide (dress_style = "straight") then
    (* Remove waist shaping *)
    _remove_waist_shaping
  else if bool_decide (dress_style = "flared") then
    (* Significant flare from waist down *)
    let flare_increase := 15 in
    _apply_flare_from_waist flare_increase
  else ret tt.

Definition _convert_to_princess_seams : method unit := ret tt.

Definition _convert_to_french_dart : method unit := ret tt.

Definition _modify_dart_style (dart_style : string) : method unit :=
  if bool_decide (dart_style = "princess") then _convert_to_princess_seams
  else if bool_decide (dart_style = "french") then _convert_to_french_dart
  else ret tt.

Definition _modify_length_style (length_style : string) : method unit :=
  let! current_length := jacket_length in
  let continue (new_length : float) : method unit :=
    let length_adjustment := new_length - current_length in
    _adjust_length length_adjustment in
  if bool_decide (length_style = "mini") then continue 60
  else if bool_decide (length_style = "knee") then continue 70
  else if bool_decide (length_style = "midi") then continue 85
  else if bool_decide (length_style = "maxi") then continue 120
  else ret tt.

Definition apply_design_variations (design_options : DesignOptions.t)
  : method unit :=
  let! _ :=
    if bool_decide (DesignOptions.neckline_type design_options <> "round")
    then _modify_neckline (DesignOptions.neckline_type design_options)
    else ret tt in
  let! _ :=
    if bool_decide (DesignOptions.dress_style design_options <> "fitted")
    then _modify_silhouette (DesignOptions.dress_style design_options)
    else ret tt in
  let! _ :=
    if bool_decide (DesignOptions.dart_style design_options <> "standard")
    then _modify_dart_style (DesignOptions.dart_style design_options)
    else ret tt in
  if bool_decide (DesignOptions.length_style design_options <> "midi")
  then _modify_length_style (DesignOptions.length_style design_options)
  else ret tt.

End AdvancedPatternModifier.

(** ** The convenience functions

    Each builds the measurements of a size, a generator and a modifier of
    that generator, and returns the generator as the modifier left it.
    [if adjustments:] holds for a dict that is neither [None] nor empty. *)

Definition truthy (adjustments : option (gmap string float)) : bool :=
  match adjustments with
  | Some adj => negb (bool_decide (adj = ∅))
  | None => false
  end.

(** [Measurements(size=size)] followed by [PatternGenerator(measurements)]
    and [AdvancedPatternModifier(generator)]. *)
Definition modifier_of_size (size : float)
  : AdvancedPatternModifier.result AdvancedPatternModifier.t :=
  match Measurements.init {[ "size" := size ]} with
  | inl e => inl (AdvancedPatternModifier.Raised e)
  | inr measurements =>
      inr (AdvancedPatternModifier.init
             (PatternGenerator.init measurements None))
  end.

(** The generator a sequence of modifier calls leaves, or the exception
    that ended it. *)
Definition returned_generator
    (modifier : AdvancedPatternModifier.result AdvancedPatternModifier.t)
    (steps : AdvancedPatternModifier.method unit)
  : AdvancedPatternModifier.result PatternGenerator.t :=
  match modifier with
  | inl e => inl e
  | inr modifier =>
      match steps modifier with
      | (_, inl e) => inl e
      | (modifier, inr _) => inr (AdvancedPatternModifier.generator modifier)
      end
  end.

Definition create_a_line_dress `{Py.Libm} (size : float)
    (adjustments : option (gmap string float))
  : AdvancedPatternModifier.result PatternGenerator.t :=
  returned_generator (modifier_of_size size)
    (AdvancedPatternModifier.bind
       (if truthy adjustments
        then AdvancedPatternModifier.apply_advanced_adjustments
               (default ∅ adjustments)
        else AdvancedPatternModifier.ret tt)
       (fun _ =>
        let design_options :=
          DesignOptions.set_dress_style "a_line" DesignOptions.defaults in
        AdvancedPatternModifier.apply_design_variations design_options)).

Definition create_fitted_dress `{Py.Libm} (size : float)
    (waist_reduction : float)
    (adjustments : option (gmap string float))
  : AdvancedPatternModifier.result PatternGenerator.t :=
  returned_generator (modifier_of_size size)
    (let fit_adjustments : gmap string float :=
       {[ "waist_adjustment" := - waist_reduction ]} in
     let fit_adjustments :=
       if truthy adjustments
       then default ∅ adjustments ∪ fit_adjustments
       else fit_adjustments in
     AdvancedPatternModifier.apply_advanced_adjustments fit_adjustments).

Definition create_maxi_dress `{Py.Libm} (size : float) (neckline : string)
    (adjustments : option (gmap string float))
  : AdvancedPatternModifier.result PatternGenerator.t :=
  returned_generator (modifier_of_size size)
    (AdvancedPatternModifier.bind
       (if truthy adjustments
        then AdvancedPatternModifier.apply_advanced_adjustments
               (default ∅ adjustments)
        else AdvancedPatternModifier.ret tt)
       (fun _ =>
        let design_options :=
          DesignOptions.set_neckline_type neckline
            (DesignOptions.set_length_style "maxi" DesignOptions.defaults) in
        AdvancedPatternModifier.apply_design_variations design_options)).

(** * The interface: model of [pattern_interface.py] *)

(** [if output_file:] holds for a name that is neither [None] nor empty. *)
Definition names_a_file (output_file : option string) : bool :=
  match output_file with
  | Some name => negb (bool_decide (name = ""))
  | None => false
  end.

(** [generate_pattern_from_size]: the generator it returns and, when an
    output file is named, the drawing saved to it. *)
Definition generate_pattern_from_size `{Py.Libm} (size : float)
    (adjustments : option (gmap string float)) (output_file : option string)
  : Py.result (PatternGenerator.t * option Drawing.t) :=
  let* measurements := Measurements.init {[ "size" := size ]} in
  let generator := PatternGenerator.init measurements None in
  match PatternGenerator.generate_pattern adjustments generator with
  | (_, inl e) => inl e
  | (generator, inr points) =>
      if names_a_file output_file then
        match PatternPlot.plot_pattern_on_axes generator with
        | (_, inl e) => inl e
        | (generator, inr drawing) => Py.ok (generator, Some drawing)
        end
      else Py.ok (generator, None)
  end.

Section FormattedNames.

(** [str] of a float, as the f-string of the default file name uses it. *)
Variable str : float -> string.

Definition quick_generate `{Py.Libm}
    (size waist_adj hip_adj chest_adj : float)
    (filename : option string)
  : Py.result (PatternGenerator.t * option Drawing.t) :=
  let adjustments : gmap string float := ∅ in
  let adjustments :=
    if negb (waist_adj =? 0)
    then <["waist_adjustment" := waist_adj]> adjustments else adjustments in
  let adjustments :=
    if negb (hip_adj =? 0)
    then <["hip_adjustment" := hip_adj]> adjustments else adjustments in
  let adjustments :=
    if negb (chest_adj =? 0)
    then <["chest_adjustment" := chest_adj]> adjustments else adjustments in
  let adjustments :=
    if bool_decide (adjustments = ∅) then None else Some adjustments in
  let filename :=
    match filename with
    | None => ("pattern_size_" +:+ str size +:+ ".pdf")%string
    | Some name => name
    end in
  generate_pattern_from_size size adjustments (Some filename).

End FormattedNames.

(** ** The interactive prompts *)

Module PatternInterface.

(** The lines typed at the eight prompts of [get_user_measurements], after
    [strip()]: the empty string when the user just pressed Enter. *)
Record answers : Type := mk_answers {
  size_input : string;
  shoulder_input : string;
  waist_input : string;
  hip_input : string;
  chest_input : string;
  length_input : string;
  waist_from_a_input : string;
  hip_from_waist_input : string
}.

Section Prompts.

(** [float] of a string: the number the text denotes, or [ValueError]. *)
Variable float_of : string -> Py.result float.

(** [float(text) if text else default] *)
Definition answer_or (text : string) (default : float) : Py.result float :=
  if negb (bool_decide (text = "")) then float_of text else Py.ok default.

Definition get_user_measurements (typed : answers)
  : Py.result Measurements.t :=
  (* Get size first *)
  let* size := answer_or (size_input typed) 40.0 in
  (* Calculate smart defaults based on size *)
  let default_shoulder := size in
  let default_waist := size * 2 in
  let default_hip := size * 2.3 in
  let default_chest := size * 2.2 in
  let* shoulder_width := answer_or (shoulder_input typed) default_shoulder in
  let* waist_circumference := answer_or (waist_input typed) default_waist in
  let* hip_circumference := answer_or (hip_input typed) default_hip in
  let* chest_circumference := answer_or (chest_input typed) default_chest in
  let* jacket_length := answer_or (length_input typed) 85.0 in
  let* waist_from_A := answer_or (waist_from_a_input typed) 42.0 in
  let* hip_from_waist := answer_or (hip_from_waist_input typed) 19.0 in
  Measurements.init
    (Py.dict
       [("size", size);
        ("shoulder_width", shoulder_width);
        ("waist_circumference", waist_circumference);
        ("hip_circumference", hip_circumference);
        ("chest_circumference", chest_circumference);
        ("jacket_length", jacket_length);
        ("waist_from_A", waist_from_A);
        ("hip_from_waist", hip_from_waist)]).

End Prompts.

End PatternInterface.

(** * The first script: model of [pattern_making.py]

    The script is a sequence of module-level assignments that starts with
    a block of parameters ("for size 40 example").  Its derivation is
    modelled as a function of that block, given as the measurements and
    constants that hold the same names; the script as written is the
    function at the default records.  Unlike the generator the script
    divides by [dx_pn] and by [shoulder_length] without a guard. *)

Module PatternMaking.

Import Measurements PatternConstants.

Definition points `{Py.Libm} (m : Measurements.t) (c : PatternConstants.t)
  : Py.result (list (string * point)) :=
  let armhole_depth := (shoulder_width m + rule_add c) / 2 + 1 in
  let shoulder_length := shoulder_bone m + shoulder_add c in
  (* Calculated values *)
  let width :=
    shoulder_width m + rule_add c + buttons c + mid_back_seam c
    + side_seam_back c + side_seam_front c in
  let back_width := (width - mid_back_seam c - buttons c) / 2
                    + mid_back_seam c in
  let armhole_value := ((shoulder_width m + rule_add c) / 4) + 2 in
  let half_arm := armhole_value / 2 in
  let back_shoulder_length := shoulder_width m / 2 + back_shoulder_add c in
  let u_rule := u_rule_constant c + shoulder_width m / 4 in
  (* Coordinate system: x right, y up *)
  let A : point := (0, jacket_length m) in
  let B : point := (0, 0) in
  let D : point := (width, jacket_length m) in
  let C : point := (width, 0) in
  let G : point := (0, jacket_length m - armhole_depth) in
  let E : point := (0, jacket_length m - waist_from_A m) in
  let F : point := (0, jacket_length m - (waist_from_A m + hip_from_waist m)) in
  let G_prime : point := (width, snd G) in
  let E_prime : point := (width, snd E) in
  let F_prime : point := (width, snd F) in
  let H : point := (back_width, jacket_length m) in
  let H_prime : point := (back_width, 0) in
  let I : point := (back_width, snd G) in
  let J : point := (back_width - half_arm, snd G) in
  let K : point := (back_width + half_arm, snd G) in
  let J_prime : point := (fst J, jacket_length m) in
  let K_prime : point := (fst K, jacket_length m) in
  let L : point := (fst J, jacket_length m - back_shoulder_drop c) in
  let M : point := (fst K, jacket_length m - front_shoulder_drop c) in
  let L_prime : point := (0, snd L) in
  let M_prime : point := (0, snd M) in
  let N : point := (back_shoulder_length, snd L) in
  let* sl2 := Py.pow2 shoulder_length in
  let* bd2 := Py.pow2 (back_shoulder_drop c) in
  let* horiz_back := Py.math_sqrt (sl2 - bd2) in
  let P_x := fst N - horiz_back in
  let P : point := (P_x, jacket_length m) in
  let neck_width := P_x - mid_back_seam c in
  let front_neck_width := neck_width + buttons c in
  let R_x := width - front_neck_width in
  let R : point := (R_x, jacket_length m) in
  let S_x := R_x - front_dart_width c in
  let S : point := (S_x, jacket_length m) in
  let* sl2' := Py.pow2 shoulder_length in
  let* fd2 := Py.pow2 (front_shoulder_drop c) in
  let* horiz_front := Py.math_sqrt (sl2' - fd2) in
  let T_x := S_x - horiz_front in
  let T : point := (T_x, snd M) in
  let Q : point := (0, jacket_length m - neck_depth m) in
  let Q_prime : point := (P_x, snd Q) in
  let U : point := (width - u_rule, snd G) in
  let km_length := armhole_depth - front_shoulder_drop c in
  let jl_length := armhole_depth - back_shoulder_drop c in
  let V_y := snd K + (km_length / 3) in
  let V : point := (fst K, V_y) in
  let V_prime_y := snd J + (jl_length / 3) in
  let V_prime : point := (fst J, V_prime_y) in
  let W : point := (back_width, snd E) in
  let X : point := (back_width - waist_inset c, snd E) in
  let X_prime : point := (back_width + waist_inset c, snd E) in
  let dist_x_e := abs (fst X - fst E) in
  let adj_dist := (dist_x_e - 1) / 2 + 1 in
  let Z : point := (adj_dist, snd E) in
  let Z_prime : point := (fst Z - 1, snd Z) in
  let Z_double_prime : point := (fst Z + 1.5, snd Z) in
  let bda_x := fst Z in
  let z_triple_prime : point := (bda_x, snd Z - dart_depth c) in
  let AB_point : point := (bda_x, snd G) in
  (* Line PN: from P to N *)
  let dx_pn := fst N - fst P in
  let dy_pn := snd N - snd P in
  let* param := Py.truediv (bda_x - fst P) dx_pn in
  let ac_y := snd P + param * dy_pn in
  let AC : point := (bda_x, ac_y) in
  let* unit_dx := Py.truediv dx_pn shoulder_length in
  let* unit_dy := Py.truediv dy_pn shoulder_length in
  let AD : point := (fst AC + unit_dx * 1, snd AC + unit_dy * 1) in
  let AE : point := (1, snd E) in
  let U_prime_prime : point := (fst U, snd U - u_inset c) in
  let Y : point := (fst U, snd E) in
  let Y_prime : point := (fst Y, snd Y + 1) in
  let Y_double_prime : point := (fst Y, snd Y - 1.5) in
  let Y_triple_prime : point := (fst Y, snd Y + 13) in
  (* Points dict for labeling *)
  Py.ok
    [("A", A); ("B", B); ("C", C); ("D", D); ("G", G); ("E", E); ("F", F);
     ("G'", G_prime); ("E'", E_prime); ("F'", F_prime);
     ("H", H); ("H'", H_prime); ("I", I); ("J", J); ("K", K);
     ("J'", J_prime); ("K'", K_prime); ("L", L); ("M", M);
     ("L'", L_prime); ("M'", M_prime); ("N", N); ("P", P); ("Q", Q);
     ("Q'", Q_prime); ("R", R); ("S", S); ("T", T); ("U", U);
     ("V", V); ("V'", V_prime); ("W", W); ("X", X); ("X'", X_prime);
     ("Z", Z); ("Z'", Z_prime); ("Z''", Z_double_prime);
     ("z'''", z_triple_prime); ("AB", AB_point); ("AC", AC); ("AD", AD);
     ("AE", AE); ("Y", Y); ("Y'", Y_prime);
     ("Y''", Y_double_prime); ("Y'''", Y_triple_prime);
     ("U''", U_prime_prime)].

End PatternMaking.

(** * Notions used by the statements *)

(** ** Reading the outcome of a run *)

Definition succeeds {A : Type} (r : Py.result A) : bool :=
  match r with inr _ => true | inl _ => false end.

Definition error_of {A : Type} (r : Py.result A) : option Py.exn :=
  match r with inr _ => None | inl e => Some e end.

(** The derived scalars and the point map a run returned (empty when it
    raised: an exception returns nothing). *)
Definition scalars
    (r : Py.result (gmap string (option float) * gmap string point))
  : gmap string (option float) :=
  match r with inr (cv, _) => cv | inl _ => ∅ end.

Definition point_map
    (r : Py.result (gmap string (option float) * gmap string point))
  : gmap string point :=
  match r with inr (_, pts) => pts | inl _ => ∅ end.

(** ** The leg-solves *)

(** The labels of the point map, in the order of the dict display that
    ends [calculate_points]. *)
Definition labels : list string :=
  ["A"; "B"; "C"; "D"; "G"; "E"; "F"; "G'"; "E'"; "F'";
   "H"; "H'"; "I"; "J"; "K"; "J'"; "K'"; "L"; "M";
   "L'"; "M'"; "N"; "P"; "Q"; "Q'"; "R"; "S"; "T"; "U";
   "V"; "V'"; "W"; "X"; "X'"; "Z"; "Z'"; "Z''";
   "z'''"; "AB"; "AC"; "AD"; "AE"; "Y"; "Y'";
   "Y''"; "Y'''"; "U''"].

(** The hypotenuse of both leg-solves, as [calculate_base_values]
    computes it. *)
Definition shoulder_length (m : Measurements.t) (c : PatternConstants.t)
  : float :=
  Measurements.shoulder_bone m + PatternConstants.shoulder_add c.

(** The double that [x ** 2] computes on the platform, and whether the
    operation returns it ([errno] is not set). *)
Definition square `{Py.Libm} (x : float) : float := fst (Py.float_pow2 x).

Definition square_in_range `{Py.Libm} (x : float) : bool :=
  negb (snd (Py.float_pow2 x)).

(** The radicands of the two leg-solves, as [calculate_points] computes
    them: [shoulder_length**2 - drop**2], the squares being those of the
    platform. *)
Definition back_radicand `{Py.Libm} (m : Measurements.t)
    (c : PatternConstants.t) : float :=
  square (shoulder_length m c)
  - square (PatternConstants.back_shoulder_drop c).

Definition front_radicand `{Py.Libm} (m : Measurements.t)
    (c : PatternConstants.t) : float :=
  square (shoulder_length m c)
  - square (PatternConstants.front_shoulder_drop c).

Definition overflow_error : Py.exn :=
  Py.OverflowError "(34, 'Numerical result out of range')".

Definition domain_error : Py.exn := Py.ValueError "math domain error".

(** The first failing step of a fresh run, if any: the squares are taken
    and the roots extracted in the order of the source. *)
Definition leg_solve_failure `{Py.Libm} (m : Measurements.t)
    (c : PatternConstants.t) : option Py.exn :=
  if negb (square_in_range (shoulder_length m c)) then Some overflow_error
  else if negb (square_in_range (PatternConstants.back_shoulder_drop c))
  then Some overflow_error
  else if back_radicand m c <? 0 then Some domain_error
  else if negb (square_in_range (PatternConstants.front_shoulder_drop c))
  then Some overflow_error
  else if front_radicand m c <? 0 then Some domain_error
  else None.

(** The generator after the base values of a fresh run. *)
Definition with_base_values (m : Measurements.t) (c : PatternConstants.t)
  : PatternGenerator.t :=
  fst (PatternGenerator.calculate_base_values
         (PatternGenerator.init m (Some c))).


(** ** The shoulder line

    The points the shoulder line is made of, read off
    [calculate_base_values] and [calculate_points]. *)
Definition width_of (m : Measurements.t) (c : PatternConstants.t) : float :=
  Measurements.shoulder_width m + PatternConstants.rule_add c
  + PatternConstants.buttons c + PatternConstants.mid_back_seam c
  + PatternConstants.side_seam_back c + PatternConstants.side_seam_front c.

Definition back_width_of (m : Measurements.t) (c : PatternConstants.t)
  : float :=
  (width_of m c - PatternConstants.mid_back_seam c
   - PatternConstants.buttons c) / 2
  + PatternConstants.mid_back_seam c.

(** The abscissa of the dart line, which is that of Z. *)
Definition bda_x (m : Measurements.t) (c : PatternConstants.t) : float :=
  (abs (back_width_of m c - PatternConstants.waist_inset c - 0) - 1) / 2 + 1.

Definition point_N (m : Measurements.t) (c : PatternConstants.t) : point :=
  (Measurements.shoulder_width m / 2 + PatternConstants.back_shoulder_add c,
   Measurements.jacket_length m - PatternConstants.back_shoulder_drop c).

Definition point_P `{Py.Libm} (m : Measurements.t) (c : PatternConstants.t)
  : point :=
  (fst (point_N m c) - sqrt (back_radicand m c), Measurements.jacket_length m).

(** The specification's intersection: the point of the line through [P]
    and [N] on the vertical of abscissa [x], with
    [t = (x - P.x) / (N.x - P.x)] and ordinate [P.y + t * (N.y - P.y)];
    [t] is 0 when [N.x - P.x] is zero. *)
Definition meet_vertical (P N : point) (x : float) : point :=
  let t := if fst N - fst P =? 0 then 0 else (x - fst P) / (fst N - fst P) in
  (x, snd P + t * (snd N - snd P)).

(** The specification's offset: [A] moved by one unit along
    [(N - P) / length]; the unit vector is 0 when [length] is zero. *)
Definition moved_along (A P N : point) (length : float) : point :=
  let unit_dx := if length =? 0 then 0 else (fst N - fst P) / length in
  let unit_dy := if length =? 0 then 0 else (snd N - snd P) / length in
  (fst A + unit_dx * 1, snd A + unit_dy * 1).

(** Point AC of a record: the shoulder line on the dart line. *)
Definition point_AC `{Py.Libm} (m : Measurements.t)
    (c : PatternConstants.t) : point :=
  meet_vertical (point_P m c) (point_N m c) (bda_x m c).

(** ** Coordinates *)

Definition coordinates_finite (p : point) : bool :=
  is_finite (fst p) && is_finite (snd p).


(** The tolerance test of the round-trip property. *)
Definition close (a b : float) : bool := abs (a - b) <=? 1e-9.










(** ** Records of the examples *)

(** [Measurements(size=50)]. *)
Definition size_50_keywords : gmap string float := {[ "size" := 50.0 ]}.

(** The profile of the measurement-management demonstration. *)
Definition demo_profile : Measurements.t :=
  Measurements.mk 47.0 47.5 84.0 108.0 98.0 88.0 41.0 20.0 12.0 2.0.

(** The default record with another shoulder bone. *)
Definition with_shoulder_bone (v : float) : Measurements.t :=
  Measurements.mk 40.0 40.0 80.0 92.0 88.0 85.0 42.0 19.0 v 2.0.

(** The default constants with other shoulder drops. *)
Definition with_drops (back front : float) : PatternConstants.t :=
  PatternConstants.mk 10.0 3.0 1.0 1.0 1.0 3.0 5.0 3.0 2.0 back front
    2.5 13.0 3.0.



(** ** The modifier and its generator *)

(** The point map, the derived scalars and the length the modifier works
    on: those of its generator. *)
Definition points_of (self : AdvancedPatternModifier.t)
  : gmap string point :=
  PatternGenerator.points (AdvancedPatternModifier.generator self).

Definition scalars_of (self : AdvancedPatternModifier.t)
  : gmap string (option float) :=
  PatternGenerator.calculated_values (AdvancedPatternModifier.generator self).

Definition length_of (self : AdvancedPatternModifier.t) : float :=
  Measurements.jacket_length
    (PatternGenerator.measurements (AdvancedPatternModifier.generator self)).

(** A generator that holds a generated pattern: its point map has the 47
    labels and no other, and the scalars the modifier and the plot read
    are numbers. *)
Definition generated (g : PatternGenerator.t) : Prop :=
  dom (PatternGenerator.points g) = list_to_set labels
  /\ (exists v, PatternGenerator.calculated_values g !! "width"
                = Some (Some v))
  /\ (exists v, PatternGenerator.calculated_values g !! "armhole_depth"
                = Some (Some v))
  /\ (exists v, PatternGenerator.calculated_values g !! "back_width"
                = Some (Some v)).

(** A step of the modifier that goes through on a generated pattern: it
    returns normally, leaves a generated pattern and keeps the snapshot. *)
Definition goes_through (step : AdvancedPatternModifier.method unit)
  : Prop :=
  forall self, generated (AdvancedPatternModifier.generator self) ->
  exists self',
    step self = (self', inr tt)
    /\ generated (AdvancedPatternModifier.generator self')
    /\ AdvancedPatternModifier.original_points self'
       = AdvancedPatternModifier.original_points self.

(** A step that, on a generated pattern whose corners A and B are not
    within 2 of the hip level (the ordinate of F), goes through and leaves
    A, B, the hip level and the recorded length as they are. *)
Definition keeps_the_corners (step : AdvancedPatternModifier.method unit)
  : Prop :=
  forall self (A B F : point),
    generated (AdvancedPatternModifier.generator self) ->
    points_of self !! "A" = Some A ->
    points_of self !! "B" = Some B ->
    points_of self !! "F" = Some F ->
    (abs (snd A - snd F) <? 2) = false ->
    (abs (snd B - snd F) <? 2) = false ->
    exists self' F',
      step self = (self', inr tt)
      /\ generated (AdvancedPatternModifier.generator self')
      /\ points_of self' !! "A" = Some A
      /\ points_of self' !! "B" = Some B
      /\ points_of self' !! "F" = Some F'
      /\ snd F' = snd F
      /\ length_of self' = length_of self.

(** The length a length style asks for: [mini], [knee] and [maxi] change
    the length, [midi] and any other name do not. *)
Definition length_of_style (length_style : string) : option float :=
  if bool_decide (length_style = "mini") then Some 60
  else if bool_decide (length_style = "knee") then Some 70
  else if bool_decide (length_style = "maxi") then Some 120
  else None.

(** The generator after [generate_pattern()] on a fresh one. *)
Definition generated_from `{Py.Libm} (m : Measurements.t)
    (c : PatternConstants.t)
  : PatternGenerator.t :=
  fst (PatternGenerator.generate_pattern None
         (PatternGenerator.init m (Some c))).

(** An order in which a dict can be iterated: its keys, each once. *)
Definition enumerates (order : list string) (pts : gmap string point)
  : Prop :=
  NoDup order /\ forall k, k ∈ order <-> is_Some (pts !! k).

(** What the loop of [_adjust_length] makes of the point under a label. *)
Definition raised_by (adjustment : float) (label : string) (p : point)
  : point :=
  if bool_decide (label ∈ AdvancedPatternModifier.top_edge_points) then p
  else (fst p, snd p + adjustment).

(** The part of a dict of adjustments that [generate_pattern] acts on. *)
Definition waist_only (adjustments : option (gmap string float))
  : option (gmap string float) :=
  match adjustments with
  | Some adj =>
      match adj !! "waist_adjustment" with
      | Some w => Some {[ "waist_adjustment" := w ]}
      | None => None
      end
  | None => None
  end.

(** The answers of a user who types a size and presses Enter at the seven
    other prompts. *)
Definition only_size (text : string) : PatternInterface.answers :=
  PatternInterface.mk_answers text "" "" "" "" "" "" "".

(** The run of the shoulder line: the abscissa of N minus that of P, as
    the point derivation computes both. *)
Definition run_of_PN `{Py.Libm} (m : Measurements.t)
    (c : PatternConstants.t) : float :=
  let n_x :=
    Measurements.shoulder_width m / 2
    + PatternConstants.back_shoulder_add c in
  n_x - (n_x - sqrt (back_radicand m c)).

(** The error of the plotting library for a limit it refuses. *)
Definition axis_limits_error : Py.exn :=
  Py.ValueError "Axis limits cannot be NaN or Inf".

Definition zero_division : Py.exn :=
  Py.ZeroDivisionError "float division by zero".

(** ** States of the examples *)

(** A modifier whose generator holds the single point X'. *)
Definition lone_X_prime : AdvancedPatternModifier.t :=
  AdvancedPatternModifier.init
    (PatternGenerator.set_points {[ "X'" := (29.5, 43.0) ]}
       (PatternGenerator.init Measurements.defaults None)).

(** The adjustments of the adjustment demonstration. *)
Definition demo_adjustments : gmap string float :=
  Py.dict
    [("waist_adjustment", -4.0); ("hip_adjustment", 2.0);
     ("chest_adjustment", -1.0); ("length_adjustment", 5.0)].

(** A record with another length. *)
Definition with_jacket_length (v : float) (m : Measurements.t)
  : Measurements.t :=
  Measurements.mk
    (Measurements.size m) (Measurements.shoulder_width m)
    (Measurements.waist_circumference m) (Measurements.hip_circumference m)
    (Measurements.chest_circumference m) v
    (Measurements.waist_from_A m) (Measurements.hip_from_waist m)
    (Measurements.shoulder_bone m) (Measurements.neck_depth m).

(** The record [Measurements(size=size)] before the resolver runs. *)
Definition sized (size : float) : Measurements.t :=
  Measurements.mk size 40.0 80.0 92.0 88.0 85.0 42.0 19.0 12.0 2.0.

(** A design that differs from the default one in the three options that
    have an effect. *)
Definition design (neckline_type dress_style length_style : string)
  : DesignOptions.t :=
  DesignOptions.mk "sleeveless" neckline_type dress_style "standard"
    length_style "zipper".

(** * Verification *)

(** ** Facts on binary64 arithmetic *)

Section FloatFacts.

(** A finite float is a zero or a signed mantissa with an exponent. *)
Lemma is_finite_SF (x : float) :
  is_finite x = true ->
  (exists s, Prim2SF x = S754_zero s)
  \/ (exists s m e, Prim2SF x = S754_finite s m e).
Proof.
  unfold is_finite, is_nan, is_infinity.
  rewrite !FloatAxioms.eqb_spec, FloatAxioms.abs_spec.
  destruct (Prim2SF x) as [s | s | | s m e]; intros H.
  - left; eauto.
  - destruct s; vm_compute in H; discriminate.
  - vm_compute in H; discriminate.
  - right; eauto.
Qed.

Lemma SFcompare_refl (x : spec_float) :
  x <> S754_nan -> SFcompare x x = Some Eq.
Proof.
  destruct x as [s | s | | s m e]; cbn; intros H;
    try congruence; try (destruct s; reflexivity).
  rewrite Z.compare_refl.
  assert (Hm : Pos.compare_cont Eq m m = Eq) by apply Pos.compare_cont_refl.
  destruct s; rewrite Hm; reflexivity.
Qed.

(** [0 * d] is a zero when [d] is finite. *)
Lemma mul_zero_finite (d : float) :
  is_finite d = true -> exists s, Prim2SF (0 * d) = S754_zero s.
Proof.
  intros H. rewrite FloatAxioms.mul_spec.
  destruct (is_finite_SF d H) as [[s ->] | (s & m & e & ->)];
    cbn; eauto.
Qed.

(** Adding a zero to a number gives a number equal to it. *)
Lemma add_zero_eqb (y z : float) (s : bool) :
  is_nan y = false -> Prim2SF z = S754_zero s -> (y + z =? y) = true.
Proof.
  unfold is_nan. rewrite !FloatAxioms.eqb_spec, FloatAxioms.add_spec.
  intros Hy ->.
  destruct (Prim2SF y) as [sy | sy | | sy m e] eqn:E.
  - destruct sy, s; reflexivity.
  - destruct sy; reflexivity.
  - discriminate.
  - cbn [SF64add SFadd]. unfold SFeqb. rewrite SFcompare_refl; congruence.
Qed.

(** A finite float minus itself is zero. *)
Lemma sub_diag_finite (a : float) :
  is_finite a = true -> Prim2SF (a - a) = S754_zero false.
Proof.
  intros H. rewrite FloatAxioms.sub_spec.
  destruct (is_finite_SF a H) as [[s ->] | (s & m & e & ->)].
  - destruct s; reflexivity.
  - cbn [SF64sub SFsub]. rewrite Z.min_id. unfold shl_align.
    rewrite Z.sub_diag. cbn [fst].
    destruct s; cbn [cond_Zopp]; rewrite ?Z.sub_opp_r, ?Z.add_opp_diag_l,
      ?Z.sub_diag; reflexivity.
Qed.

(** A finite float is within the tolerance of itself. *)
Lemma close_refl (a : float) : is_finite a = true -> close a a = true.
Proof.
  intros H. unfold close.
  rewrite FloatAxioms.leb_spec, FloatAxioms.abs_spec, (sub_diag_finite a H).
  vm_compute. reflexivity.
Qed.

End FloatFacts.

(** ** The measurement resolver *)

Section Resolver.

Import Measurements.

(* One guarded assignment: the projections of the record built so far
   are computed, the test of the next assignment comes to the surface. *)
Local Ltac step setter :=
  cbv beta iota zeta delta
    [size shoulder_width waist_circumference hip_circumference
     chest_circumference jacket_length waist_from_A hip_from_waist
     shoulder_bone neck_depth setter].

(** What [__post_init__] leaves in each field, read off the record it was
    given: the four guarded assignments do not interfere. *)
Lemma post_init_fields (m : Measurements.t) :
  size (__post_init__ m) = size m
  /\ waist_circumference (__post_init__ m) =
       (if (waist_circumference m =? 80.0) && negb (size m =? 40.0)
        then size m * 2 else waist_circumference m)
  /\ hip_circumference (__post_init__ m) =
       (if (hip_circumference m =? 92.0) && negb (size m =? 40.0)
        then size m * 2.3 else hip_circumference m)
  /\ chest_circumference (__post_init__ m) =
       (if (chest_circumference m =? 88.0) && negb (size m =? 40.0)
        then size m * 2.2 else chest_circumference m)
  /\ shoulder_width (__post_init__ m) =
       (if (shoulder_width m =? 40.0) && negb (size m =? 40.0)
        then size m else shoulder_width m)
  /\ jacket_length (__post_init__ m) = jacket_length m
  /\ waist_from_A (__post_init__ m) = waist_from_A m
  /\ hip_from_waist (__post_init__ m) = hip_from_waist m
  /\ shoulder_bone (__post_init__ m) = shoulder_bone m
  /\ neck_depth (__post_init__ m) = neck_depth m.
Proof.
  destruct m as [sz sw wc hc cc jl wa hw sb nd].
  unfold __post_init__.
  step set_waist_circumference. destruct ((wc =? 80) && negb (sz =? 40)).
  all: step set_hip_circumference.
  all: destruct ((hc =? 92) && negb (sz =? 40)).
  all: step set_chest_circumference.
  all: destruct ((cc =? 88) && negb (sz =? 40)).
  all: step set_shoulder_width.
  all: destruct ((sw =? 40) && negb (sz =? 40)).
  all: repeat split; reflexivity.
Qed.

(** The fields the point derivation reads are left alone by a second run
    of the resolver. *)
Lemma post_init_twice_engine_fields (m : Measurements.t) :
  let r := __post_init__ m in
  shoulder_width (__post_init__ r) = shoulder_width r
  /\ jacket_length (__post_init__ r) = jacket_length r
  /\ waist_from_A (__post_init__ r) = waist_from_A r
  /\ hip_from_waist (__post_init__ r) = hip_from_waist r
  /\ shoulder_bone (__post_init__ r) = shoulder_bone r
  /\ neck_depth (__post_init__ r) = neck_depth r.
Proof.
  intros r.
  destruct (post_init_fields r)
    as (Hs & _ & _ & _ & Hsw & Hj & Hw & Hh & Hb & Hn).
  destruct (post_init_fields m) as (Hs0 & _ & _ & _ & Hsw0 & _).
  repeat split; try assumption.
  rewrite Hsw. fold r in Hs0, Hsw0. rewrite Hs0, Hsw0.
  destruct (shoulder_width m =? 40.0) eqn:E1;
    destruct (size m =? 40.0) eqn:E2; cbn; rewrite ?E1, ?E2; reflexivity.
Qed.

(** C3, as stated, fails: [Measurements(size=50)] does not have
    [hipCircumference == 115.0] nor [chestCircumference == 110.0].  The
    products [50 * 2.3] and [50 * 2.2] are rounded to the neighbouring
    floats 114.99999999999999 and 110.00000000000001. *)
Lemma resolver_size_50_hip_is_not_115 :
  exists r, Measurements.init size_50_keywords = inr r
    /\ (hip_circumference r =? 115.0) = false
    /\ (chest_circumference r =? 110.0) = false.
Proof. eexists; split; [vm_compute; reflexivity | split; reflexivity]. Qed.

(** C3 (amended).  For each of shoulder_width, waist_circumference,
    hip_circumference, chest_circumference the resolver overwrites the
    field, with [size], [size * 2], [size * 2.3], [size * 2.2]
    respectively, exactly when the field equals its default (40, 80, 92,
    88) and [size != 40.0]; it changes nothing else.  So
    [Measurements(size=50)] has shoulder_width 50.0, waist_circumference
    100.0, hip_circumference [50 * 2.3] = 114.99999999999999 and
    chest_circumference [50 * 2.2] = 110.00000000000001, and a default
    value supplied explicitly at another size
    ([Measurements(size=50, waist_circumference=80.0)]) is overwritten. *)
Theorem resolver_default_substitution :
  (forall m : Measurements.t,
      size (__post_init__ m) = size m
      /\ shoulder_width (__post_init__ m) =
           (if (shoulder_width m =? 40.0) && negb (size m =? 40.0)
            then size m else shoulder_width m)
      /\ waist_circumference (__post_init__ m) =
           (if (waist_circumference m =? 80.0) && negb (size m =? 40.0)
            then size m * 2.0 else waist_circumference m)
      /\ hip_circumference (__post_init__ m) =
           (if (hip_circumference m =? 92.0) && negb (size m =? 40.0)
            then size m * 2.3 else hip_circumference m)
      /\ chest_circumference (__post_init__ m) =
           (if (chest_circumference m =? 88.0) && negb (size m =? 40.0)
            then size m * 2.2 else chest_circumference m)
      /\ jacket_length (__post_init__ m) = jacket_length m
      /\ waist_from_A (__post_init__ m) = waist_from_A m
      /\ hip_from_waist (__post_init__ m) = hip_from_waist m
      /\ shoulder_bone (__post_init__ m) = shoulder_bone m
      /\ neck_depth (__post_init__ m) = neck_depth m)
  /\ Measurements.init size_50_keywords =
       inr (Measurements.mk 50.0 50.0 100.0 114.99999999999999
              110.00000000000001 85.0 42.0 19.0 12.0 2.0)
  /\ 50.0 * 2.3 = 114.99999999999999
  /\ 50.0 * 2.2 = 110.00000000000001
  /\ Measurements.init (<["waist_circumference" := 80.0]> size_50_keywords) =
       inr (Measurements.mk 50.0 50.0 100.0 114.99999999999999
              110.00000000000001 85.0 42.0 19.0 12.0 2.0).
Proof.
  split.
  - intros m.
    destruct (post_init_fields m)
      as (Hs & Hw & Hh & Hc & Hsw & Hj & Hwa & Hhw & Hsb & Hn).
    repeat split; assumption.
  - repeat split; vm_compute; reflexivity.
Qed.

(** C8.  A record whose four size-derivable fields all differ from their
    defaults is left unchanged by the resolver, whatever its size. *)
Theorem resolver_keeps_explicit_record (m : Measurements.t) :
  (shoulder_width m =? 40.0) = false ->
  (waist_circumference m =? 80.0) = false ->
  (hip_circumference m =? 92.0) = false ->
  (chest_circumference m =? 88.0) = false ->
  __post_init__ m = m.
Proof.
  intros Hsw Hw Hh Hc.
  destruct (post_init_fields m)
    as (E1 & E2 & E3 & E4 & E5 & E6 & E7 & E8 & E9 & E10).
  rewrite Hw in E2; rewrite Hh in E3; rewrite Hc in E4; rewrite Hsw in E5.
  cbn in E2, E3, E4, E5.
  destruct (__post_init__ m), m; cbn in *; congruence.
Qed.

Lemma resolver_keeps_explicit_record_witness :
  __post_init__ demo_profile = demo_profile.
Proof.
  apply (resolver_keeps_explicit_record demo_profile); reflexivity.
Defined.

End Resolver.

(** ** The fallible steps of the engine *)

Section Steps.

Context `{libm : Py.Libm}.

Lemma pow2_in_range (x : float) :
  square_in_range x = true -> Py.pow2 x = inr (square x).
Proof.
  unfold square_in_range, square, Py.pow2. intros Hx.
  destruct (Py.float_pow2 x) as [ix [|]]; [discriminate Hx | reflexivity].
Qed.

Lemma pow2_out_of_range (x : float) :
  square_in_range x = false -> Py.pow2 x = inl overflow_error.
Proof.
  unfold square_in_range, square, Py.pow2. intros Hx.
  destruct (Py.float_pow2 x) as [ix [|]]; [reflexivity | discriminate Hx].
Qed.

Lemma math_sqrt_nonneg (x : float) :
  (x <? 0) = false -> Py.math_sqrt x = inr (sqrt x).
Proof. unfold Py.math_sqrt. intros ->. reflexivity. Qed.

Lemma math_sqrt_neg (x : float) :
  (x <? 0) = true -> Py.math_sqrt x = inl domain_error.
Proof. unfold Py.math_sqrt. intros ->. reflexivity. Qed.

(** Both divisions by a variable sit behind a test of the divisor, so
    neither can raise. *)
Lemma guarded_truediv (x y : float) :
  (if negb (y =? 0) then Py.truediv x y else inr 0) =
  inr (if negb (y =? 0) then x / y else 0).
Proof. unfold Py.truediv. destruct (y =? 0); reflexivity. Qed.

Lemma pow2_inr (x y : float) :
  Py.pow2 x = inr y -> square_in_range x = true /\ y = square x.
Proof.
  intros H. destruct (square_in_range x) eqn:E.
  - rewrite (pow2_in_range x E) in H. split; congruence.
  - rewrite (pow2_out_of_range x E) in H. discriminate.
Qed.

Lemma pow2_inl (x : float) (e : Py.exn) :
  Py.pow2 x = inl e -> square_in_range x = false /\ e = overflow_error.
Proof.
  intros H. destruct (square_in_range x) eqn:E.
  - rewrite (pow2_in_range x E) in H. discriminate.
  - rewrite (pow2_out_of_range x E) in H. split; congruence.
Qed.

Lemma math_sqrt_inr (x y : float) :
  Py.math_sqrt x = inr y -> (x <? 0) = false /\ y = sqrt x.
Proof.
  intros H. destruct (x <? 0) eqn:E.
  - rewrite (math_sqrt_neg x E) in H. discriminate.
  - rewrite (math_sqrt_nonneg x E) in H. split; congruence.
Qed.

Lemma math_sqrt_inl (x : float) (e : Py.exn) :
  Py.math_sqrt x = inl e -> (x <? 0) = true /\ e = domain_error.
Proof.
  intros H. destruct (x <? 0) eqn:E.
  - rewrite (math_sqrt_neg x E) in H. split; congruence.
  - rewrite (math_sqrt_nonneg x E) in H. discriminate.
Qed.

End Steps.

(** Evaluates the point items of a fresh run on symbolic measurements:
    the look-ups of the derived scalars are computed away, the fallible
    float operations are kept as they stand in the source. *)
Ltac engine_run_in H :=
  unfold with_base_values, PatternGenerator.calculate_points_items in H;
  let p2 := fresh "p2" in
  let sq := fresh "sq" in
  let td := fresh "td" in
  let ng := fresh "ng" in
  remember @Py.pow2 as p2;
  remember @Py.math_sqrt as sq;
  remember @Py.truediv as td;
  remember negb as ng;
  vm_compute in H;
  subst p2 sq td ng.

(** Goes through the fallible steps of an evaluated run, in order. *)
Ltac engine_cases H :=
  repeat match type of H with
  | context [match ?x with inl _ => _ | inr _ => _ end] =>
      lazymatch x with
      | Py.pow2 _ => destruct x eqn:?
      | Py.math_sqrt _ => destruct x eqn:?
      | (if negb _ then Py.truediv _ _ else _) => destruct x eqn:?
      end
  end.

(** Closes the case where the run ended the other way. *)
Ltac engine_absurd H :=
  lazymatch type of H with
  | inl _ = inr _ => discriminate H
  | inr _ = inl _ => discriminate H
  | _ => idtac
  end.

(** Turns the equations left by [engine_cases] into what they say of the
    inputs. *)
Ltac invert_steps :=
  repeat match goal with
  | E : Py.pow2 _ = inr _ |- _ => apply pow2_inr in E; destruct E as [? ->]
  | E : Py.pow2 _ = inl _ |- _ => apply pow2_inl in E; destruct E as [? ->]
  | E : Py.math_sqrt _ = inr _ |- _ =>
      apply math_sqrt_inr in E; destruct E as [? ->]
  | E : Py.math_sqrt _ = inl _ |- _ =>
      apply math_sqrt_inl in E; destruct E as [? ->]
  | E : (if negb _ then Py.truediv _ _ else _) = inr _ |- _ =>
      rewrite guarded_truediv in E; injection E as <-
  | E : (if negb _ then Py.truediv _ _ else _) = inl _ |- _ =>
      rewrite guarded_truediv in E; discriminate E
  end.

(** ** Runs of the engine *)

Section EngineRuns.

Import Measurements PatternConstants PatternGenerator.

Context `{libm : Py.Libm}.

(** On a fresh generator [calculate_base_values] returns normally. *)
Lemma calculate_base_values_fresh (m : Measurements.t)
    (c : PatternConstants.t) :
  snd (calculate_base_values (init m (Some c))) = inr tt.
Proof. destruct m, c. vm_compute. reflexivity. Qed.

(** A fresh run is the base values followed by the point items, stored
    as a dict. *)
Lemma derive_unfold (m : Measurements.t) (c : PatternConstants.t) :
  derive m c =
  match calculate_points_items (with_base_values m c) with
  | inl e => inl e
  | inr items =>
      inr (calculated_values (with_base_values m c), Py.dict items)
  end.
Proof.
  pose proof (calculate_base_values_fresh m c) as Hs.
  unfold derive, generate_pattern, calculate_points, with_base_values.
  destruct (calculate_base_values (init m (Some c))) as [g r].
  cbn in Hs; subst r; cbn [fst].
  destruct (calculate_points_items g); reflexivity.
Qed.

(** The point items fail exactly at a leg-solve, and with that step's
    error. *)
Lemma items_raise (m : Measurements.t) (c : PatternConstants.t)
    (e : Py.exn) :
  calculate_points_items (with_base_values m c) = inl e ->
  leg_solve_failure m c = Some e.
Proof.
  destruct m, c.
  unfold leg_solve_failure, back_radicand, front_radicand, shoulder_length.
  cbn [shoulder_bone shoulder_add back_shoulder_drop front_shoulder_drop].
  intros H. engine_run_in H. engine_cases H; engine_absurd H.
  all: injection H as <-; invert_steps.
  all: repeat match goal with
       | E : _ = _ :> bool |- _ => rewrite E; clear E
       end; reflexivity.
Qed.

Lemma items_return (m : Measurements.t) (c : PatternConstants.t)
    (items : list (string * point)) :
  calculate_points_items (with_base_values m c) = inr items ->
  leg_solve_failure m c = None.
Proof.
  destruct m, c.
  unfold leg_solve_failure, back_radicand, front_radicand, shoulder_length.
  cbn [shoulder_bone shoulder_add back_shoulder_drop front_shoulder_drop].
  intros H. engine_run_in H. engine_cases H; engine_absurd H.
  clear H. invert_steps.
  repeat match goal with
  | E : _ = _ :> bool |- _ => rewrite E; clear E
  end; reflexivity.
Qed.

Lemma derive_outcome (m : Measurements.t) (c : PatternConstants.t) :
  error_of (derive m c) = leg_solve_failure m c.
Proof.
  rewrite derive_unfold.
  destruct (calculate_points_items (with_base_values m c))
    as [e | items] eqn:H; cbn; symmetry.
  - apply items_raise, H.
  - apply (items_return _ _ items), H.
Qed.

(** No run ends on a division by zero. *)
Lemma derive_no_zero_division (m : Measurements.t) (c : PatternConstants.t)
    (msg : string) :
  derive m c <> inl (Py.ZeroDivisionError msg).
Proof.
  intros H. pose proof (derive_outcome m c) as Hout.
  rewrite H in Hout. cbn in Hout. unfold leg_solve_failure in Hout.
  repeat match type of Hout with
  | context [if ?b then _ else _] => destruct b
  end; discriminate Hout.
Qed.

(** A run that returns has stored the dict of its point items. *)
Lemma derive_inr (m : Measurements.t) (c : PatternConstants.t)
    (cv : gmap string (option float)) (pts : gmap string point) :
  derive m c = inr (cv, pts) ->
  exists items,
    calculate_points_items (with_base_values m c) = inr items
    /\ cv = calculated_values (with_base_values m c)
    /\ pts = Py.dict items.
Proof.
  rewrite derive_unfold.
  destruct (calculate_points_items (with_base_values m c))
    as [e | items]; [discriminate |].
  intros H; injection H as <- <-. eauto.
Qed.

Lemma succeeds_inr (m : Measurements.t) (c : PatternConstants.t) :
  succeeds (derive m c) = true ->
  exists items,
    calculate_points_items (with_base_values m c) = inr items
    /\ derive m c =
         inr (calculated_values (with_base_values m c), Py.dict items).
Proof.
  rewrite derive_unfold.
  destruct (calculate_points_items (with_base_values m c))
    as [e | items]; [discriminate |]. eauto.
Qed.

Lemma labels_NoDup : NoDup labels.
Proof. apply (bool_decide_unpack _). vm_compute. exact I. Qed.

(** A property of the points checked by running it on each of them. *)
Lemma map_Forall_by_computation (P : point -> bool)
    (pts : gmap string point) :
  forallb (fun kp => P (snd kp)) (map_to_list pts) = true ->
  map_Forall (fun _ p => P p = true) pts.
Proof.
  intros H. apply map_Forall_to_list, Forall_forall. intros [k p] Hin.
  rewrite forallb_forall in H. apply (H (k, p)), list_elem_of_In, Hin.
Qed.

End EngineRuns.

(** ** Platforms that agree on a record *)

Section Platforms.

Import Measurements PatternConstants PatternGenerator.

(** The derivation reaches the platform through three squares only: two
    platforms that give the same outcome for [x ** 2] at the shoulder
    length and at the two drops of a record derive the same from it.  So
    a statement made on the correctly rounded platform holds on every
    platform that squares these three numbers as it does. *)
Lemma derive_on_agreeing_platforms (libm libm' : Py.Libm)
    (m : Measurements.t) (c : PatternConstants.t) :
  @Py.pow2 libm (shoulder_length m c) = @Py.pow2 libm' (shoulder_length m c) ->
  @Py.pow2 libm (back_shoulder_drop c) = @Py.pow2 libm' (back_shoulder_drop c) ->
  @Py.pow2 libm (front_shoulder_drop c)
  = @Py.pow2 libm' (front_shoulder_drop c) ->
  @derive libm m c = @derive libm' m c.
Proof.
  intros Hsl Hbd Hfd.
  rewrite (@derive_unfold libm), (@derive_unfold libm').
  assert (Hitems : @calculate_points_items libm (with_base_values m c)
                   = @calculate_points_items libm' (with_base_values m c)).
  { destruct m, c. unfold shoulder_length in Hsl.
    cbn [shoulder_bone shoulder_add back_shoulder_drop front_shoulder_drop]
      in Hsl, Hbd, Hfd.
    unfold with_base_values, calculate_points_items.
    remember (@Py.pow2 libm) as p2. remember (@Py.pow2 libm') as p2'.
    remember @Py.math_sqrt as sq. remember @Py.truediv as td.
    vm_compute. rewrite Hsl, Hbd, Hfd. reflexivity. }
  rewrite Hitems. reflexivity.
Qed.

(** The default record on a platform whose [pow] is exact at 15, 4 and 7,
    whose squares are floats. *)
Lemma default_record_on_exact_platforms (libm : Py.Libm) :
  @Py.pow_2 libm 15 = (225, false) ->
  @Py.pow_2 libm 4 = (16, false) ->
  @Py.pow_2 libm 7 = (49, false) ->
  @derive libm Measurements.defaults PatternConstants.defaults
  = @derive Py.correctly_rounded Measurements.defaults
      PatternConstants.defaults.
Proof.
  intros H15 H4 H7.
  apply derive_on_agreeing_platforms;
    unfold Py.pow2, Py.float_pow2, shoulder_length;
    cbn [shoulder_bone shoulder_add back_shoulder_drop front_shoulder_drop
         Measurements.defaults PatternConstants.defaults].
  - change (12.0 + 3.0) with 15. change (is_nan 15) with false.
    change (is_infinity 15) with false. change (15 =? 0) with false.
    change (15 <? 0) with false. change (15 =? 1) with false.
    cbv iota. rewrite H15. reflexivity.
  - change (is_nan 4.0) with false.
    change (is_infinity 4.0) with false. change (4.0 =? 0) with false.
    change (4.0 <? 0) with false. change (4.0 =? 1) with false.
    cbv iota. rewrite H4. reflexivity.
  - change (is_nan 7.0) with false.
    change (is_infinity 7.0) with false. change (7.0 =? 0) with false.
    change (7.0 <? 0) with false. change (7.0 =? 1) with false.
    cbv iota. rewrite H7. reflexivity.
Qed.

End Platforms.

(** ** The point set *)

Section PointSetOnPlatforms.

Import Measurements PatternConstants PatternGenerator.

Context `{libm : Py.Libm}.


End PointSetOnPlatforms.

Section PointSet.

Import Measurements PatternConstants PatternGenerator.



(** C4.  The all-defaults record (size 40) gives width 56.0, backWidth
    27.0, armholeValue 14.5, halfArm 7.25, backShoulderLength 23.0, uRule
    12.0 and the points A = (0, 85.0) and G = (0, 59.0). *)
Theorem default_record_end_to_end :
  Measurements.init ∅ = inr Measurements.defaults
  /\ (let r := derive Measurements.defaults PatternConstants.defaults in
      succeeds r = true
      /\ scalars r !! "width" = Some (Some 56.0)
      /\ scalars r !! "back_width" = Some (Some 27.0)
      /\ scalars r !! "armhole_value" = Some (Some 14.5)
      /\ scalars r !! "half_arm" = Some (Some 7.25)
      /\ scalars r !! "back_shoulder_length" = Some (Some 23.0)
      /\ scalars r !! "u_rule" = Some (Some 12.0)
      /\ point_map r !! "A" = Some (0, 85.0)
      /\ point_map r !! "G" = Some (0, 59.0)
      /\ 85.0 - ((40.0 + 10.0) / 2 + 1) = 59.0).
Proof.
  split; [vm_compute; reflexivity |].
  cbv zeta. repeat split; vm_compute; reflexivity.
Qed.

End PointSet.

(** ** Failures *)

Section Failures.

Import Measurements PatternConstants PatternGenerator.

Context `{libm : Py.Libm}.

Lemma calculate_base_values_points (g : PatternGenerator.t) :
  points (fst (calculate_base_values g)) = points g.
Proof.
  unfold calculate_base_values.
  destruct (cv_get _ "width"); [reflexivity |].
  destruct (cv_get _ "armhole_value"); reflexivity.
Qed.

(** A run that raises leaves the stored point map as it was. *)
Lemma generate_pattern_failure_keeps_points
    (adj : option (gmap string float)) (g g' : PatternGenerator.t)
    (e : Py.exn) :
  generate_pattern adj g = (g', inl e) -> points g' = points g.
Proof.
  pose proof (calculate_base_values_points g) as Hp.
  unfold generate_pattern, calculate_points.
  destruct (calculate_base_values g) as [g1 [e1 | u]]; cbn [fst] in Hp.
  - intros H; injection H as <- _. exact Hp.
  - destruct (calculate_points_items g1) as [e2 | items].
    + intros H; injection H as <- _. exact Hp.
    + destruct adj as [adj |]; [| discriminate].
      destruct (bool_decide (adj = ∅)); [discriminate |].
      unfold apply_adjustments. discriminate.
Qed.

(** C2 (amended).  On every platform [derive] fails exactly when a
    leg-solve fails, with the interpreter's own error: [OverflowError]
    when a square is out of range, [ValueError('math domain error')] when
    a radicand is negative, the same value for the back and the front
    leg-solve, with no point label in it; no division by zero is ever
    raised, both divisions by a variable being guarded.  In particular,
    when the squares are in range and
    [shoulder_length**2 - back_shoulder_drop**2], taken with the squares
    the platform computes, is negative, [derive] raises that
    [ValueError].  A run that raises returns no point map and leaves the
    generator's stored point map as it was. *)
Theorem derive_fails_only_at_a_leg_solve :
  (forall (m : Measurements.t) (c : PatternConstants.t),
      error_of (derive m c) = leg_solve_failure m c)
  /\ (forall (m : Measurements.t) (c : PatternConstants.t) (e : Py.exn),
        derive m c = inl e -> e = overflow_error \/ e = domain_error)
  /\ (forall (m : Measurements.t) (c : PatternConstants.t),
        square_in_range (shoulder_length m c) = true ->
        square_in_range (back_shoulder_drop c) = true ->
        (back_radicand m c <? 0) = true ->
        derive m c = inl domain_error)
  /\ (forall (adj : option (gmap string float)) (g g' : PatternGenerator.t)
        (e : Py.exn),
        generate_pattern adj g = (g', inl e) -> points g' = points g).
Proof.
  split; [exact derive_outcome |].
  split; [| split; [| exact generate_pattern_failure_keeps_points]].
  - intros m c e H. pose proof (derive_outcome m c) as Hout.
    rewrite H in Hout. cbn in Hout. unfold leg_solve_failure in Hout.
    repeat match type of Hout with
    | context [if ?b then _ else _] => destruct b
    end; first [discriminate Hout | injection Hout as ->; auto].
  - intros m c Hsl Hbd Hb. pose proof (derive_outcome m c) as Hout.
    unfold leg_solve_failure in Hout. rewrite Hsl, Hbd, Hb in Hout.
    cbn in Hout. destruct (derive m c); cbn in Hout; congruence.
Qed.

End Failures.

Section FailureExamples.

Import Measurements PatternConstants PatternGenerator.

(** C2, as stated, fails.  With [shoulderBone + shoulderAdd] equal to the
    back drop (4 = 4) the back radicand is 0 and nothing is raised: with a
    front drop of 4 too, [derive] returns; with the default front drop of 7
    it raises at the front leg-solve, not the back one.  And the error of
    a back failure (shoulder bone 0) and of a front failure (shoulder bone
    2) is the same [ValueError], which names no point. *)
Lemma equal_shoulder_and_drop_does_not_raise :
  (let m := with_shoulder_bone 1.0 in
   let c := with_drops 4.0 4.0 in
   (shoulder_length m c <=? back_shoulder_drop c) = true
   /\ succeeds (derive m c) = true)
  /\ (let m := with_shoulder_bone 1.0 in
      let c := PatternConstants.defaults in
      (shoulder_length m c <=? back_shoulder_drop c) = true
      /\ Py.math_sqrt (back_radicand m c) = inr 0
      /\ (front_radicand m c <? 0) = true
      /\ derive m c = inl domain_error)
  /\ (let c := PatternConstants.defaults in
      (back_radicand (with_shoulder_bone 0.0) c <? 0) = true
      /\ (back_radicand (with_shoulder_bone 2.0) c <? 0) = false
      /\ derive (with_shoulder_bone 0.0) c = inl domain_error
      /\ derive (with_shoulder_bone 2.0) c = inl domain_error).
Proof.
  cbv zeta. repeat split; vm_compute; reflexivity.
Qed.

Lemma derive_fails_only_at_a_leg_solve_on_short_shoulder :
  derive (with_shoulder_bone 0.0) PatternConstants.defaults
  = inl domain_error.
Proof.
  apply (proj1 (proj2 (proj2
                  (@derive_fails_only_at_a_leg_solve Py.correctly_rounded)))
           (with_shoulder_bone 0.0) PatternConstants.defaults);
    reflexivity.
Defined.

End FailureExamples.

(** ** The derived scalars *)

Section Scalars.

Import Measurements PatternConstants PatternGenerator.

Lemma cv_get_insert_eq (cv : gmap string (option float)) (k : string)
    (v : float) :
  cv_get (<[k := Some v]> cv) k = inr v.
Proof. unfold cv_get. rewrite lookup_insert_eq. reflexivity. Qed.

Lemma cv_get_insert_ne (cv : gmap string (option float)) (k k' : string)
    (v : option float) :
  k <> k' -> cv_get (<[k := v]> cv) k' = cv_get cv k'.
Proof. intros H. unfold cv_get. rewrite lookup_insert_ne by exact H. reflexivity. Qed.

(** C7.  Whatever the measurements, the constants and the state of the
    generator, [calculate_base_values] returns normally and leaves under
    ['back_width'] the value [(width - mid_back_seam - buttons) / 2 +
    mid_back_seam] computed from the width it has just stored, and under
    ['half_arm'] half the armhole value it has just stored; these are the
    derived scalars [derive] returns. *)
Theorem back_width_is_computed_from_width (g : PatternGenerator.t) :
  let m := measurements g in
  let c := constants g in
  let width :=
    shoulder_width m + rule_add c + buttons c + mid_back_seam c
    + side_seam_back c + side_seam_front c in
  let armhole_value := (shoulder_width m + rule_add c) / 4 + 2 in
  let g' := fst (calculate_base_values g) in
  snd (calculate_base_values g) = inr tt
  /\ calculated_values g' !! "width" = Some (Some width)
  /\ calculated_values g' !! "back_width" =
       Some (Some ((width - mid_back_seam c - buttons c) / 2
                   + mid_back_seam c))
  /\ calculated_values g' !! "armhole_value" = Some (Some armhole_value)
  /\ calculated_values g' !! "half_arm" = Some (Some (armhole_value / 2))
  /\ (forall (m : Measurements.t) (c : PatternConstants.t)
        (cv : gmap string (option float)) (pts : gmap string point),
        derive m c = inr (cv, pts) ->
        cv = calculated_values
               (fst (calculate_base_values (init m (Some c))))).
Proof.
  intros m c width armhole_value g'.
  assert (Hrun : calculate_base_values g =
    (set_calculated_values
       (<["half_arm" := Some (armhole_value / 2)]>
          (<["back_width" :=
               Some ((width - mid_back_seam c - buttons c) / 2
                     + mid_back_seam c)]>
             (Py.update (calculated_values g)
                [("shoulder_length", Some (shoulder_bone m + shoulder_add c));
                 ("armhole_depth",
                    Some ((shoulder_width m + rule_add c) / 2 + 1));
                 ("width", Some width);
                 ("back_width", None);
                 ("armhole_value", Some armhole_value);
                 ("back_shoulder_length",
                    Some (shoulder_width m / 2 + back_shoulder_add c));
                 ("u_rule", Some (u_rule_constant c + shoulder_width m / 4))])))
       g, inr tt)).
  { unfold calculate_base_values. fold m c width armhole_value.
    cbn [calculated_values set_calculated_values Py.update fold_left fst snd].
    rewrite !cv_get_insert_ne by discriminate. rewrite cv_get_insert_eq.
    rewrite !cv_get_insert_ne by discriminate. rewrite cv_get_insert_eq.
    reflexivity. }
  subst g'. rewrite Hrun.
  cbn [fst snd calculated_values set_calculated_values Py.update fold_left].
  split; [reflexivity |].
  split; [rewrite !lookup_insert_ne by discriminate;
          apply lookup_insert_eq |].
  split; [rewrite lookup_insert_ne by discriminate;
          apply lookup_insert_eq |].
  split; [rewrite !lookup_insert_ne by discriminate;
          apply lookup_insert_eq |].
  split; [apply lookup_insert_eq |].
  intros m0 c0 cv pts H.
  destruct (derive_inr m0 c0 cv pts H) as (items & _ & -> & _).
  reflexivity.
Qed.

End Scalars.

(** ** The shoulder line: points AC and AD *)

(** Evaluates the point items of a run that returns, and names them. *)
Ltac returned_items m c H items Hd :=
  let Hit := fresh "Hit" in
  destruct (succeeds_inr m c H) as (items & Hit & Hd);
  rewrite Hd; cbn [point_map scalars];
  destruct m, c; unfold shoulder_length;
  cbn [Measurements.shoulder_bone PatternConstants.shoulder_add
       PatternConstants.back_shoulder_drop
       PatternConstants.front_shoulder_drop];
  engine_run_in Hit; engine_cases Hit; engine_absurd Hit;
  injection Hit as <-; invert_steps; clear Hd.

Section ShoulderLine.

Import Measurements PatternConstants PatternGenerator.

Context `{libm : Py.Libm}.

(** The shoulder line of a run that returns. *)
Lemma shoulder_line_points (m : Measurements.t) (c : PatternConstants.t) :
  succeeds (derive m c) = true ->
  point_map (derive m c) !! "P" = Some (point_P m c)
  /\ point_map (derive m c) !! "N" = Some (point_N m c)
  /\ point_map (derive m c) !! "Z"
     = Some (bda_x m c, jacket_length m - waist_from_A m)
  /\ point_map (derive m c) !! "AC" = Some (point_AC m c)
  /\ point_map (derive m c) !! "AD"
     = Some (moved_along (point_AC m c) (point_P m c) (point_N m c)
               (shoulder_length m c))
  /\ scalars (derive m c) !! "shoulder_length"
     = Some (Some (shoulder_length m c)).
Proof.
  intros Hs. returned_items m c Hs items Hd.
  unfold point_AC, moved_along, meet_vertical, point_P, point_N, bda_x,
    back_width_of, width_of, back_radicand, shoulder_length.
  cbn [fst snd jacket_length waist_from_A shoulder_width shoulder_bone
       rule_add buttons mid_back_seam side_seam_back side_seam_front
       back_shoulder_add shoulder_add back_shoulder_drop waist_inset].
  repeat match goal with
  | |- context [PrimFloat.eqb ?a 0] => destruct (PrimFloat.eqb a 0)
  end;
  cbn [negb];
  remember @square as sqr;
  repeat split; vm_compute; reflexivity.
Qed.

(** C6 (amended).  On every platform no run raises a division by zero,
    and on every record on which [derive] returns, P, N and the abscissa
    of Z are the values the derivation gives them and AC is the point
    where the line through P and N meets the vertical [x = bda_x]: its
    ordinate is [P.y + t * (N.y - P.y)] with
    [t = (bda_x - P.x) / (N.x - P.x)], and [t = 0] when [N.x - P.x] is
    zero.  In that case AC is [(bda_x, P.y + 0 * (N.y - P.y))], whose
    ordinate equals [P.y] when the jacket length is a number and
    [N.y - P.y] is finite. *)
Theorem AC_lies_on_the_dart_line :
  (forall (m : Measurements.t) (c : PatternConstants.t) (msg : string),
      derive m c <> inl (Py.ZeroDivisionError msg))
  /\ (forall (m : Measurements.t) (c : PatternConstants.t),
      succeeds (derive m c) = true ->
      point_map (derive m c) !! "P" = Some (point_P m c)
      /\ point_map (derive m c) !! "N" = Some (point_N m c)
      /\ point_map (derive m c) !! "Z"
         = Some (bda_x m c, jacket_length m - waist_from_A m)
      /\ point_map (derive m c) !! "AC"
         = Some (meet_vertical (point_P m c) (point_N m c) (bda_x m c)))
  /\ (forall (m : Measurements.t) (c : PatternConstants.t),
      succeeds (derive m c) = true ->
      (fst (point_N m c) - fst (point_P m c) =? 0) = true ->
      let dy_pn := snd (point_N m c) - snd (point_P m c) in
      point_map (derive m c) !! "AC"
      = Some (bda_x m c, jacket_length m + 0 * dy_pn)
      /\ (is_nan (jacket_length m) = false -> is_finite dy_pn = true ->
          (jacket_length m + 0 * dy_pn =? jacket_length m) = true)).
Proof.
  split; [exact derive_no_zero_division |]. split.
  - intros m c Hs.
    destruct (shoulder_line_points m c Hs) as (HP & HN & HZ & HAC & _).
    repeat split; assumption.
  - intros m c Hs Hdx dy_pn.
    destruct (shoulder_line_points m c Hs) as (_ & _ & _ & HAC & _).
    split.
    + rewrite HAC. unfold point_AC, meet_vertical. rewrite Hdx.
      reflexivity.
    + intros Hnan Hfin.
      destruct (mul_zero_finite _ Hfin) as [s Hzero].
      exact (add_zero_eqb _ _ s Hnan Hzero).
Qed.

End ShoulderLine.

Section ShoulderLineExamples.

Import Measurements PatternConstants PatternGenerator.

(** A shoulder as long as the back drop: P stands right above N. *)
Lemma AC_lies_on_the_dart_line_when_PN_is_vertical :
  let m := with_shoulder_bone 1.0 in
  let c := with_drops 4.0 4.0 in
  let dy_pn := snd (point_N m c) - snd (point_P m c) in
  point_map (derive m c) !! "AC"
  = Some (bda_x m c, jacket_length m + 0 * dy_pn)
  /\ (is_nan (jacket_length m) = false -> is_finite dy_pn = true ->
      (jacket_length m + 0 * dy_pn =? jacket_length m) = true).
Proof.
  apply (proj2 (proj2 (@AC_lies_on_the_dart_line Py.correctly_rounded))
           (with_shoulder_bone 1.0) (with_drops 4.0 4.0));
    vm_compute; reflexivity.
Defined.

(** C6, as stated, fails.  With a shoulder bone of 1 and the default
    constants the shoulder length is the back drop, so [N.x = P.x]; yet
    the derivation does crash, at the front leg-solve, and there is no
    AC.  And where it returns with [N.x = P.x], AC need not be
    [(bda_x, P.y)]: with an infinite jacket length [P.y] is infinite and
    the ordinate of AC is NaN. *)
Lemma vertical_shoulder_line_can_raise_or_give_NaN :
  (let m := with_shoulder_bone 1.0 in
   let c := PatternConstants.defaults in
   (fst (point_N m c) - fst (point_P m c) =? 0) = true
   /\ derive m c = inl domain_error
   /\ point_map (derive m c) !! "AC" = None)
  /\ (let m := with_jacket_length infinity (with_shoulder_bone 1.0) in
      let c := with_drops 4.0 4.0 in
      (fst (point_N m c) - fst (point_P m c) =? 0) = true
      /\ succeeds (derive m c) = true
      /\ point_map (derive m c) !! "P" = Some (23.0, infinity)
      /\ point_map (derive m c) !! "AC" = Some (12.75, nan)).
Proof.
  cbv zeta. repeat split; vm_compute; reflexivity.
Qed.




End ShoulderLineExamples.

(** ** Adjustments *)

Section Adjustments.

Import Measurements PatternConstants PatternGenerator.

(** The waist adjustment alone decides what [apply_adjustments] does. *)
Lemma apply_adjustments_reads_waist (adj adj' : gmap string float)
    (g : PatternGenerator.t) :
  adj' !! "waist_adjustment" = adj !! "waist_adjustment" ->
  apply_adjustments adj' g = apply_adjustments adj g.
Proof. intros H. unfold apply_adjustments. rewrite H. reflexivity. Qed.

(** [generate_pattern] applies the adjustments, when there are any, to the
    generator as the derivation left it. *)
Lemma generate_pattern_adjusts (adj : gmap string float)
    (g : PatternGenerator.t) :
  generate_pattern (Some adj) g =
  match generate_pattern None g with
  | (g1, inl e) => (g1, inl e)
  | (g1, inr _) =>
      if bool_decide (adj = ∅) then (g1, inr (points g1))
      else (fst (apply_adjustments adj g1),
            inr (points (fst (apply_adjustments adj g1))))
  end.
Proof.
  unfold generate_pattern.
  destruct (calculate_base_values g) as [g1 [e | u]]; [reflexivity |].
  destruct (calculate_points g1) as [g2 [e | u']]; [reflexivity |].
  destruct (bool_decide (adj = ∅)); reflexivity.
Qed.

(** C10.  [apply_adjustments] never raises and touches nothing but the
    points X and X': the measurements, the constants and the derived
    scalars are kept, every other point is kept, every point keeps its
    ordinate, and with a ['waist_adjustment'] of [w] the abscissa of X
    grows by [w / 4] and that of X' shrinks by [w / 4]; without one the
    generator is unchanged.  Entries under ['hip_adjustment'] and
    ['chest_adjustment'] change nothing.  [generate_pattern] applies the
    adjustments to the generator as the derivation left it. *)
Theorem adjustments_only_move_X_and_X_prime (adj : gmap string float)
    (g : PatternGenerator.t) :
  let g' := fst (apply_adjustments adj g) in
  snd (apply_adjustments adj g) = inr tt
  /\ measurements g' = measurements g
  /\ constants g' = constants g
  /\ calculated_values g' = calculated_values g
  /\ (forall l : string, l <> "X" -> l <> "X'" ->
      points g' !! l = points g !! l)
  /\ (forall l : string,
      snd <$> (points g' !! l) = snd <$> (points g !! l))
  /\ (forall (w : float) (p : point),
      adj !! "waist_adjustment" = Some w -> points g !! "X" = Some p ->
      points g' !! "X" = Some (fst p + w / 4, snd p))
  /\ (forall (w : float) (p : point),
      adj !! "waist_adjustment" = Some w -> points g !! "X'" = Some p ->
      points g' !! "X'" = Some (fst p - w / 4, snd p))
  /\ (adj !! "waist_adjustment" = None -> g' = g)
  /\ (forall h : float,
      apply_adjustments (<["hip_adjustment" := h]> adj) g
      = apply_adjustments adj g)
  /\ (forall h : float,
      apply_adjustments (<["chest_adjustment" := h]> adj) g
      = apply_adjustments adj g)
  /\ apply_adjustments (delete "hip_adjustment" adj) g
     = apply_adjustments adj g
  /\ apply_adjustments (delete "chest_adjustment" adj) g
     = apply_adjustments adj g
  /\ generate_pattern (Some adj) g =
     match generate_pattern None g with
     | (g1, inl e) => (g1, inl e)
     | (g1, inr _) =>
         if bool_decide (adj = ∅) then (g1, inr (points g1))
         else (fst (apply_adjustments adj g1),
               inr (points (fst (apply_adjustments adj g1))))
     end.
Proof.
  intros g'.
  assert (Hframe :
    snd (apply_adjustments adj g) = inr tt
    /\ measurements g' = measurements g
    /\ constants g' = constants g
    /\ calculated_values g' = calculated_values g
    /\ (forall l : string, l <> "X" -> l <> "X'" ->
        points g' !! l = points g !! l)
    /\ (forall l : string,
        snd <$> (points g' !! l) = snd <$> (points g !! l))
    /\ (forall (w : float) (p : point),
        adj !! "waist_adjustment" = Some w -> points g !! "X" = Some p ->
        points g' !! "X" = Some (fst p + w / 4, snd p))
    /\ (forall (w : float) (p : point),
        adj !! "waist_adjustment" = Some w -> points g !! "X'" = Some p ->
        points g' !! "X'" = Some (fst p - w / 4, snd p))
    /\ (adj !! "waist_adjustment" = None -> g' = g)).
  { subst g'. unfold apply_adjustments. destruct g as [m c pts cv].
    cbn [points set_points measurements constants calculated_values].
    destruct (adj !! "waist_adjustment") as [w |] eqn:Ew.
    2: { cbn. repeat split; try reflexivity; intros; discriminate. }
    destruct (pts !! "X") as [x |] eqn:EX;
      cbn [points set_points measurements constants calculated_values];
      rewrite ?lookup_insert_ne by discriminate;
      destruct (pts !! "X'") as [x' |] eqn:EX';
      cbn [fst snd points set_points measurements constants
           calculated_values];
      (split; [reflexivity |]); (split; [reflexivity |]);
      (split; [reflexivity |]); (split; [reflexivity |]).
    all: split;
      [intros l H1 H2; rewrite ?lookup_insert_ne by congruence; reflexivity |].
    all: split;
      [intros l;
       destruct (decide (l = "X'")) as [-> | H2];
       [| destruct (decide (l = "X")) as [-> | H1]];
       repeat first
         [ rewrite lookup_insert_eq
         | rewrite lookup_insert_ne by first [discriminate | congruence] ];
       rewrite ?EX, ?EX'; reflexivity |].
    all: split;
      [intros w0 p Hw Hp; injection Hw as <-;
       first [injection Hp as <- | discriminate Hp];
       repeat first
         [ rewrite lookup_insert_eq
         | rewrite lookup_insert_ne by discriminate ];
       rewrite ?EX; reflexivity |].
    all: split;
      [intros w0 p Hw Hp; injection Hw as <-;
       first [injection Hp as <- | discriminate Hp];
       repeat first
         [ rewrite lookup_insert_eq
         | rewrite lookup_insert_ne by discriminate ];
       rewrite ?EX'; reflexivity |].
    all: intros; discriminate. }
  destruct Hframe as (H1 & H2 & H3 & H4 & H5 & H6 & H7 & H8 & H9).
  repeat (split; [assumption |]).
  split; [intros h; apply apply_adjustments_reads_waist;
          apply lookup_insert_ne; discriminate |].
  split; [intros h; apply apply_adjustments_reads_waist;
          apply lookup_insert_ne; discriminate |].
  split; [apply apply_adjustments_reads_waist;
          apply lookup_delete_ne; discriminate |].
  split; [apply apply_adjustments_reads_waist;
          apply lookup_delete_ne; discriminate |].
  apply generate_pattern_adjusts.
Qed.

End Adjustments.

(** ** Saving and reloading a profile *)

Section Persistence.

Import Measurements PatternConstants PatternGenerator.

(** The point derivation reads six fields of the measurements. *)
Lemma derive_reads_six_fields (m1 m2 : Measurements.t)
    (c : PatternConstants.t) :
  shoulder_width m1 = shoulder_width m2 ->
  jacket_length m1 = jacket_length m2 ->
  waist_from_A m1 = waist_from_A m2 ->
  hip_from_waist m1 = hip_from_waist m2 ->
  shoulder_bone m1 = shoulder_bone m2 ->
  neck_depth m1 = neck_depth m2 ->
  derive m1 c = derive m2 c.
Proof.
  destruct m1, m2, c; cbn; intros; subst.
  rewrite !derive_unfold.
  match goal with
  | |- match calculate_points_items ?g1 with _ => _ end
       = match calculate_points_items ?g2 with _ => _ end =>
      assert (Hitems : calculate_points_items g1 = calculate_points_items g2)
        by (unfold with_base_values; vm_compute; reflexivity);
      assert (Hcv : calculated_values g1 = calculated_values g2)
        by (unfold with_base_values; vm_compute; reflexivity)
  end.
  rewrite Hitems, Hcv. reflexivity.
Qed.

(** What a fresh generator returns is what [derive] returns. *)
Lemma generate_pattern_fresh (m : Measurements.t)
    (c : PatternConstants.t) :
  snd (generate_pattern None (init m (Some c)))
  = match derive m c with
    | inl e => inl e
    | inr r => inr (snd r)
    end.
Proof.
  unfold derive.
  destruct (generate_pattern None (init m (Some c))) as [g [e | pts]];
    reflexivity.
Qed.

(** What [load_measurements] makes of a file written by
    [save_measurements]: the resolver run on the saved record, with the
    default constants. *)
Lemma load_saved (g : PatternGenerator.t) (filename : string)
    (fs : gmap string document) :
  load_measurements filename (save_measurements filename g fs)
  = inr (init (__post_init__ (measurements g)) None).
Proof.
  unfold load_measurements, save_measurements.
  rewrite lookup_insert_eq.
  destruct g as [[sz sw wc hc cc jl wa hw sb nd] c pts cv].
  unfold Measurements.init, keywords.
  remember Measurements.__post_init__ as resolver.
  vm_compute. reflexivity.
Qed.

(** C9.  Take a fully resolved record, that is one the resolver has
    produced, in a generator with any constants and any state.  Saving it
    and loading the file gives a generator (with the default constants)
    whose measurements are the resolver run on the saved record; they
    agree with the saved record on every field the derivation reads, so
    [generate_pattern] on the loaded generator returns what it returns on
    the original record, and so does [derive] under any constants: the
    same point map, hence within 1e-9 at every coordinate that is a
    finite number (or the same error). *)
Theorem saved_profile_reloads_to_the_same_points (m0 : Measurements.t)
    (c : PatternConstants.t) (pts0 : gmap string point)
    (cv0 : gmap string (option float)) (filename : string)
    (fs : gmap string document) :
  let m := __post_init__ m0 in
  let g := PatternGenerator.mk m c pts0 cv0 in
  exists g' : PatternGenerator.t,
    load_measurements filename (save_measurements filename g fs) = inr g'
    /\ measurements g' = __post_init__ m
    /\ constants g' = PatternConstants.defaults
    /\ shoulder_width (measurements g') = shoulder_width m
    /\ jacket_length (measurements g') = jacket_length m
    /\ waist_from_A (measurements g') = waist_from_A m
    /\ hip_from_waist (measurements g') = hip_from_waist m
    /\ shoulder_bone (measurements g') = shoulder_bone m
    /\ neck_depth (measurements g') = neck_depth m
    /\ (forall c' : PatternConstants.t,
        derive (measurements g') c' = derive m c')
    /\ snd (generate_pattern None g')
       = snd (generate_pattern None (init m None))
    /\ (forall (pts : gmap string point) (label : string) (p : point),
        snd (generate_pattern None (init m None)) = inr pts ->
        pts !! label = Some p ->
        coordinates_finite p = true ->
        exists (pts' : gmap string point) (p' : point),
          snd (generate_pattern None g') = inr pts'
          /\ pts' !! label = Some p'
          /\ close (fst p) (fst p') = true
          /\ close (snd p) (snd p') = true).
Proof.
  intros m g.
  destruct (post_init_twice_engine_fields m0)
    as (Hsw & Hjl & Hwa & Hhw & Hsb & Hnd).
  fold m in Hsw, Hjl, Hwa, Hhw, Hsb, Hnd.
  assert (Hgen : snd (generate_pattern None (init (__post_init__ m) None))
                 = snd (generate_pattern None (init m None))).
  { change (init (__post_init__ m) None)
      with (init (__post_init__ m) (Some PatternConstants.defaults)).
    change (init m None) with (init m (Some PatternConstants.defaults)).
    rewrite !generate_pattern_fresh.
    rewrite (derive_reads_six_fields (__post_init__ m) m) by assumption.
    reflexivity. }
  exists (init (__post_init__ m) None).
  split; [apply (load_saved g) |].
  cbn [measurements constants init default].
  repeat (split; [first [reflexivity | assumption] |]).
  split; [intros c'; apply derive_reads_six_fields; assumption |].
  split; [exact Hgen |].
  intros pts label p Hpts Hp Hfin.
  exists pts, p. rewrite Hgen.
  split; [exact Hpts |]. split; [exact Hp |].
  unfold coordinates_finite in Hfin.
  apply andb_true_iff in Hfin as [Hx Hy].
  split; apply close_refl; assumption.
Qed.

End Persistence.

(** ** Loops over the point map *)

Section Loops.

Implicit Types (order : list string) (pts cur : gmap string point).
Implicit Types (body : string -> point -> Py.result (option point)).

(** A loop whose body never raises: every item the loop reaches is replaced
    by what the body stores for the value the item had before the loop. *)
Lemma for_items_in_returns order body
    (store : string -> point -> option point) :
  NoDup order ->
  (forall k p, body k p = inr (store k p)) ->
  forall cur, exists res,
    for_items_in order body cur = (res, inr tt)
    /\ forall k,
         res !! k =
         if bool_decide (k ∈ order)
         then (fun p => default p (store k p)) <$> cur !! k
         else cur !! k.
Proof.
  intros Hnd Hbody. induction Hnd as [|k0 rest Hnotin Hnd IH]; intros cur.
  - exists cur. split; [reflexivity|]. intros k. reflexivity.
  - cbn [for_items_in].
    assert (Hin : forall k, k <> k0 ->
              bool_decide (k ∈ k0 :: rest) = bool_decide (k ∈ rest)).
    { intros k Hk. apply bool_decide_ext. rewrite elem_of_cons. tauto. }
    assert (Hk0 : bool_decide (k0 ∈ k0 :: rest) = true).
    { apply bool_decide_eq_true. apply elem_of_cons. auto. }
    assert (Hk0' : bool_decide (k0 ∈ rest) = false).
    { apply bool_decide_eq_false. exact Hnotin. }
    destruct (cur !! k0) as [p|] eqn:Ecur.
    + rewrite Hbody. destruct (store k0 p) as [q|] eqn:Est.
      * destruct (IH (<[k0 := q]> cur)) as (res & Hrun & Hres).
        exists res. split; [exact Hrun|]. intros k.
        destruct (decide (k = k0)) as [->|Hne].
        -- rewrite Hres, Hk0, Hk0', lookup_insert_eq, Ecur. cbn.
           rewrite Est. reflexivity.
        -- rewrite Hres, (Hin k Hne), lookup_insert_ne by congruence.
           reflexivity.
      * destruct (IH cur) as (res & Hrun & Hres).
        exists res. split; [exact Hrun|]. intros k.
        destruct (decide (k = k0)) as [->|Hne].
        -- rewrite Hres, Hk0, Hk0', Ecur. cbn. rewrite Est. reflexivity.
        -- rewrite Hres, (Hin k Hne). reflexivity.
    + destruct (IH cur) as (res & Hrun & Hres).
      exists res. split; [exact Hrun|]. intros k.
      destruct (decide (k = k0)) as [->|Hne].
      * rewrite Hres, Hk0, Hk0', Ecur. reflexivity.
      * rewrite Hres, (Hin k Hne). reflexivity.
Qed.

(** A loop whose body, when it does not raise [e], stores nothing: the map
    is left as it was, and the loop raises [e] exactly when the body raises
    on one of the items. *)
Lemma for_items_in_frozen order body (e : Py.exn) cur :
  (forall k p, body k p = inl e \/ body k p = inr None) ->
  let raises k := exists p, cur !! k = Some p /\ body k p = inl e in
  (Exists raises order /\ for_items_in order body cur = (cur, inl e))
  \/ (~ Exists raises order /\ for_items_in order body cur = (cur, inr tt)).
Proof.
  intros Hbody raises. induction order as [|k0 rest IH].
  - right. split; [|reflexivity]. intros H. inversion H.
  - cbn [for_items_in]. destruct (cur !! k0) as [p|] eqn:Ecur.
    + destruct (Hbody k0 p) as [Hb|Hb]; rewrite Hb.
      * left. split; [|reflexivity]. apply Exists_cons_hd. exists p. auto.
      * destruct IH as [[Hex Hrun]|[Hnex Hrun]].
        -- left. split; [apply Exists_cons_tl; exact Hex|exact Hrun].
        -- right. split; [|exact Hrun]. rewrite Exists_cons.
           intros [(p' & Hp' & Hraise)|H]; [|exact (Hnex H)].
           rewrite Ecur in Hp'. injection Hp' as <-. congruence.
    + destruct IH as [[Hex Hrun]|[Hnex Hrun]].
      * left. split; [apply Exists_cons_tl; exact Hex|exact Hrun].
      * right. split; [|exact Hrun]. rewrite Exists_cons.
        intros [(p' & Hp' & _)|H]; [congruence|exact (Hnex H)].
Qed.


Lemma map_to_list_enumerates pts : enumerates (map fst (map_to_list pts)) pts.
Proof.
  split.
  - apply (NoDup_fst_map_to_list pts).
  - intros k.
    change (map fst (map_to_list pts)) with ((map_to_list pts).*1).
    rewrite list_elem_of_fmap. split.
    + intros ([k' p] & -> & Hin). apply elem_of_map_to_list in Hin.
      cbn. eauto.
    + intros [p Hp]. exists (k, p). split; [reflexivity|].
      apply elem_of_map_to_list. exact Hp.
Qed.

Lemma for_items_in_returns_all order body
    (store : string -> point -> option point) pts :
  enumerates order pts ->
  (forall k p, body k p = inr (store k p)) ->
  exists res,
    for_items_in order body pts = (res, inr tt)
    /\ forall k, res !! k = (fun p => default p (store k p)) <$> pts !! k.
Proof.
  intros [Hnd Hkeys] Hbody.
  destruct (for_items_in_returns order body store Hnd Hbody pts)
    as (res & Hrun & Hres).
  exists res. split; [exact Hrun|]. intros k. rewrite Hres.
  destruct (bool_decide (k ∈ order)) eqn:E; [reflexivity|].
  apply bool_decide_eq_false in E.
  destruct (pts !! k) as [p|] eqn:Ep; [|reflexivity].
  exfalso. apply E, Hkeys. eauto.
Qed.

Lemma for_items_returns body (store : string -> point -> option point) pts :
  (forall k p, body k p = inr (store k p)) ->
  exists res,
    for_items body pts = (res, inr tt)
    /\ forall k, res !! k = (fun p => default p (store k p)) <$> pts !! k.
Proof.
  apply for_items_in_returns_all, map_to_list_enumerates.
Qed.

Lemma for_items_in_frozen_all order body (e : Py.exn) pts :
  enumerates order pts ->
  (forall k p, body k p = inl e \/ body k p = inr None) ->
  let raises := exists k p, pts !! k = Some p /\ body k p = inl e in
  (raises /\ for_items_in order body pts = (pts, inl e))
  \/ (~ raises /\ for_items_in order body pts = (pts, inr tt)).
Proof.
  intros Henum Hbody raises.
  assert (Hiff : Exists (fun k => exists p, pts !! k = Some p
                                   /\ body k p = inl e) order <-> raises).
  { rewrite Exists_exists. split.
    - intros (k & _ & p & Hp & Hb). exists k, p. auto.
    - intros (k & p & Hp & Hb). exists k. split; [|eauto].
      apply Henum. eauto. }
  destruct (for_items_in_frozen order body e pts Hbody) as [[H Hrun]|[H Hrun]].
  - left. split; [apply Hiff, H|exact Hrun].
  - right. split; [rewrite <- Hiff; exact H|exact Hrun].
Qed.

Lemma for_items_frozen body (e : Py.exn) pts :
  (forall k p, body k p = inl e \/ body k p = inr None) ->
  let raises := exists k p, pts !! k = Some p /\ body k p = inl e in
  (raises /\ for_items body pts = (pts, inl e))
  \/ (~ raises /\ for_items body pts = (pts, inr tt)).
Proof.
  apply for_items_in_frozen_all, map_to_list_enumerates.
Qed.

(** In both cases the order of the iteration does not matter. *)
Lemma for_items_in_any_order order body pts :
  enumerates order pts ->
  (exists store : string -> point -> option point,
      forall k p, body k p = inr (store k p))
  \/ (exists e, forall k p, body k p = inl e \/ body k p = inr None) ->
  for_items_in order body pts = for_items body pts.
Proof.
  intros Henum [[store Hbody]|[e Hbody]].
  - destruct (for_items_in_returns_all order body store pts Henum Hbody)
      as (res & -> & Hres).
    destruct (for_items_returns body store pts Hbody) as (res' & -> & Hres').
    f_equal. apply map_eq. intros k. rewrite Hres, Hres'. reflexivity.
  - destruct (for_items_in_frozen_all order body e pts Henum Hbody)
      as [[H ->]|[H ->]];
    destruct (for_items_frozen body e pts Hbody) as [[H' ->]|[H' ->]];
    first [reflexivity | contradiction].
Qed.

End Loops.

(** ** The generator: state left over from earlier calls *)

Section Regeneration.

Import Measurements PatternConstants PatternGenerator.

Local Ltac scalar_lookups :=
  repeat first
    [ rewrite cv_get_insert_eq
    | rewrite cv_get_insert_ne by (intro; discriminate) ].

(** [calculate_base_values] returns normally on every generator, and the
    seven scalars the point derivation reads are set from the measurements
    and the constants alone. *)
Lemma calculate_base_values_any (g : PatternGenerator.t) :
  snd (calculate_base_values g) = inr tt
  /\ measurements (fst (calculate_base_values g)) = measurements g
  /\ constants (fst (calculate_base_values g)) = constants g
  /\ points (fst (calculate_base_values g)) = points g
  /\ forall key,
       key ∈ ["width"; "armhole_depth"; "back_width"; "half_arm";
              "back_shoulder_length"; "shoulder_length"; "u_rule"] ->
       cv_get (calculated_values (fst (calculate_base_values g))) key
       = cv_get (calculated_values
                   (with_base_values (measurements g) (constants g))) key.
Proof.
  destruct g as [m c pts cv].
  unfold with_base_values, calculate_base_values, init.
  cbn [measurements constants points calculated_values set_calculated_values
       default Py.update fold_left fst snd].
  scalar_lookups.
  cbn [measurements constants points calculated_values set_calculated_values
       fst snd].
  scalar_lookups.
  cbn [measurements constants points calculated_values set_calculated_values
       fst snd].
  repeat (split; [reflexivity |]).
  intros key Hkey.
  repeat (apply elem_of_cons in Hkey as [-> | Hkey];
          [scalar_lookups; reflexivity |]).
  inversion Hkey.
Qed.

(** The point items depend on the generator through its measurements, its
    constants and seven of its scalars. *)
Lemma calculate_points_items_reads (g1 g2 : PatternGenerator.t) :
  measurements g1 = measurements g2 ->
  constants g1 = constants g2 ->
  (forall key,
      key ∈ ["width"; "armhole_depth"; "back_width"; "half_arm";
             "back_shoulder_length"; "shoulder_length"; "u_rule"] ->
      cv_get (calculated_values g1) key = cv_get (calculated_values g2) key) ->
  calculate_points_items g1 = calculate_points_items g2.
Proof.
  destruct g1 as [m1 c1 pts1 cv1], g2 as [m2 c2 pts2 cv2].
  cbn [measurements constants calculated_values].
  intros -> -> H.
  unfold calculate_points_items.
  cbn [measurements constants calculated_values].
  rewrite (H "width"), (H "armhole_depth"), (H "back_width"),
    (H "half_arm"), (H "back_shoulder_length"), (H "shoulder_length"),
    (H "u_rule")
    by (apply (bool_decide_unpack _); vm_compute; exact I).
  reflexivity.
Qed.

(** The points [apply_adjustments] leaves depend on the points it finds. *)
Lemma apply_adjustments_points (adj : gmap string float)
    (g1 g2 : PatternGenerator.t) :
  points g1 = points g2 ->
  points (fst (apply_adjustments adj g1))
  = points (fst (apply_adjustments adj g2)).
Proof.
  destruct g1 as [m1 c1 pts1 cv1], g2 as [m2 c2 pts2 cv2].
  cbn [points]. intros ->.
  unfold apply_adjustments.
  cbn [points set_points measurements constants calculated_values fst].
  destruct (adj !! "waist_adjustment") as [w|]; [|reflexivity].
  destruct (pts2 !! "X") as [px|];
    cbn [points set_points measurements constants calculated_values].
  - destruct (<["X" := (fst px + w / 4, snd px)]> pts2 !! "X'") as [px'|];
      reflexivity.
  - destruct (pts2 !! "X'") as [px'|]; reflexivity.
Qed.

Lemma apply_adjustments_fields (adj : gmap string float)
    (g : PatternGenerator.t) :
  snd (apply_adjustments adj g) = inr tt
  /\ measurements (fst (apply_adjustments adj g)) = measurements g
  /\ constants (fst (apply_adjustments adj g)) = constants g
  /\ calculated_values (fst (apply_adjustments adj g))
     = calculated_values g.
Proof.
  destruct g as [m c pts cv]. unfold apply_adjustments.
  cbn [points set_points measurements constants calculated_values fst snd].
  destruct (adj !! "waist_adjustment") as [w|];
    [|repeat split; reflexivity].
  destruct (pts !! "X") as [px|];
    cbn [points set_points measurements constants calculated_values].
  - destruct (<["X" := (fst px + w / 4, snd px)]> pts !! "X'") as [px'|];
      repeat split; reflexivity.
  - destruct (pts !! "X'") as [px'|]; repeat split; reflexivity.
Qed.

(** [generate_pattern] spelled out on any generator. *)
Lemma generate_pattern_unfold (adj : option (gmap string float))
    (g : PatternGenerator.t) :
  let g1 := fst (calculate_base_values g) in
  generate_pattern adj g =
  match calculate_points_items
          (with_base_values (measurements g) (constants g)) with
  | inl e => (g1, inl e)
  | inr items =>
      let g2 := set_points (Py.dict items) g1 in
      match adj with
      | Some a =>
          if bool_decide (a = ∅) then (g2, inr (points g2))
          else (fst (apply_adjustments a g2),
                inr (points (fst (apply_adjustments a g2))))
      | None => (g2, inr (points g2))
      end
  end.
Proof.
  intros g1.
  destruct (calculate_base_values_any g) as (Hret & Hm & Hc & Hp & Hcv).
  assert (Hitems : calculate_points_items g1
                   = calculate_points_items
                       (with_base_values (measurements g) (constants g))).
  { unfold g1. apply calculate_points_items_reads.
    - rewrite Hm. unfold with_base_values.
      destruct (calculate_base_values_any
                  (init (measurements g) (Some (constants g))))
        as (_ & -> & _). reflexivity.
    - rewrite Hc. unfold with_base_values.
      destruct (calculate_base_values_any
                  (init (measurements g) (Some (constants g))))
        as (_ & _ & -> & _). reflexivity.
    - exact Hcv. }
  unfold generate_pattern.
  destruct (calculate_base_values g) as [g1' r] eqn:E.
  cbn [fst snd] in *. subst g1. subst r.
  unfold calculate_points. rewrite Hitems.
  destruct (calculate_points_items
              (with_base_values (measurements g) (constants g)))
    as [e | items]; [reflexivity |].
  destruct adj as [a |]; [| reflexivity].
  destruct (bool_decide (a = ∅)); [reflexivity |].
  destruct (apply_adjustments_fields a (set_points (Py.dict items) g1'))
    as (Hr & _).
  destruct (apply_adjustments a (set_points (Py.dict items) g1'))
    as [g3 r3]. cbn [fst snd] in *. subst r3. reflexivity.
Qed.

Lemma generate_pattern_fields (adj : option (gmap string float))
    (g : PatternGenerator.t) :
  measurements (fst (generate_pattern adj g)) = measurements g
  /\ constants (fst (generate_pattern adj g)) = constants g.
Proof.
  rewrite generate_pattern_unfold.
  destruct (calculate_base_values_any g) as (_ & Hm & Hc & _).
  destruct (calculate_points_items _) as [e | items]; [auto |].
  cbv zeta.
  assert (H2 : forall g2 : PatternGenerator.t,
             measurements g2 = measurements g ->
             constants g2 = constants g ->
             forall a,
               measurements (fst (apply_adjustments a g2)) = measurements g
               /\ constants (fst (apply_adjustments a g2)) = constants g).
  { intros g2 H2m H2c a.
    destruct (apply_adjustments_fields a g2) as (_ & -> & -> & _). auto. }
  destruct adj as [a |]; [| auto].
  destruct (bool_decide (a = ∅)); [auto |].
  cbn [fst]. apply H2; assumption.
Qed.

(** What [generate_pattern] returns depends on the measurements, the
    constants and the adjustments, not on the points and scalars the
    generator held. *)
Lemma generate_pattern_any_state (adj : option (gmap string float))
    (g : PatternGenerator.t) :
  snd (generate_pattern adj g)
  = snd (generate_pattern adj (init (measurements g) (Some (constants g)))).
Proof.
  rewrite !generate_pattern_unfold.
  cbn [init measurements constants default].
  destruct (calculate_points_items _) as [e | items]; [reflexivity |].
  cbv zeta. destruct adj as [a |]; [| reflexivity].
  destruct (bool_decide (a = ∅)); [reflexivity |].
  cbn [snd]. f_equal. apply apply_adjustments_points. reflexivity.
Qed.

(** X1.  [generate_pattern] starts afresh at every call.  Whatever points and
    scalars the generator holds, the call returns what it returns on a new
    generator with the same measurements and constants (without
    adjustments: what [derive] returns), and it leaves the measurements and
    the constants as they were.  Hence a second call gives the same
    outcome whatever the adjustments of the first were: adjustments do not
    accumulate, and a call without adjustments discards them.  The points
    it returns are those it leaves in the generator. *)
Theorem generate_pattern_starts_afresh (adj adj' : option (gmap string float))
    (g : PatternGenerator.t) :
  let m := measurements g in
  let c := constants g in
  snd (generate_pattern adj g) = snd (generate_pattern adj (init m (Some c)))
  /\ snd (generate_pattern None g)
     = match derive m c with
       | inl e => inl e
       | inr r => inr (snd r)
       end
  /\ measurements (fst (generate_pattern adj g)) = m
  /\ constants (fst (generate_pattern adj g)) = c
  /\ snd (generate_pattern adj (fst (generate_pattern adj' g)))
     = snd (generate_pattern adj g)
  /\ (forall pts : gmap string point,
      snd (generate_pattern adj g) = inr pts ->
      points (fst (generate_pattern adj g)) = pts).
Proof.
  intros m c. subst m c.
  destruct (generate_pattern_fields adj g) as (Hm & Hc).
  split; [apply generate_pattern_any_state |].
  split; [rewrite generate_pattern_any_state; apply generate_pattern_fresh |].
  split; [exact Hm |]. split; [exact Hc |]. split.
  - destruct (generate_pattern_fields adj' g) as (Hm' & Hc').
    rewrite (generate_pattern_any_state adj (fst (generate_pattern adj' g))).
    rewrite Hm', Hc'. symmetry. apply generate_pattern_any_state.
  - intros pts. rewrite generate_pattern_unfold.
    destruct (calculate_points_items _) as [e | items];
      [intros H; discriminate H |].
    cbv zeta. destruct adj as [a |].
    + destruct (bool_decide (a = ∅)); cbn [fst snd];
        intros H; injection H as <-; reflexivity.
    + cbn [fst snd]. intros H; injection H as <-; reflexivity.
Qed.

End Regeneration.

(** ** Generated patterns *)

Section GeneratedPatterns.

Import Measurements PatternConstants PatternGenerator.

Lemma dom_update (d : gmap string point) (items : list (string * point)) :
  dom (Py.update d items) = dom d ∪ list_to_set (map fst items).
Proof.
  revert d. unfold Py.update.
  induction items as [| [k p] items IH]; intros d; cbn [fold_left map fst snd].
  - rewrite list_to_set_nil, (right_id_L ∅ (∪)). reflexivity.
  - rewrite IH, dom_insert_L, list_to_set_cons.
    rewrite (comm_L (∪) {[k]} (dom d)), (assoc_L (∪)). reflexivity.
Qed.

Lemma dom_dict (items : list (string * point)) :
  dom (Py.dict items) = list_to_set (map fst items).
Proof.
  unfold Py.dict. rewrite dom_update, dom_empty_L, (left_id_L ∅ (∪)).
  reflexivity.
Qed.

(** The items of a run that returns bear the 47 labels, in order. *)
Lemma items_labels (m : Measurements.t) (c : PatternConstants.t)
    (items : list (string * point)) :
  calculate_points_items (with_base_values m c) = inr items ->
  map fst items = labels.
Proof.
  intros Hit. destruct m, c.
  engine_run_in Hit. engine_cases Hit; engine_absurd Hit.
  injection Hit as <-. reflexivity.
Qed.

Lemma base_scalars (m : Measurements.t) (c : PatternConstants.t) :
  (exists v, calculated_values (with_base_values m c) !! "width"
             = Some (Some v))
  /\ (exists v, calculated_values (with_base_values m c) !! "armhole_depth"
                = Some (Some v))
  /\ (exists v, calculated_values (with_base_values m c) !! "back_width"
                = Some (Some v)).
Proof.
  destruct m, c. unfold with_base_values.
  repeat split; eexists; vm_compute; reflexivity.
Qed.

(** A fresh generator after a run that returns. *)
Lemma generated_from_succeeds (m : Measurements.t) (c : PatternConstants.t) :
  succeeds (derive m c) = true ->
  generate_pattern None (init m (Some c))
  = (generated_from m c, inr (point_map (derive m c)))
  /\ points (generated_from m c) = point_map (derive m c)
  /\ calculated_values (generated_from m c) = scalars (derive m c)
  /\ measurements (generated_from m c) = m
  /\ constants (generated_from m c) = c
  /\ generated (generated_from m c).
Proof.
  intros H. destruct (succeeds_inr m c H) as (items & Hit & Hd).
  unfold generated_from. rewrite Hd. cbn [point_map scalars].
  rewrite generate_pattern_unfold.
  change (measurements (init m (Some c))) with m.
  change (constants (init m (Some c))) with c.
  rewrite Hit. cbv zeta.
  cbn [fst snd points set_points calculated_values measurements constants].
  destruct (calculate_base_values_any (init m (Some c)))
    as (_ & Hm & Hc & _ & _).
  fold (with_base_values m c).
  do 5 (split; [first [reflexivity | assumption] |]).
  unfold generated.
  cbn [fst snd points set_points calculated_values measurements constants].
  split; [| apply base_scalars].
  rewrite dom_dict, (items_labels m c items Hit). reflexivity.
Qed.

(** A fresh generator after a run that raises. *)
Lemma generated_from_fails (m : Measurements.t) (c : PatternConstants.t)
    (e : Py.exn) :
  derive m c = inl e ->
  generate_pattern None (init m (Some c)) = (generated_from m c, inl e)
  /\ points (generated_from m c) = ∅.
Proof.
  intros Hd. unfold generated_from.
  pose proof (generate_pattern_fresh m c) as Hs. rewrite Hd in Hs.
  destruct (generate_pattern None (init m (Some c))) as [g r] eqn:E.
  cbn [fst snd] in *. subst r. split; [reflexivity |].
  apply (generate_pattern_failure_keeps_points None _ _ e) in E.
  exact E.
Qed.

Lemma generated_lookup (g : PatternGenerator.t) (label : string) :
  generated g -> label ∈ labels -> is_Some (points g !! label).
Proof.
  intros (Hdom & _) Hin. apply elem_of_dom. rewrite Hdom.
  apply elem_of_list_to_set. exact Hin.
Qed.

Lemma generated_insert (g : PatternGenerator.t) (label : string)
    (p : point) :
  dom (points g) = list_to_set labels -> label ∈ labels ->
  dom (<[label := p]> (points g)) = list_to_set labels.
Proof.
  intros Hdom Hin. rewrite dom_insert_L, Hdom.
  apply subseteq_union_1_L, singleton_subseteq_l, elem_of_list_to_set.
  exact Hin.
Qed.

End GeneratedPatterns.

(** ** The steps of the modifier *)

(** Unfolds the methods that work point by point down to the look-ups and
    stores they make. *)
Ltac unfold_methods :=
  cbv beta iota zeta delta
    [AdvancedPatternModifier._adjust_waist
     AdvancedPatternModifier._adjust_dart_width
     AdvancedPatternModifier._adjust_bust_dart
     AdvancedPatternModifier._adjust_chest
     AdvancedPatternModifier._adjust_shoulder
     AdvancedPatternModifier._recalculate_shoulder_dependent_points
     AdvancedPatternModifier._recalculate_armhole_points
     AdvancedPatternModifier._adjust_armhole
     AdvancedPatternModifier._apply_a_line_flare
     AdvancedPatternModifier._remove_waist_shaping
     AdvancedPatternModifier._modify_neckline
     AdvancedPatternModifier.when_in AdvancedPatternModifier.contains_all
     AdvancedPatternModifier.contains AdvancedPatternModifier.getitem
     AdvancedPatternModifier.setitem AdvancedPatternModifier.bind
     AdvancedPatternModifier.ret AdvancedPatternModifier.raise
     AdvancedPatternModifier.cv AdvancedPatternModifier.set_cv
     AdvancedPatternModifier.jacket_length
     AdvancedPatternModifier.set_jacket_length
     AdvancedPatternModifier.calculated_values
     AdvancedPatternModifier.points AdvancedPatternModifier.of_python
     AdvancedPatternModifier.generator
     AdvancedPatternModifier.original_points
     points_of scalars_of length_of
     PatternGenerator.cv_get Py.raise Py.ok
     PatternGenerator.points PatternGenerator.set_points
     PatternGenerator.measurements PatternGenerator.constants
     PatternGenerator.calculated_values
     PatternGenerator.set_calculated_values
     Measurements.jacket_length fst snd].

(** Resolves the look-ups in a map after stores, and those the context
    knows. *)
Ltac lookups :=
  repeat first
    [ rewrite lookup_insert_eq
    | rewrite lookup_insert_ne by (intro; discriminate)
    | rewrite lookup_empty
    | match goal with H : _ !! _ = _ |- _ => rewrite H end ].

(** Runs the methods as far as the known look-ups allow. *)
Ltac run :=
  unfold_methods;
  repeat (progress (lookups; cbv beta iota zeta delta [fst snd])).

Ltac case_lookup m k :=
  let E := fresh "E" in
  destruct (m !! k) eqn:E; run.

Ltac label_in := apply (bool_decide_unpack _); vm_compute; exact I.

Section ModifierSteps.

Import AdvancedPatternModifier.

Implicit Types (self : AdvancedPatternModifier.t) (pts : gmap string point).

Lemma dom_insert_label pts (label : string) (p : point) :
  dom pts = list_to_set labels -> label ∈ labels ->
  dom (<[label := p]> pts) = list_to_set labels.
Proof.
  intros Hdom Hin. rewrite dom_insert_L, Hdom.
  apply subseteq_union_1_L, singleton_subseteq_l, elem_of_list_to_set.
  exact Hin.
Qed.

Lemma label_lookup pts (label : string) :
  dom pts = list_to_set labels -> label ∈ labels ->
  exists p, pts !! label = Some p.
Proof.
  intros Hdom Hin.
  assert (H : is_Some (pts !! label)); [| destruct H as [p Hp]; eauto].
  apply elem_of_dom. rewrite Hdom. apply elem_of_list_to_set. exact Hin.
Qed.

Lemma dom_pointwise pts pts' (f : string -> point -> point) :
  (forall k, pts' !! k = f k <$> pts !! k) -> dom pts' = dom pts.
Proof.
  intros H. apply set_eq. intros k. rewrite !elem_of_dom, H.
  apply fmap_is_Some.
Qed.

Lemma bind_returns {A B : Type} (f : method A) (k : A -> method B)
    self self1 (a : A) :
  f self = (self1, inr a) -> bind f k self = k a self1.
Proof. intros H. unfold bind. rewrite H. reflexivity. Qed.

Lemma bind_raises {A B : Type} (f : method A) (k : A -> method B)
    self self1 (e : exn) :
  f self = (self1, inl e) -> bind f k self = (self1, inl e).
Proof. intros H. unfold bind. rewrite H. reflexivity. Qed.

(** A loop whose body never raises, as a method. *)
Lemma for_each_item_returns
    (body : string -> point -> Py.result (option point))
    (store : string -> point -> option point) self :
  (forall k p, body k p = inr (store k p)) ->
  exists pts',
    for_each_item body self
    = (mk (PatternGenerator.set_points pts' (generator self))
          (original_points self), inr tt)
    /\ forall k,
         pts' !! k = (fun p => default p (store k p)) <$> points_of self !! k.
Proof.
  intros Hbody.
  destruct (for_items_returns body store (points_of self) Hbody)
    as (pts' & Hrun & Hres).
  exists pts'. split; [| exact Hres].
  unfold for_each_item. fold (points_of self). rewrite Hrun. reflexivity.
Qed.

(** *** The bodies of the three loops *)

Lemma _adjust_length_item_stores (a : float) (k : string) (p : point) :
  _adjust_length_item a k p
  = inr (if bool_decide (k ∈ top_edge_points) then None
         else Some (fst p, snd p + a)).
Proof.
  destruct p as [x y]. unfold _adjust_length_item.
  destruct (bool_decide (k ∈ top_edge_points)); reflexivity.
Qed.

Lemma _adjust_hip_item_with_width (hip_level quarter_adj : float)
    (cvs : gmap string (option float)) (w : float) :
  PatternGenerator.cv_get cvs "width" = inr w ->
  exists store : string -> point -> option point,
    forall k p, _adjust_hip_item hip_level quarter_adj cvs k p
                = inr (store k p).
Proof.
  intros Hw. unfold _adjust_hip_item. rewrite Hw.
  exists (fun _ '(x, y) =>
            if abs (y - hip_level) <? 2 then
              if w / 2 <? x then Some (x + quarter_adj, y)
              else if 0 <? x then Some (x - quarter_adj, y) else None
            else None).
  intros k [x y]. cbn [Py.bind].
  destruct (abs (y - hip_level) <? 2); [| reflexivity].
  destruct (w / 2 <? x); [reflexivity |].
  destruct (0 <? x); reflexivity.
Qed.

Lemma _adjust_hip_item_cases (hip_level quarter_adj : float)
    (cvs : gmap string (option float)) :
  (exists store : string -> point -> option point,
      forall k p, _adjust_hip_item hip_level quarter_adj cvs k p
                  = inr (store k p))
  \/ (exists e, forall k p,
         _adjust_hip_item hip_level quarter_adj cvs k p = inl e
         \/ _adjust_hip_item hip_level quarter_adj cvs k p = inr None).
Proof.
  destruct (PatternGenerator.cv_get cvs "width") as [e | w] eqn:E.
  - right. exists e. intros k [x y]. unfold _adjust_hip_item. rewrite E.
    destruct (abs (y - hip_level) <? 2); [left | right]; reflexivity.
  - left. fold (_adjust_hip_item hip_level quarter_adj cvs).
    exact (_adjust_hip_item_with_width hip_level quarter_adj cvs w E).
Qed.

Lemma _apply_flare_from_waist_item_cases (waist_y quarter_increase : float)
    (cvs : gmap string (option float)) :
  (exists store : string -> point -> option point,
      forall k p,
        _apply_flare_from_waist_item waist_y quarter_increase cvs k p
        = inr (store k p))
  \/ (exists e, forall k p,
         _apply_flare_from_waist_item waist_y quarter_increase cvs k p = inl e
         \/ _apply_flare_from_waist_item waist_y quarter_increase cvs k p
            = inr None).
Proof.
  unfold _apply_flare_from_waist_item.
  destruct (PatternGenerator.cv_get cvs "width") as [e | w].
  - right. exists e. intros k [x y].
    destruct (y <? waist_y); [left | right]; reflexivity.
  - unfold Py.truediv. destruct (waist_y =? 0).
    + right. exists (Py.ZeroDivisionError "float division by zero").
      intros k [x y]. cbn [Py.bind Py.raise].
      destruct (y <? waist_y); [| right; reflexivity].
      destruct (w / 2 <? x); [left; reflexivity |].
      destruct (0 <? x); [left | right]; reflexivity.
    + left.
      exists (fun _ '(x, y) =>
                if y <? waist_y then
                  if w / 2 <? x
                  then Some (x + quarter_increase * ((waist_y - y) / waist_y),
                             y)
                  else if 0 <? x
                  then Some (x - quarter_increase * ((waist_y - y) / waist_y),
                             y)
                  else None
                else None).
      intros k [x y]. cbn [Py.bind Py.ok].
      destruct (y <? waist_y); [| reflexivity].
      destruct (w / 2 <? x); [reflexivity |].
      destruct (0 <? x); reflexivity.
Qed.

End ModifierSteps.

(** ** The adjustments of the modifier on a generated pattern *)

Section AdvancedAdjustments.

Import AdvancedPatternModifier.

Implicit Types (self : AdvancedPatternModifier.t) (pts : gmap string point).

Local Ltac open_generated self :=
  let m := fresh "m" in
  let c := fresh "c" in
  let pts := fresh "pts" in
  let cvs := fresh "cvs" in
  let orig := fresh "orig" in
  let Hdom := fresh "Hdom" in
  let w := fresh "w" in
  let ad := fresh "ad" in
  let bw := fresh "bw" in
  destruct self as [[m c pts cvs] orig];
  intros (Hdom & (w & ?) & (ad & ?) & (bw & ?));
  cbn [generator PatternGenerator.points PatternGenerator.calculated_values]
    in *.

Local Ltac known_label pts Hdom l :=
  let p := fresh "p" in
  let H := fresh "H" in
  destruct (label_lookup pts l Hdom) as [p H]; [label_in |].

Local Ltac still_generated Hdom :=
  eexists; split; [reflexivity |]; split; [| reflexivity];
  unfold generated;
  cbn [generator PatternGenerator.points PatternGenerator.calculated_values];
  split;
  [ repeat (apply dom_insert_label; [| label_in]); exact Hdom
  | lookups; repeat split; eexists; reflexivity ].

Lemma _adjust_dart_width_goes_through (a : float) :
  goes_through (_adjust_dart_width a).
Proof.
  intros self. open_generated self.
  known_label pts Hdom "Z'". known_label pts Hdom "z'''".
  known_label pts Hdom "Z''".
  run. still_generated Hdom.
Qed.

Lemma _adjust_waist_goes_through (a : float) :
  goes_through (_adjust_waist a).
Proof.
  intros self. open_generated self.
  known_label pts Hdom "X". known_label pts Hdom "X'".
  known_label pts Hdom "Z". known_label pts Hdom "Z'".
  known_label pts Hdom "z'''". known_label pts Hdom "Z''".
  run. destruct (2 <? abs a); run; still_generated Hdom.
Qed.

Lemma _adjust_chest_goes_through (a : float) :
  goes_through (_adjust_chest a).
Proof.
  intros self. open_generated self.
  known_label pts Hdom "K". known_label pts Hdom "K'".
  known_label pts Hdom "J". known_label pts Hdom "J'".
  known_label pts Hdom "S". known_label pts Hdom "R".
  run. destruct (3 <? abs a); run; still_generated Hdom.
Qed.

Lemma _adjust_shoulder_goes_through (a : float) :
  goes_through (_adjust_shoulder a).
Proof.
  intros self. open_generated self.
  known_label pts Hdom "N". known_label pts Hdom "T".
  run. still_generated Hdom.
Qed.

Lemma _adjust_armhole_goes_through (a : float) :
  goes_through (_adjust_armhole a).
Proof.
  intros self. open_generated self.
  run. still_generated Hdom.
Qed.

(** The loops keep the labels: every item is replaced under its own
    name. *)
Lemma for_each_item_goes_through
    (body : string -> point -> Py.result (option point))
    (store : string -> point -> option point) :
  (forall k p, body k p = inr (store k p)) ->
  goes_through (for_each_item body).
Proof.
  intros Hbody self (Hdom & Hscalars).
  destruct (for_each_item_returns body store self Hbody)
    as (pts' & Hrun & Hres).
  eexists. split; [exact Hrun |]. split; [| reflexivity].
  split; [| exact Hscalars].
  cbn [generator PatternGenerator.points PatternGenerator.set_points].
  rewrite (dom_pointwise (points_of self) pts'
             (fun k p => default p (store k p)) Hres).
  exact Hdom.
Qed.

Lemma _adjust_hip_goes_through (a : float) :
  goes_through (_adjust_hip a).
Proof.
  intros self Hgen.
  assert (Hw : exists w, PatternGenerator.cv_get (scalars_of self) "width"
                         = inr w).
  { destruct Hgen as (_ & (w & Hw) & _). exists w.
    unfold PatternGenerator.cv_get, scalars_of. rewrite Hw. reflexivity. }
  destruct Hw as [w Hw].
  unfold _adjust_hip.
  set (hip_level :=
         match points_of self !! "F" with Some F => snd F | None => 0 end).
  assert (Hrun : bind (contains "F")
                   (fun has_F : bool =>
                      bind (if has_F
                            then bind (getitem "F") (fun F => ret (snd F))
                            else ret 0)
                        (fun hip_level =>
                           bind calculated_values
                             (fun cvs =>
                                for_each_item
                                  (_adjust_hip_item hip_level (a / 4) cvs))))
                   self
                 = for_each_item
                     (_adjust_hip_item hip_level (a / 4) (scalars_of self))
                     self).
  { unfold hip_level, points_of, scalars_of.
    cbv beta iota zeta delta
      [bind contains getitem ret calculated_values].
    destruct (PatternGenerator.points (generator self) !! "F") eqn:E;
      cbv beta iota zeta; rewrite ?E; reflexivity. }
  rewrite Hrun.
  destruct (_adjust_hip_item_with_width hip_level (a / 4) (scalars_of self)
              w Hw) as [store Hstore].
  exact (for_each_item_goes_through _ store Hstore self Hgen).
Qed.

(** [_adjust_length] on any state: it returns, raises every point but
    those of the top edge, and adds the adjustment to the recorded
    length. *)
Lemma _adjust_length_returns (a : float) self :
  exists self',
    _adjust_length a self = (self', inr tt)
    /\ (forall l,
          points_of self' !! l = raised_by a l <$> points_of self !! l)
    /\ length_of self' = length_of self + a
    /\ scalars_of self' = scalars_of self
    /\ original_points self' = original_points self.
Proof.
  destruct (for_each_item_returns (_adjust_length_item a)
              (fun k p => if bool_decide (k ∈ top_edge_points) then None
                          else Some (fst p, snd p + a))
              self (_adjust_length_item_stores a))
    as (pts' & Hrun & Hres).
  unfold _adjust_length. rewrite (bind_returns _ _ _ _ _ Hrun).
  eexists. split; [reflexivity |].
  destruct self as [[m c pts cvs] orig].
  unfold points_of, length_of, scalars_of in *.
  cbn [generator original_points PatternGenerator.points
       PatternGenerator.set_points PatternGenerator.measurements
       PatternGenerator.constants PatternGenerator.calculated_values
       Measurements.jacket_length] in *.
  split; [| repeat split].
  intros l. rewrite Hres. unfold raised_by.
  destruct (pts !! l) as [p |]; [| reflexivity].
  cbn [fmap option_fmap option_map].
  destruct (bool_decide (l ∈ top_edge_points)); reflexivity.
Qed.

Lemma _adjust_length_goes_through (a : float) :
  goes_through (_adjust_length a).
Proof.
  intros self (Hdom & Hscalars).
  destruct (_adjust_length_returns a self)
    as (self' & Hrun & Hpts & _ & Hcv & Horig).
  exists self'. split; [exact Hrun |]. split; [| exact Horig].
  split.
  - fold (points_of self').
    rewrite (dom_pointwise (points_of self) (points_of self')
               (raised_by a) Hpts).
    exact Hdom.
  - fold (scalars_of self'). rewrite Hcv. exact Hscalars.
Qed.

Lemma with_entry_goes_through (adj : gmap string float) (key : string)
    (step : float -> method unit) :
  (forall v, goes_through (step v)) -> goes_through (with_entry adj key step).
Proof.
  intros H. unfold with_entry. destruct (adj !! key) as [v |]; [apply H |].
  intros self Hgen. exists self.
  split; [reflexivity |]. split; [exact Hgen | reflexivity].
Qed.

Lemma sequence_goes_through (first next : method unit) :
  goes_through first -> goes_through next ->
  goes_through (bind first (fun _ => next)).
Proof.
  intros Hfirst Hnext self Hgen.
  destruct (Hfirst self Hgen) as (self1 & Hrun1 & Hgen1 & Horig1).
  destruct (Hnext self1 Hgen1) as (self2 & Hrun2 & Hgen2 & Horig2).
  exists self2. rewrite (bind_returns _ _ _ _ _ Hrun1).
  split; [exact Hrun2 |]. split; [exact Hgen2 | congruence].
Qed.

Lemma generated_not_empty (g : PatternGenerator.t) :
  generated g -> bool_decide (PatternGenerator.points g = ∅) = false.
Proof.
  intros (Hdom & _). apply bool_decide_eq_false. intros Hempty.
  rewrite Hempty, dom_empty_L in Hdom.
  assert (H : "A" ∈ (∅ : gset string)).
  { rewrite Hdom. apply elem_of_list_to_set. label_in. }
  exact (not_elem_of_empty _ H).
Qed.

(** The six optional steps, in the order of the source. *)
Lemma adjustment_steps_go_through (adj : gmap string float) :
  goes_through
    (bind (with_entry adj "waist_adjustment" _adjust_waist) (fun _ =>
     bind (with_entry adj "hip_adjustment" _adjust_hip) (fun _ =>
     bind (with_entry adj "chest_adjustment" _adjust_chest) (fun _ =>
     bind (with_entry adj "shoulder_adjustment" _adjust_shoulder) (fun _ =>
     bind (with_entry adj "length_adjustment" _adjust_length) (fun _ =>
     with_entry adj "armhole_adjustment" _adjust_armhole)))))).
Proof.
  repeat apply sequence_goes_through; apply with_entry_goes_through.
  - apply _adjust_waist_goes_through.
  - apply _adjust_hip_goes_through.
  - apply _adjust_chest_goes_through.
  - apply _adjust_shoulder_goes_through.
  - apply _adjust_length_goes_through.
  - apply _adjust_armhole_goes_through.
Qed.

(** [apply_advanced_adjustments] once the points are there. *)
Lemma apply_advanced_adjustments_generated (adj : gmap string float) self :
  generated (generator self) ->
  exists self',
    apply_advanced_adjustments adj self = (self', inr tt)
    /\ generated (generator self')
    /\ original_points self'
       = Some (default (points_of self) (original_points self)).
Proof.
  intros Hgen.
  set (self0 := mk (generator self)
                  (Some (default (points_of self) (original_points self)))).
  destruct (adjustment_steps_go_through adj self0 Hgen)
    as (self' & Hrun & Hgen' & Horig).
  exists self'. split; [| split; [exact Hgen' | exact Horig]].
  rewrite <- Hrun. unfold apply_advanced_adjustments.
  rewrite (bind_returns points _ self self (points_of self) eq_refl).
  unfold points_of. rewrite (generated_not_empty _ Hgen).
  rewrite (bind_returns (ret tt) _ self self tt eq_refl).
  assert (Hstore : store_original_points self = (self0, inr tt)).
  { unfold store_original_points, self0, points_of.
    destruct self as [g [orig |]]; reflexivity. }
  rewrite (bind_returns _ _ _ _ _ Hstore). reflexivity.
Qed.

(** On a generator without points the method generates them first: when
    the derivation returns it goes on as on the generated pattern. *)
Lemma apply_advanced_adjustments_fresh (adj : gmap string float)
    (m : Measurements.t) (c : PatternConstants.t) :
  succeeds (derive m c) = true ->
  apply_advanced_adjustments adj (init (PatternGenerator.init m (Some c)))
  = apply_advanced_adjustments adj (init (generated_from m c)).
Proof.
  intros H.
  destruct (generated_from_succeeds m c H) as (Hrun & _ & _ & _ & _ & Hgen).
  unfold apply_advanced_adjustments.
  rewrite (bind_returns points _ (init (generated_from m c)) _ _ eq_refl).
  rewrite (bind_returns points _ (init (PatternGenerator.init m (Some c)))
             _ _ eq_refl).
  cbn [init generator PatternGenerator.init PatternGenerator.points].
  rewrite (generated_not_empty _ Hgen).
  rewrite (bool_decide_eq_true_2 _ eq_refl).
  rewrite (bind_returns (ret tt) _ (init (generated_from m c)) _ tt eq_refl).
  assert (Hcall : bind (call (PatternGenerator.generate_pattern None))
                    (fun _ => ret tt)
                    (init (PatternGenerator.init m (Some c)))
                  = (init (generated_from m c), inr tt)).
  { unfold bind, call, ret, init.
    cbn [generator original_points]. rewrite Hrun. reflexivity. }
  rewrite (bind_returns _ _ _ _ _ Hcall). reflexivity.
Qed.

(** When the derivation raises, so does the method, and no snapshot is
    taken. *)
Lemma apply_advanced_adjustments_fails (adj : gmap string float)
    (m : Measurements.t) (c : PatternConstants.t) (e : Py.exn) :
  derive m c = inl e ->
  apply_advanced_adjustments adj (init (PatternGenerator.init m (Some c)))
  = (init (generated_from m c), inl (Raised e)).
Proof.
  intros Hd. destruct (generated_from_fails m c e Hd) as (Hrun & _).
  unfold apply_advanced_adjustments.
  rewrite (bind_returns points _ (init (PatternGenerator.init m (Some c)))
             _ _ eq_refl).
  cbn [init generator PatternGenerator.init PatternGenerator.points].
  rewrite (bool_decide_eq_true_2 _ eq_refl).
  assert (Hcall : bind (call (PatternGenerator.generate_pattern None))
                    (fun _ => ret tt)
                    (init (PatternGenerator.init m (Some c)))
                  = (init (generated_from m c), inl (Raised e))).
  { unfold bind, call, ret, init.
    cbn [generator original_points]. rewrite Hrun. reflexivity. }
  rewrite (bind_raises _ _ _ _ _ Hcall). reflexivity.
Qed.

(** *** The variations that the ready-made dresses use *)

Lemma _apply_a_line_flare_goes_through (h : float) :
  goes_through (_apply_a_line_flare h).
Proof.
  intros self. open_generated self.
  known_label pts Hdom "C". known_label pts Hdom "B".
  run. still_generated Hdom.
Qed.

Lemma _modify_neckline_goes_through (neckline_type : string) :
  goes_through (_modify_neckline neckline_type).
Proof.
  intros self. open_generated self.
  known_label pts Hdom "Q". known_label pts Hdom "R".
  unfold _modify_neckline.
  destruct (bool_decide (neckline_type = "v_neck"));
    [| destruct (bool_decide (neckline_type = "square"));
       [| destruct (bool_decide (neckline_type = "boat"))]];
    run; still_generated Hdom.
Qed.

Lemma _modify_length_style_goes_through (length_style : string) :
  goes_through (_modify_length_style length_style).
Proof.
  intros self Hgen. unfold _modify_length_style.
  rewrite (bind_returns jacket_length _ self self (length_of self) eq_refl).
  cbv zeta.
  destruct (bool_decide (length_style = "mini"));
    [| destruct (bool_decide (length_style = "knee"));
       [| destruct (bool_decide (length_style = "midi"));
          [| destruct (bool_decide (length_style = "maxi"))]]];
    try (apply _adjust_length_goes_through; exact Hgen).
  exists self. split; [reflexivity |]. split; [exact Hgen | reflexivity].
Qed.

Lemma when_goes_through (b : bool) (step : method unit) :
  goes_through step -> goes_through (if b then step else ret tt).
Proof.
  intros H. destruct b; [exact H |].
  intros self Hgen. exists self.
  split; [reflexivity |]. split; [exact Hgen | reflexivity].
Qed.

(** The variations of a design that asks for no silhouette. *)
Lemma apply_design_variations_fitted (opts : DesignOptions.t) :
  DesignOptions.dress_style opts = "fitted"
  \/ DesignOptions.dress_style opts = "a_line" ->
  goes_through (apply_design_variations opts).
Proof.
  intros Hstyle. unfold apply_design_variations.
  repeat apply sequence_goes_through; try apply when_goes_through.
  - apply _modify_neckline_goes_through.
  - destruct Hstyle as [-> | ->].
    + intros self Hgen. exists self.
      split; [reflexivity |]. split; [exact Hgen | reflexivity].
    + apply _apply_a_line_flare_goes_through.
  - unfold _modify_dart_style, _convert_to_princess_seams,
      _convert_to_french_dart.
    intros self Hgen. exists self.
    split; [| split; [exact Hgen | reflexivity]].
    destruct (bool_decide (DesignOptions.dart_style opts = "princess"));
      [| destruct (bool_decide (DesignOptions.dart_style opts = "french"))];
      reflexivity.
  - apply _modify_length_style_goes_through.
Qed.

End AdvancedAdjustments.

(** ** Coordinates of a derived pattern *)

(** Names the items of a run that returns and evaluates them. *)
Ltac derived_items m c H items :=
  let Hit := fresh "Hit" in
  let Hd := fresh "Hd" in
  destruct (succeeds_inr m c H) as (items & Hit & Hd);
  rewrite Hd; cbn [point_map scalars];
  destruct m, c;
  engine_run_in Hit; engine_cases Hit; engine_absurd Hit;
  injection Hit as <-; clear Hd.

Section DerivedCoordinates.

Import Measurements PatternConstants.

Lemma derived_points (m : Measurements.t) (c : PatternConstants.t) :
  succeeds (derive m c) = true ->
  let pm := point_map (derive m c) in
  let jl := jacket_length m in
  let width :=
    shoulder_width m + rule_add c + buttons c + mid_back_seam c
    + side_seam_back c + side_seam_front c in
  let bw := (width - mid_back_seam c - buttons c) / 2 + mid_back_seam c in
  let ey := jl - waist_from_A m in
  pm !! "A" = Some (0, jl)
  /\ pm !! "B" = Some (0, 0)
  /\ pm !! "C" = Some (width, 0)
  /\ pm !! "D" = Some (width, jl)
  /\ pm !! "E" = Some (0, ey)
  /\ pm !! "F" = Some (0, jl - (waist_from_A m + hip_from_waist m))
  /\ pm !! "I" = Some (bw, jl - ((shoulder_width m + rule_add c) / 2 + 1))
  /\ pm !! "W" = Some (bw, ey)
  /\ pm !! "X" = Some (bw - waist_inset c, ey)
  /\ pm !! "X'" = Some (bw + waist_inset c, ey)
  /\ pm !! "z'''"
     = Some ((abs (bw - waist_inset c - 0) - 1) / 2 + 1, ey - dart_depth c).
Proof.
  intros H pm jl width bw ey. subst pm jl width bw ey.
  derived_items m c H items.
  cbn [jacket_length shoulder_width waist_from_A hip_from_waist
       rule_add buttons mid_back_seam side_seam_back side_seam_front
       waist_inset dart_depth].
  repeat split; vm_compute; reflexivity.
Qed.

End DerivedCoordinates.

(** ** What the adjustments and variations do to the points *)

Section ModifierProperties.

Import AdvancedPatternModifier.

Implicit Types (self : AdvancedPatternModifier.t) (pts : gmap string point).

Lemma points_of_generated_from (m : Measurements.t) (c : PatternConstants.t) :
  succeeds (derive m c) = true ->
  points_of (init (generated_from m c)) = point_map (derive m c).
Proof.
  intros H. destruct (generated_from_succeeds m c H) as (_ & Hp & _).
  exact Hp.
Qed.

(** [_remove_waist_shaping] when the three points are there. *)
Lemma _remove_waist_shaping_present self (X I X' : point) :
  points_of self !! "X" = Some X ->
  points_of self !! "I" = Some I ->
  points_of self !! "X'" = Some X' ->
  _remove_waist_shaping self
  = (fst (setitem "X'" (fst I, snd X')
            (fst (setitem "X" (fst I, snd X) self))), inr tt).
Proof.
  destruct self as [[m c pts cvs] orig]. unfold points_of.
  cbn [generator PatternGenerator.points]. intros HX HI HX'.
  run. reflexivity.
Qed.

(** X2.  On a derived pattern the straight silhouette returns normally and
    moves X and X' onto W, the point of the waist line on the back-width
    vertical: the waist shaping is closed.  No other point moves. *)
Theorem straight_silhouette_closes_the_waist (m : Measurements.t)
    (c : PatternConstants.t) :
  succeeds (derive m c) = true ->
  let self := init (generated_from m c) in
  let after := _modify_silhouette "straight" self in
  snd after = inr tt
  /\ is_Some (points_of self !! "W")
  /\ points_of (fst after) !! "X" = points_of self !! "W"
  /\ points_of (fst after) !! "X'" = points_of self !! "W"
  /\ (forall l, l <> "X" -> l <> "X'" ->
      points_of (fst after) !! l = points_of self !! l).
Proof.
  intros H self after.
  destruct (derived_points m c H)
    as (_ & _ & _ & _ & _ & _ & HI & HW & HX & HX' & _).
  rewrite <- (points_of_generated_from m c H) in HI, HW, HX, HX'.
  fold self in HI, HW, HX, HX'.
  assert (Hrun := _remove_waist_shaping_present self _ _ _ HX HI HX').
  change (_modify_silhouette "straight") with _remove_waist_shaping in after.
  subst after. rewrite Hrun. cbn [fst snd].
  split; [reflexivity |]. split; [rewrite HW; eauto |].
  unfold points_of, setitem.
  cbn [fst snd generator PatternGenerator.points PatternGenerator.set_points].
  fold (points_of self). rewrite HW.
  split; [lookups; reflexivity |]. split; [lookups; reflexivity |].
  intros l Hl Hl'. rewrite !lookup_insert_ne by congruence. reflexivity.
Qed.

Lemma straight_silhouette_closes_the_waist_at_defaults :
  let self :=
    init (generated_from Measurements.defaults PatternConstants.defaults) in
  let after := _modify_silhouette "straight" self in
  snd after = inr tt
  /\ is_Some (points_of self !! "W")
  /\ points_of (fst after) !! "X" = points_of self !! "W"
  /\ points_of (fst after) !! "X'" = points_of self !! "W"
  /\ (forall l, l <> "X" -> l <> "X'" ->
      points_of (fst after) !! l = points_of self !! l).
Proof.
  apply (straight_silhouette_closes_the_waist
           Measurements.defaults PatternConstants.defaults).
  vm_compute. reflexivity.
Defined.

(** X3.  [_remove_waist_shaping] assigns the local [i_x] only when X and I are
    both in the point map, and reads it whenever X' is: with X' present
    and X or I missing it raises [UnboundLocalError] and changes
    nothing. *)
Theorem remove_waist_shaping_reads_an_unbound_local self (X' : point) :
  points_of self !! "X'" = Some X' ->
  points_of self !! "X" = None \/ points_of self !! "I" = None ->
  _remove_waist_shaping self = (self, inl (UnboundLocalError "i_x")).
Proof.
  destruct self as [[m c pts cvs] orig]. unfold points_of.
  cbn [generator PatternGenerator.points]. intros HX' [HX | HI].
  - run. reflexivity.
  - destruct (pts !! "X") eqn:HX; run; reflexivity.
Qed.

Lemma remove_waist_shaping_reads_an_unbound_local_at_a_lone_point :
  _remove_waist_shaping lone_X_prime
  = (lone_X_prime, inl (UnboundLocalError "i_x")).
Proof.
  apply (remove_waist_shaping_reads_an_unbound_local lone_X_prime
           (29.5, 43.0)).
  - vm_compute. reflexivity.
  - left. vm_compute. reflexivity.
Defined.

(** X4.  The two waist adjustments disagree on the direction: for the same
    amount [w], [PatternGenerator.apply_adjustments] moves X by [+ w / 4]
    and X' by [- w / 4], and [AdvancedPatternModifier._adjust_waist] moves
    X by [- w / 4] and X' by [+ w / 4] (whether or not its dart step then
    raises). *)
Theorem waist_adjustments_move_X_in_opposite_directions self (w : float)
    (X X' : point) :
  points_of self !! "X" = Some X ->
  points_of self !! "X'" = Some X' ->
  let by_generator :=
    PatternGenerator.points
      (fst (PatternGenerator.apply_adjustments
              {[ "waist_adjustment" := w ]} (generator self))) in
  let by_modifier := points_of (fst (_adjust_waist w self)) in
  by_generator !! "X" = Some (fst X + w / 4, snd X)
  /\ by_generator !! "X'" = Some (fst X' - w / 4, snd X')
  /\ by_modifier !! "X" = Some (fst X - w / 4, snd X)
  /\ by_modifier !! "X'" = Some (fst X' + w / 4, snd X').
Proof.
  destruct self as [[m c pts cvs] orig]. unfold points_of.
  cbn [generator PatternGenerator.points]. intros HX HX'. cbv zeta.
  split; [| split].
  - unfold PatternGenerator.apply_adjustments.
    rewrite lookup_singleton_eq.
    cbn [PatternGenerator.points PatternGenerator.set_points fst].
    rewrite HX.
    cbn [PatternGenerator.points PatternGenerator.set_points fst].
    lookups.
    cbn [PatternGenerator.points PatternGenerator.set_points fst].
    lookups. reflexivity.
  - unfold PatternGenerator.apply_adjustments.
    rewrite lookup_singleton_eq.
    cbn [PatternGenerator.points PatternGenerator.set_points fst].
    rewrite HX.
    cbn [PatternGenerator.points PatternGenerator.set_points fst].
    lookups.
    cbn [PatternGenerator.points PatternGenerator.set_points fst].
    lookups. reflexivity.
  - run.
    case_lookup pts "Z".
    all: destruct (2 <? abs w); run.
    all: try (split; reflexivity).
    all: case_lookup pts "Z'"; try (split; reflexivity).
    all: case_lookup pts "z'''"; try (split; reflexivity).
    all: case_lookup pts "Z''"; try (split; reflexivity).
Qed.

Lemma waist_adjustments_move_X_in_opposite_directions_at_defaults :
  let self :=
    init (generated_from Measurements.defaults PatternConstants.defaults) in
  let by_generator :=
    PatternGenerator.points
      (fst (PatternGenerator.apply_adjustments
              {[ "waist_adjustment" := 4.0 ]} (generator self))) in
  let by_modifier := points_of (fst (_adjust_waist 4.0 self)) in
  by_generator !! "X" = Some (24.5 + 4.0 / 4, 43.0)
  /\ by_generator !! "X'" = Some (29.5 - 4.0 / 4, 43.0)
  /\ by_modifier !! "X" = Some (24.5 - 4.0 / 4, 43.0)
  /\ by_modifier !! "X'" = Some (29.5 + 4.0 / 4, 43.0).
Proof.
  apply (waist_adjustments_move_X_in_opposite_directions
           (init (generated_from Measurements.defaults
                    PatternConstants.defaults))
           4.0 (24.5, 43.0) (29.5, 43.0));
    vm_compute; reflexivity.
Defined.

(** X5.  [_adjust_chest] moves K and J sideways by a quarter of the amount and
    puts K' and J' back above them; beyond these four only S can move.
    The store of K precedes the look-up of K': when K' is missing the
    method raises [KeyError] with K already moved. *)
Theorem chest_adjustment_moves_K_and_J_with_their_primes :
  (forall self (a : float) (K K' J J' : point),
      points_of self !! "K" = Some K ->
      points_of self !! "K'" = Some K' ->
      points_of self !! "J" = Some J ->
      points_of self !! "J'" = Some J' ->
      let after := _adjust_chest a self in
      snd after = inr tt
      /\ points_of (fst after) !! "K" = Some (fst K + a / 4, snd K)
      /\ points_of (fst after) !! "K'" = Some (fst K + a / 4, snd K')
      /\ points_of (fst after) !! "J" = Some (fst J - a / 4, snd J)
      /\ points_of (fst after) !! "J'" = Some (fst J - a / 4, snd J')
      /\ (forall l, l ∉ ["K"; "K'"; "J"; "J'"; "S"] ->
          points_of (fst after) !! l = points_of self !! l))
  /\ (forall self (a : float) (K : point),
      points_of self !! "K" = Some K ->
      points_of self !! "K'" = None ->
      _adjust_chest a self
      = (fst (setitem "K" (fst K + a / 4, snd K) self),
         inl (Raised (Py.KeyError "K'")))).
Proof.
  split.
  - intros [[m c pts cvs] orig] a K K' J J'. unfold points_of.
    cbn [generator PatternGenerator.points]. intros HK HK' HJ HJ'.
    assert (Hframe : forall l, l ∉ ["K"; "K'"; "J"; "J'"; "S"] ->
              l <> "K" /\ l <> "K'" /\ l <> "J" /\ l <> "J'" /\ l <> "S").
    { intros l Hl. repeat split; intros ->; apply Hl;
        apply (bool_decide_unpack _); vm_compute; exact I. }
    run. destruct (3 <? abs a); run.
    + case_lookup pts "S"; [case_lookup pts "R" |].
      all: repeat (split; [reflexivity |]).
      all: intros l Hl; destruct (Hframe l Hl) as (? & ? & ? & ? & ?).
      all: rewrite !lookup_insert_ne by congruence; reflexivity.
    + repeat (split; [reflexivity |]).
      intros l Hl; destruct (Hframe l Hl) as (? & ? & ? & ? & ?).
      rewrite !lookup_insert_ne by congruence; reflexivity.
  - intros [[m c pts cvs] orig] a K. unfold points_of.
    cbn [generator PatternGenerator.points]. intros HK HK'.
    run. reflexivity.
Qed.

Lemma chest_adjustment_moves_K_and_J_with_their_primes_at_defaults :
  let self :=
    init (generated_from Measurements.defaults PatternConstants.defaults) in
  let after := _adjust_chest 4.0 self in
  snd after = inr tt
  /\ points_of (fst after) !! "K" = Some (34.25 + 4.0 / 4, 59.0)
  /\ points_of (fst after) !! "K'" = Some (34.25 + 4.0 / 4, 85.0)
  /\ points_of (fst after) !! "J" = Some (19.75 - 4.0 / 4, 59.0)
  /\ points_of (fst after) !! "J'" = Some (19.75 - 4.0 / 4, 85.0)
  /\ (forall l, l ∉ ["K"; "K'"; "J"; "J'"; "S"] ->
      points_of (fst after) !! l = points_of self !! l).
Proof.
  apply (proj1 chest_adjustment_moves_K_and_J_with_their_primes
           (init (generated_from Measurements.defaults
                    PatternConstants.defaults))
           4.0 (34.25, 59.0) (34.25, 85.0) (19.75, 59.0) (19.75, 85.0));
    vm_compute; reflexivity.
Defined.

End ModifierProperties.

(** ** Patterns of a size *)

Section Sizes.

Import Measurements PatternConstants.

Lemma init_of_size (size : float) :
  Measurements.init {[ "size" := size ]} = inr (__post_init__ (sized size)).
Proof.
  unfold Measurements.init, sized.
  remember Measurements.__post_init__ as resolver.
  vm_compute. reflexivity.
Qed.

(** The leg-solves do not depend on the size: the derivation of a size
    returns, whatever float the size is. *)
Lemma derive_of_size (size : float) :
  succeeds (derive (__post_init__ (sized size)) PatternConstants.defaults)
  = true.
Proof.
  pose proof (derive_outcome (__post_init__ (sized size))
                PatternConstants.defaults) as Hout.
  destruct (post_init_fields (sized size))
    as (_ & _ & _ & _ & _ & _ & _ & _ & Hsb & _).
  unfold leg_solve_failure, back_radicand, front_radicand, shoulder_length
    in Hout.
  rewrite Hsb in Hout.
  destruct (derive _ _) as [e |]; [| reflexivity].
  vm_compute in Hout. discriminate Hout.
Qed.

Lemma jacket_length_of_size (size : float) :
  jacket_length (__post_init__ (sized size)) = 85.0.
Proof.
  destruct (post_init_fields (sized size))
    as (_ & _ & _ & _ & _ & Hjl & _).
  rewrite Hjl. reflexivity.
Qed.

End Sizes.

(** ** Loops, lengths, flares and ready-made dresses *)

Section ModifierCompositions.

Import AdvancedPatternModifier.

Implicit Types (self : AdvancedPatternModifier.t) (pts : gmap string point).

(** X6.  The three loops over the point map give the same map and the same
    outcome in every order that goes through the keys once: the order in
    which the dict was filled, which the finite map does not record, does
    not matter. *)
Theorem point_loops_do_not_depend_on_the_order (order : list string) pts :
  enumerates order pts ->
  (forall a,
      for_items_in order (_adjust_length_item a) pts
      = for_items (_adjust_length_item a) pts)
  /\ (forall hip_level quarter_adj cvs,
      for_items_in order (_adjust_hip_item hip_level quarter_adj cvs) pts
      = for_items (_adjust_hip_item hip_level quarter_adj cvs) pts)
  /\ (forall waist_y quarter_increase cvs,
      for_items_in order
        (_apply_flare_from_waist_item waist_y quarter_increase cvs) pts
      = for_items
          (_apply_flare_from_waist_item waist_y quarter_increase cvs) pts).
Proof.
  intros Henum. repeat split; intros; apply for_items_in_any_order;
    try exact Henum.
  - left. eexists. apply _adjust_length_item_stores.
  - apply _adjust_hip_item_cases.
  - apply _apply_flare_from_waist_item_cases.
Qed.

Lemma point_loops_do_not_depend_on_the_order_of_the_labels :
  let pts :=
    point_map (derive Measurements.defaults PatternConstants.defaults) in
  (forall a,
      for_items_in labels (_adjust_length_item a) pts
      = for_items (_adjust_length_item a) pts)
  /\ (forall hip_level quarter_adj cvs,
      for_items_in labels (_adjust_hip_item hip_level quarter_adj cvs) pts
      = for_items (_adjust_hip_item hip_level quarter_adj cvs) pts)
  /\ (forall waist_y quarter_increase cvs,
      for_items_in labels
        (_apply_flare_from_waist_item waist_y quarter_increase cvs) pts
      = for_items
          (_apply_flare_from_waist_item waist_y quarter_increase cvs) pts).
Proof.
  apply (point_loops_do_not_depend_on_the_order labels
           (point_map
              (derive Measurements.defaults PatternConstants.defaults))).
  split; [apply labels_NoDup |].
  intros k.
  assert (Hdom : dom (point_map (derive Measurements.defaults
                                   PatternConstants.defaults))
                 = list_to_set labels) by (vm_compute; reflexivity).
  rewrite <- elem_of_dom, Hdom, elem_of_list_to_set. reflexivity.
Defined.

(** X7.  [_adjust_length] returns on every state.  It leaves the ten points of
    the top edge where they are, raises every other point by the
    adjustment and adds the adjustment to the recorded length.  On a
    derived pattern the corners A and D therefore stay at the length the
    pattern was derived for while B and C go from 0 to the adjustment: a
    pattern lengthened by [a] is drawn shorter by [a]. *)
Theorem length_adjustment_keeps_the_top_edge :
  (forall self (a : float),
      exists self',
        _adjust_length a self = (self', inr tt)
        /\ (forall l,
              points_of self' !! l = raised_by a l <$> points_of self !! l)
        /\ length_of self' = length_of self + a
        /\ scalars_of self' = scalars_of self
        /\ original_points self' = original_points self)
  /\ (forall (m : Measurements.t) (c : PatternConstants.t) (a : float),
      succeeds (derive m c) = true ->
      let after := fst (_adjust_length a (init (generated_from m c))) in
      let jl := Measurements.jacket_length m in
      exists width,
        scalars (derive m c) !! "width" = Some (Some width)
        /\ points_of after !! "A" = Some (0, jl)
        /\ points_of after !! "D" = Some (width, jl)
        /\ points_of after !! "B" = Some (0, 0 + a)
        /\ points_of after !! "C" = Some (width, 0 + a)
        /\ length_of after = jl + a).
Proof.
  split; [intros self a; apply _adjust_length_returns |].
  intros m c a H after jl.
  destruct (_adjust_length_returns a (init (generated_from m c)))
    as (self' & Hrun & Hpts & Hlen & _).
  subst after. rewrite Hrun. cbn [fst].
  rewrite !Hpts, Hlen, (points_of_generated_from m c H).
  destruct (derived_points m c H) as (HA & HB & HC & HD & _).
  rewrite HA, HB, HC, HD.
  destruct (generated_from_succeeds m c H) as (_ & _ & _ & Hm & _).
  unfold length_of. cbn [init generator]. rewrite Hm.
  eexists. split; [| repeat split; vm_compute; reflexivity].
  destruct (succeeds_inr m c H) as (items & _ & ->). cbn [scalars].
  destruct m, c. vm_compute. reflexivity.
Qed.

Lemma length_adjustment_keeps_the_top_edge_of_the_default_pattern :
  let after :=
    fst (_adjust_length 35.0
           (init (generated_from Measurements.defaults
                    PatternConstants.defaults))) in
  exists width,
    scalars (derive Measurements.defaults PatternConstants.defaults)
      !! "width" = Some (Some width)
    /\ points_of after !! "A" = Some (0, 85.0)
    /\ points_of after !! "D" = Some (width, 85.0)
    /\ points_of after !! "B" = Some (0, 0 + 35.0)
    /\ points_of after !! "C" = Some (width, 0 + 35.0)
    /\ length_of after = 85.0 + 35.0.
Proof.
  apply (proj2 length_adjustment_keeps_the_top_edge
           Measurements.defaults PatternConstants.defaults 35.0).
  vm_compute. reflexivity.
Defined.

(** X8.  Once a pattern has been generated [apply_advanced_adjustments] returns
    normally for every dict of adjustments, whatever floats it holds: no
    look-up misses and nothing is divided.  The point map keeps the 47
    labels and the scalars stay numbers, so the call can be repeated; the
    snapshot [original_points] is taken by the first call and kept by the
    later ones. *)
Theorem advanced_adjustments_keep_a_generated_pattern_whole
    (adj : gmap string float) self :
  generated (generator self) ->
  exists self',
    apply_advanced_adjustments adj self = (self', inr tt)
    /\ generated (generator self')
    /\ original_points self'
       = Some (default (points_of self) (original_points self)).
Proof. apply apply_advanced_adjustments_generated. Qed.

Lemma advanced_adjustments_keep_the_default_pattern_whole :
  let self :=
    init (generated_from Measurements.defaults PatternConstants.defaults) in
  exists self',
    apply_advanced_adjustments demo_adjustments self = (self', inr tt)
    /\ generated (generator self')
    /\ original_points self'
       = Some (default (points_of self) (original_points self)).
Proof.
  apply (advanced_adjustments_keep_a_generated_pattern_whole
           demo_adjustments
           (init (generated_from Measurements.defaults
                    PatternConstants.defaults))).
  apply generated_from_succeeds. vm_compute. reflexivity.
Defined.

(** X9.  On a generator without points [apply_advanced_adjustments] generates
    the pattern first.  When the derivation raises, the method raises the
    same exception and takes no snapshot; when it returns, the method goes
    on as on the generated pattern, returns normally, and the snapshot is
    the derived point map, before any adjustment. *)
Theorem advanced_adjustments_generate_first :
  (forall (m : Measurements.t) (c : PatternConstants.t)
      (adj : gmap string float) (e : Py.exn),
      derive m c = inl e ->
      apply_advanced_adjustments adj
        (init (PatternGenerator.init m (Some c)))
      = (init (generated_from m c), inl (Raised e))
      /\ points_of (init (generated_from m c)) = ∅)
  /\ (forall (m : Measurements.t) (c : PatternConstants.t)
        (adj : gmap string float),
      succeeds (derive m c) = true ->
      apply_advanced_adjustments adj
        (init (PatternGenerator.init m (Some c)))
      = apply_advanced_adjustments adj (init (generated_from m c))
      /\ exists self',
           apply_advanced_adjustments adj
             (init (PatternGenerator.init m (Some c)))
           = (self', inr tt)
           /\ generated (generator self')
           /\ original_points self' = Some (point_map (derive m c))).
Proof.
  split.
  - intros m c adj e Hd. split.
    + apply apply_advanced_adjustments_fails. exact Hd.
    + apply (generated_from_fails m c e Hd).
  - intros m c adj H.
    rewrite (apply_advanced_adjustments_fresh adj m c H).
    split; [reflexivity |].
    destruct (generated_from_succeeds m c H) as (_ & Hp & _ & _ & _ & Hgen).
    destruct (apply_advanced_adjustments_generated adj
                (init (generated_from m c)) Hgen)
      as (self' & Hrun & Hgen' & Horig).
    exists self'. split; [exact Hrun |]. split; [exact Hgen' |].
    rewrite Horig. cbn [init original_points default]. unfold points_of.
    cbn [init generator]. rewrite Hp. reflexivity.
Qed.

Lemma advanced_adjustments_generate_the_default_pattern_first :
  apply_advanced_adjustments demo_adjustments
    (init (PatternGenerator.init Measurements.defaults
             (Some PatternConstants.defaults)))
  = apply_advanced_adjustments demo_adjustments
      (init (generated_from Measurements.defaults PatternConstants.defaults))
  /\ exists self',
       apply_advanced_adjustments demo_adjustments
         (init (PatternGenerator.init Measurements.defaults
                  (Some PatternConstants.defaults)))
       = (self', inr tt)
       /\ generated (generator self')
       /\ original_points self'
          = Some (point_map (derive Measurements.defaults
                               PatternConstants.defaults)).
Proof.
  apply (proj2 advanced_adjustments_generate_first
           Measurements.defaults PatternConstants.defaults demo_adjustments).
  vm_compute. reflexivity.
Defined.

(** *** The flare from the waist *)

Lemma _apply_flare_from_waist_unfold (f : float) self :
  _apply_flare_from_waist f self
  = for_each_item
      (_apply_flare_from_waist_item
         match points_of self !! "E" with Some E => snd E | None => 0 end
         (f / 4) (scalars_of self))
      self.
Proof.
  unfold _apply_flare_from_waist, points_of, scalars_of.
  cbv beta iota zeta delta [bind contains getitem ret calculated_values].
  destruct (PatternGenerator.points (generator self) !! "E") eqn:E;
    cbv beta iota zeta; rewrite ?E; reflexivity.
Qed.

(** X10.  [_apply_flare_from_waist] divides by the ordinate of E, the waist
    level.  When that ordinate is zero and some point lies below it to the
    right of the centre-back line, the method raises [ZeroDivisionError]
    and changes nothing.  When it is not zero (and the width is a number)
    the method returns, keeps the labels, and leaves every point that is
    not below the waist where it is. *)
Theorem flare_divides_by_the_waist_ordinate :
  (forall self (f : float) (E : point) (w : float) (l : string) (p : point),
      points_of self !! "E" = Some E ->
      scalars_of self !! "width" = Some (Some w) ->
      (snd E =? 0) = true ->
      points_of self !! l = Some p ->
      (snd p <? snd E) = true ->
      (w / 2 <? fst p) || (0 <? fst p) = true ->
      _apply_flare_from_waist f self
      = (self, inl (Raised (Py.ZeroDivisionError "float division by zero"))))
  /\ (forall self (f : float) (E : point) (w : float),
      points_of self !! "E" = Some E ->
      scalars_of self !! "width" = Some (Some w) ->
      (snd E =? 0) = false ->
      exists self',
        _apply_flare_from_waist f self = (self', inr tt)
        /\ dom (points_of self') = dom (points_of self)
        /\ (forall (l : string) (p : point),
            points_of self !! l = Some p ->
            (snd p <? snd E) = false ->
            points_of self' !! l = Some p)).
Proof.
  split.
  - intros self f E w l p HE Hw Hzero Hl Hbelow Hside.
    rewrite _apply_flare_from_waist_unfold, HE.
    set (e := Py.ZeroDivisionError "float division by zero").
    set (body := _apply_flare_from_waist_item (snd E) (f / 4)
                   (scalars_of self)).
    assert (Hbody : forall k q, body k q = inl e \/ body k q = inr None).
    { intros k [x y]. unfold body, _apply_flare_from_waist_item,
        PatternGenerator.cv_get, Py.truediv.
      rewrite Hw, Hzero. cbv beta iota delta [Py.bind Py.ok Py.raise].
      destruct (y <? snd E); [| right; reflexivity].
      destruct (w / 2 <? x); [left; reflexivity |].
      destruct (0 <? x); [left | right]; reflexivity. }
    destruct (for_items_frozen body e (points_of self) Hbody)
      as [[_ Hrun] | [Hnone _]].
    + unfold for_each_item. fold (points_of self). rewrite Hrun.
      destruct self as [[m c pts cvs] orig]. reflexivity.
    + exfalso. apply Hnone. exists l, p. split; [exact Hl |].
      destruct p as [x y]. cbn [fst snd] in *.
      unfold body, _apply_flare_from_waist_item,
        PatternGenerator.cv_get, Py.truediv.
      rewrite Hw, Hzero, Hbelow. cbv beta iota delta [Py.bind Py.ok Py.raise].
      destruct (w / 2 <? x); [reflexivity |].
      cbn [orb] in Hside. rewrite Hside. reflexivity.
  - intros self f E w HE Hw Hnonzero.
    rewrite _apply_flare_from_waist_unfold, HE.
    set (store := fun (_ : string) '((x, y) : point) =>
           if y <? snd E then
             if w / 2 <? x
             then Some (x + f / 4 * ((snd E - y) / snd E), y)
             else if 0 <? x
             then Some (x - f / 4 * ((snd E - y) / snd E), y)
             else None
           else None).
    assert (Hbody : forall k q,
               _apply_flare_from_waist_item (snd E) (f / 4)
                 (scalars_of self) k q = inr (store k q)).
    { intros k [x y]. unfold store, _apply_flare_from_waist_item,
        PatternGenerator.cv_get, Py.truediv.
      rewrite Hw, Hnonzero. cbv beta iota delta [Py.bind Py.ok Py.raise].
      destruct (y <? snd E); [| reflexivity].
      destruct (w / 2 <? x); [reflexivity |].
      destruct (0 <? x); reflexivity. }
    destruct (for_each_item_returns _ store self Hbody)
      as (pts' & Hrun & Hres).
    eexists. split; [exact Hrun |].
    change (points_of
              (mk (PatternGenerator.set_points pts' (generator self))
                  (original_points self))) with pts'.
    split.
    + apply (dom_pointwise (points_of self) pts'
               (fun k q => default q (store k q)) Hres).
    + intros l [x y] Hl Habove. cbn [snd] in Habove.
      rewrite Hres, Hl. cbn [fmap option_fmap option_map].
      unfold store. rewrite Habove. reflexivity.
Qed.

Lemma flare_divides_by_the_waist_ordinate_at_length_42 :
  _apply_flare_from_waist 15
    (init (generated_from (with_jacket_length 42.0 Measurements.defaults)
             PatternConstants.defaults))
  = (init (generated_from (with_jacket_length 42.0 Measurements.defaults)
             PatternConstants.defaults),
     inl (Raised (Py.ZeroDivisionError "float division by zero"))).
Proof.
  apply (proj1 flare_divides_by_the_waist_ordinate
           (init (generated_from
                    (with_jacket_length 42.0 Measurements.defaults)
                    PatternConstants.defaults))
           15 (0, 0) 56.0 "z'''" (12.75, -13.0));
    vm_compute; reflexivity.
Defined.

(** *** Variations on a generator without points *)

Lemma for_each_item_empty
    (body : string -> point -> Py.result (option point)) self :
  points_of self = ∅ -> for_each_item body self = (self, inr tt).
Proof.
  destruct self as [[m c pts cvs] orig]. unfold points_of, for_each_item.
  cbn [generator PatternGenerator.points]. intros ->.
  unfold for_items. rewrite map_to_list_empty. reflexivity.
Qed.

Lemma _adjust_length_empty (a : float) self :
  points_of self = ∅ ->
  _adjust_length a self = set_jacket_length (length_of self + a) self.
Proof.
  intros Hempty. unfold _adjust_length.
  rewrite (bind_returns _ _ _ _ _ (for_each_item_empty _ self Hempty)).
  reflexivity.
Qed.

Lemma apply_design_variations_empty (opts : DesignOptions.t) self :
  points_of self = ∅ ->
  apply_design_variations opts self
  = match length_of_style (DesignOptions.length_style opts) with
    | Some n => set_jacket_length (length_of self + (n - length_of self)) self
    | None => (self, inr tt)
    end.
Proof.
  intros Hempty.
  assert (Hneck : forall n, _modify_neckline n self = (self, inr tt)).
  { intros n. destruct self as [[m c pts cvs] orig].
    unfold points_of in Hempty. cbn [generator PatternGenerator.points]
      in Hempty. subst pts. unfold _modify_neckline.
    destruct (bool_decide (n = "v_neck"));
      [| destruct (bool_decide (n = "square"));
         [| destruct (bool_decide (n = "boat"))]];
      run; reflexivity. }
  assert (Hsil : forall s, _modify_silhouette s self = (self, inr tt)).
  { intros s. unfold _modify_silhouette.
    destruct (bool_decide (s = "a_line"));
      [| destruct (bool_decide (s = "straight"));
         [| destruct (bool_decide (s = "flared"))]];
      try reflexivity.
    - destruct self as [[m c pts cvs] orig].
      unfold points_of in Hempty. cbn [generator PatternGenerator.points]
        in Hempty. subst pts. run. reflexivity.
    - destruct self as [[m c pts cvs] orig].
      unfold points_of in Hempty. cbn [generator PatternGenerator.points]
        in Hempty. subst pts. run. reflexivity.
    - rewrite _apply_flare_from_waist_unfold.
      apply for_each_item_empty. exact Hempty. }
  assert (Hdart : forall d, _modify_dart_style d self = (self, inr tt)).
  { intros d. unfold _modify_dart_style.
    destruct (bool_decide (d = "princess"));
      [| destruct (bool_decide (d = "french"))]; reflexivity. }
  unfold apply_design_variations.
  rewrite (bind_returns _ _ self self tt);
    [| destruct (bool_decide (_ <> "round")); [apply Hneck | reflexivity]].
  rewrite (bind_returns _ _ self self tt);
    [| destruct (bool_decide (_ <> "fitted")); [apply Hsil | reflexivity]].
  rewrite (bind_returns _ _ self self tt);
    [| destruct (bool_decide (_ <> "standard")); [apply Hdart | reflexivity]].
  unfold length_of_style, _modify_length_style.
  destruct (decide (DesignOptions.length_style opts = "midi")) as [-> | Hne].
  - reflexivity.
  - rewrite (bool_decide_eq_true_2 _ Hne).
    rewrite (bind_returns jacket_length _ self self (length_of self) eq_refl).
    cbv zeta.
    rewrite (bool_decide_eq_false_2
               (DesignOptions.length_style opts = "midi") Hne).
    destruct (bool_decide (DesignOptions.length_style opts = "mini"));
      [apply _adjust_length_empty; exact Hempty |].
    destruct (bool_decide (DesignOptions.length_style opts = "knee"));
      [apply _adjust_length_empty; exact Hempty |].
    destruct (bool_decide (DesignOptions.length_style opts = "maxi"));
      [apply _adjust_length_empty; exact Hempty | reflexivity].
Qed.

(** X11.  The variations do not generate the pattern.  On a generator without
    points the neckline, the silhouette and the dart style find nothing to
    change, and the length style only changes the recorded length: the
    method returns normally, and the generator still has no points. *)
Theorem design_variations_do_not_generate (opts : DesignOptions.t) self :
  points_of self = ∅ ->
  apply_design_variations opts self
  = match length_of_style (DesignOptions.length_style opts) with
    | Some n => set_jacket_length (length_of self + (n - length_of self)) self
    | None => (self, inr tt)
    end.
Proof. apply apply_design_variations_empty. Qed.

Lemma design_variations_do_not_generate_the_custom_design :
  let self := init (PatternGenerator.init (sized 48.0) None) in
  apply_design_variations (design "boat" "straight" "knee") self
  = match length_of_style
            (DesignOptions.length_style (design "boat" "straight" "knee"))
    with
    | Some n => set_jacket_length (length_of self + (n - length_of self)) self
    | None => (self, inr tt)
    end.
Proof.
  apply (design_variations_do_not_generate
           (design "boat" "straight" "knee")
           (init (PatternGenerator.init (sized 48.0) None))).
  reflexivity.
Defined.

(** *** The ready-made dresses *)

Lemma modifier_of_size_fresh (size : float) :
  modifier_of_size size
  = inr (init (PatternGenerator.init
                 (Measurements.__post_init__ (sized size)) None)).
Proof. unfold modifier_of_size. rewrite init_of_size. reflexivity. Qed.

Lemma maxi_length : 85.0 + (120 - 85.0) = 120.
Proof. reflexivity. Qed.

(** X12.  Without adjustments no ready-made dress is generated, so the
    variations find no point to change.  [create_a_line_dress(size)]
    returns the generator exactly as it was constructed: the flare is not
    applied, and plotting the result draws the plain pattern of the size.
    [create_maxi_dress(size, neckline)] returns a generator without points
    whose recorded length is 120, the same for every neckline: the
    neckline is not applied, and the pattern generated later is 120
    long. *)
Theorem ready_made_dresses_without_adjustments_are_not_generated
    (size : float) :
  let m := Measurements.__post_init__ (sized size) in
  Measurements.init {[ "size" := size ]} = inr m
  /\ create_a_line_dress size None = inr (PatternGenerator.init m None)
  /\ create_a_line_dress size (Some ∅) = inr (PatternGenerator.init m None)
  /\ (forall neckline : string,
      create_maxi_dress size neckline None
      = inr (PatternGenerator.init (with_jacket_length 120 m) None))
  /\ (forall neckline : string,
      create_maxi_dress size neckline (Some ∅)
      = inr (PatternGenerator.init (with_jacket_length 120 m) None)).
Proof.
  intros m. split; [apply init_of_size |].
  assert (Ha : forall adjustments, truthy adjustments = false ->
            create_a_line_dress size adjustments
            = inr (PatternGenerator.init m None)).
  { intros adjustments Hfalse. unfold create_a_line_dress.
    rewrite modifier_of_size_fresh, Hfalse. fold m.
    unfold returned_generator.
    rewrite (bind_returns (ret tt) _ _ _ tt eq_refl).
    rewrite apply_design_variations_empty by reflexivity.
    reflexivity. }
  assert (Hm : forall neckline adjustments, truthy adjustments = false ->
            create_maxi_dress size neckline adjustments
            = inr (PatternGenerator.init (with_jacket_length 120 m) None)).
  { intros neckline adjustments Hfalse. unfold create_maxi_dress.
    rewrite modifier_of_size_fresh, Hfalse. fold m.
    unfold returned_generator.
    rewrite (bind_returns (ret tt) _ _ _ tt eq_refl).
    rewrite apply_design_variations_empty by reflexivity.
    cbn [DesignOptions.length_style DesignOptions.set_neckline_type
         DesignOptions.set_length_style DesignOptions.defaults].
    change (length_of_style "maxi") with (Some 120).
    unfold length_of. cbn [init generator PatternGenerator.init
                           PatternGenerator.measurements].
    unfold m. rewrite jacket_length_of_size, maxi_length. reflexivity. }
  split; [apply Ha; reflexivity |]. split; [apply Ha; reflexivity |].
  split; intros neckline; apply Hm; reflexivity.
Qed.

(** X13.  The ready-made dresses return normally for every size and every dict
    of adjustments, whatever floats they hold. *)
Theorem ready_made_dresses_always_return (size : float)
    (adjustments : option (gmap string float)) :
  (exists g, create_a_line_dress size adjustments = inr g)
  /\ (forall waist_reduction : float,
      exists g,
        create_fitted_dress size waist_reduction adjustments = inr g
        /\ generated g)
  /\ (forall neckline : string,
      exists g, create_maxi_dress size neckline adjustments = inr g).
Proof.
  pose proof (derive_of_size size) as Hsize.
  set (m := Measurements.__post_init__ (sized size)) in *.
  assert (Hadj : forall adj,
            exists self',
              apply_advanced_adjustments adj
                (init (PatternGenerator.init m None))
              = (self', inr tt)
              /\ generated (generator self')).
  { intros adj.
    change (PatternGenerator.init m None)
      with (PatternGenerator.init m (Some PatternConstants.defaults)).
    rewrite (apply_advanced_adjustments_fresh adj m _ Hsize).
    destruct (generated_from_succeeds m _ Hsize)
      as (_ & _ & _ & _ & _ & Hgen).
    destruct (apply_advanced_adjustments_generated adj
                (init (generated_from m PatternConstants.defaults)) Hgen)
      as (self' & Hrun & Hgen' & _).
    exists self'. split; assumption. }
  assert (Hdesign : forall opts adj,
            DesignOptions.dress_style opts = "fitted"
            \/ DesignOptions.dress_style opts = "a_line" ->
            exists g,
              returned_generator (modifier_of_size size)
                (bind (if truthy adjustments
                       then apply_advanced_adjustments adj else ret tt)
                   (fun _ => apply_design_variations opts))
              = inr g).
  { intros opts adj Hstyle. rewrite modifier_of_size_fresh. fold m.
    unfold returned_generator. destruct (truthy adjustments).
    - destruct (Hadj adj) as (self1 & Hrun1 & Hgen1).
      rewrite (bind_returns _ _ _ _ _ Hrun1).
      destruct (apply_design_variations_fitted opts Hstyle self1 Hgen1)
        as (self2 & -> & _).
      eexists. reflexivity.
    - rewrite (bind_returns (ret tt) _ _ _ tt eq_refl).
      rewrite apply_design_variations_empty by reflexivity.
      destruct (length_of_style _); eexists; reflexivity. }
  split; [| split].
  - unfold create_a_line_dress. apply Hdesign. right. reflexivity.
  - intros waist_reduction. unfold create_fitted_dress.
    rewrite modifier_of_size_fresh. fold m. cbv zeta.
    unfold returned_generator.
    match goal with
    | |- context [apply_advanced_adjustments ?adj _] =>
        destruct (Hadj adj) as (self' & -> & Hgen')
    end.
    eexists. split; [reflexivity | exact Hgen'].
  - intros neckline. unfold create_maxi_dress. apply Hdesign.
    left. reflexivity.
Qed.

End ModifierCompositions.

(** ** The corners of an adjusted pattern *)

Section Corners.

Import AdvancedPatternModifier.

Implicit Types (self : AdvancedPatternModifier.t) (pts : gmap string point).

(** A step that goes through and stores nothing under A, B and F. *)
Lemma keeps_the_corners_by_frame (step : method unit) :
  goes_through step ->
  (forall self, generated (generator self) ->
     points_of (fst (step self)) !! "A" = points_of self !! "A"
     /\ points_of (fst (step self)) !! "B" = points_of self !! "B"
     /\ points_of (fst (step self)) !! "F" = points_of self !! "F"
     /\ length_of (fst (step self)) = length_of self) ->
  keeps_the_corners step.
Proof.
  intros Hgo Hframe self A B F Hgen HA HB HF _ _.
  destruct (Hgo self Hgen) as (self' & Hrun & Hgen' & _).
  destruct (Hframe self Hgen) as (HA' & HB' & HF' & Hlen).
  rewrite Hrun in HA', HB', HF', Hlen. cbn [fst] in *.
  exists self', F. split; [exact Hrun |]. split; [exact Hgen' |].
  rewrite HA', HB', HF', Hlen. repeat split; assumption.
Qed.

Local Ltac open_generated self :=
  let m := fresh "m" in
  let c := fresh "c" in
  let pts := fresh "pts" in
  let cvs := fresh "cvs" in
  let orig := fresh "orig" in
  let Hdom := fresh "Hdom" in
  let w := fresh "w" in
  let ad := fresh "ad" in
  let bw := fresh "bw" in
  destruct self as [[m c pts cvs] orig];
  intros (Hdom & (w & ?) & (ad & ?) & (bw & ?));
  cbn [generator PatternGenerator.points PatternGenerator.calculated_values]
    in *.

Local Ltac known_label pts Hdom l :=
  let p := fresh "p" in
  let H := fresh "H" in
  destruct (label_lookup pts l Hdom) as [p H]; [label_in |].

Local Ltac frame_holds :=
  repeat split;
  repeat (rewrite lookup_insert_ne by (intro; discriminate));
  reflexivity.

Lemma _adjust_waist_keeps_the_corners (a : float) :
  keeps_the_corners (_adjust_waist a).
Proof.
  apply keeps_the_corners_by_frame; [apply _adjust_waist_goes_through |].
  intros self. open_generated self.
  known_label pts Hdom "X". known_label pts Hdom "X'".
  known_label pts Hdom "Z". known_label pts Hdom "Z'".
  known_label pts Hdom "z'''". known_label pts Hdom "Z''".
  run. destruct (2 <? abs a); run; frame_holds.
Qed.

Lemma _adjust_chest_keeps_the_corners (a : float) :
  keeps_the_corners (_adjust_chest a).
Proof.
  apply keeps_the_corners_by_frame; [apply _adjust_chest_goes_through |].
  intros self. open_generated self.
  known_label pts Hdom "K". known_label pts Hdom "K'".
  known_label pts Hdom "J". known_label pts Hdom "J'".
  known_label pts Hdom "S". known_label pts Hdom "R".
  run. destruct (3 <? abs a); run; frame_holds.
Qed.

Lemma _adjust_shoulder_keeps_the_corners (a : float) :
  keeps_the_corners (_adjust_shoulder a).
Proof.
  apply keeps_the_corners_by_frame; [apply _adjust_shoulder_goes_through |].
  intros self. open_generated self.
  known_label pts Hdom "N". known_label pts Hdom "T".
  run. frame_holds.
Qed.

Lemma _adjust_armhole_keeps_the_corners (a : float) :
  keeps_the_corners (_adjust_armhole a).
Proof.
  apply keeps_the_corners_by_frame; [apply _adjust_armhole_goes_through |].
  intros self. open_generated self.
  run. frame_holds.
Qed.

(** The hip loop moves the points near the hip level sideways. *)
Lemma _adjust_hip_keeps_the_corners (a : float) :
  keeps_the_corners (_adjust_hip a).
Proof.
  intros self A B F Hgen HA HB HF HnearA HnearB.
  assert (Hw : exists w, PatternGenerator.cv_get (scalars_of self) "width"
                         = inr w).
  { destruct Hgen as (_ & (w & Hw) & _). exists w.
    unfold PatternGenerator.cv_get, scalars_of. rewrite Hw. reflexivity. }
  destruct Hw as [w Hw].
  assert (Hrun : _adjust_hip a self
                 = for_each_item
                     (_adjust_hip_item (snd F) (a / 4) (scalars_of self))
                     self).
  { unfold _adjust_hip, points_of, scalars_of in *.
    cbv beta iota zeta delta
      [bind contains getitem ret calculated_values].
    rewrite HF. cbv beta iota zeta. rewrite HF. reflexivity. }
  destruct (_adjust_hip_item_with_width (snd F) (a / 4) (scalars_of self)
              w Hw) as [store Hstore].
  destruct (for_each_item_returns _ store self Hstore)
    as (pts' & Hloop & Hres).
  destruct (for_each_item_goes_through _ store Hstore self Hgen)
    as (self' & Hloop' & Hgen' & _).
  rewrite Hloop in Hloop'. injection Hloop' as <-.
  assert (Hitem : forall k p,
             store k p
             = match _adjust_hip_item (snd F) (a / 4) (scalars_of self) k p
               with inr s => s | inl _ => None end).
  { intros k p. rewrite Hstore. reflexivity. }
  assert (HF' : exists F', pts' !! "F" = Some F' /\ snd F' = snd F).
  { rewrite Hres, HF. cbn [fmap option_fmap option_map].
    rewrite Hitem. destruct F as [x y]. unfold _adjust_hip_item.
    rewrite Hw. cbn [Py.bind snd].
    destruct (abs (y - y) <? 2); [| eexists; split; reflexivity].
    destruct (w / 2 <? x); [eexists; split; reflexivity |].
    destruct (0 <? x); eexists; split; reflexivity. }
  destruct HF' as (F' & HF' & HFy).
  exists (mk (PatternGenerator.set_points pts' (generator self))
            (original_points self)), F'.
  split; [rewrite Hrun; exact Hloop |]. split; [exact Hgen' |].
  change (points_of
            (mk (PatternGenerator.set_points pts' (generator self))
                (original_points self))) with pts'.
  assert (Hcorner : forall l p,
             points_of self !! l = Some p ->
             (abs (snd p - snd F) <? 2) = false ->
             pts' !! l = Some p).
  { intros l [x y] Hl Hfar. rewrite Hres, Hl.
    cbn [fmap option_fmap option_map]. rewrite Hitem.
    unfold _adjust_hip_item. cbn [snd] in Hfar. rewrite Hfar.
    reflexivity. }
  split; [exact (Hcorner "A" A HA HnearA) |].
  split; [exact (Hcorner "B" B HB HnearB) |].
  split; [exact HF' |]. split; [exact HFy |].
  destruct self as [[m c pts cvs] orig]. reflexivity.
Qed.

Lemma with_entry_keeps_the_corners (adj : gmap string float) (key : string)
    (step : float -> method unit) :
  (forall v, keeps_the_corners (step v)) ->
  keeps_the_corners (with_entry adj key step).
Proof.
  intros H. unfold with_entry. destruct (adj !! key) as [v |]; [apply H |].
  intros self A B F Hgen HA HB HF _ _. exists self, F.
  split; [reflexivity |]. split; [exact Hgen |].
  split; [exact HA |]. split; [exact HB |]. split; [exact HF |].
  split; reflexivity.
Qed.

Lemma sequence_keeps_the_corners (first next : method unit) :
  keeps_the_corners first -> keeps_the_corners next ->
  keeps_the_corners (bind first (fun _ => next)).
Proof.
  intros Hfirst Hnext self A B F Hgen HA HB HF HnA HnB.
  destruct (Hfirst self A B F Hgen HA HB HF HnA HnB)
    as (self1 & F1 & Hrun1 & Hgen1 & HA1 & HB1 & HF1 & HFy1 & Hlen1).
  rewrite <- HFy1 in HnA, HnB.
  destruct (Hnext self1 A B F1 Hgen1 HA1 HB1 HF1 HnA HnB)
    as (self2 & F2 & Hrun2 & Hgen2 & HA2 & HB2 & HF2 & HFy2 & Hlen2).
  exists self2, F2. rewrite (bind_returns _ _ _ _ _ Hrun1).
  split; [exact Hrun2 |]. split; [exact Hgen2 |].
  split; [exact HA2 |]. split; [exact HB2 |]. split; [exact HF2 |].
  split; congruence.
Qed.

Lemma ret_keeps_the_corners : keeps_the_corners (ret tt).
Proof.
  intros self A B F Hgen HA HB HF _ _. exists self, F.
  split; [reflexivity |]. split; [exact Hgen |].
  split; [exact HA |]. split; [exact HB |]. split; [exact HF |].
  split; reflexivity.
Qed.

(** The adjustments of a dict without a length adjustment. *)
Lemma apply_advanced_adjustments_keeps_the_corners
    (adj : gmap string float) :
  adj !! "length_adjustment" = None ->
  keeps_the_corners (apply_advanced_adjustments adj).
Proof.
  intros Hlength self A B F Hgen HA HB HF HnA HnB.
  set (self0 := mk (generator self)
                  (Some (default (points_of self) (original_points self)))).
  assert (Hsteps : keeps_the_corners
            (bind (with_entry adj "waist_adjustment" _adjust_waist) (fun _ =>
             bind (with_entry adj "hip_adjustment" _adjust_hip) (fun _ =>
             bind (with_entry adj "chest_adjustment" _adjust_chest) (fun _ =>
             bind (with_entry adj "shoulder_adjustment" _adjust_shoulder)
               (fun _ =>
             bind (with_entry adj "length_adjustment" _adjust_length)
               (fun _ =>
             with_entry adj "armhole_adjustment" _adjust_armhole))))))).
  { repeat apply sequence_keeps_the_corners.
    - apply with_entry_keeps_the_corners, _adjust_waist_keeps_the_corners.
    - apply with_entry_keeps_the_corners, _adjust_hip_keeps_the_corners.
    - apply with_entry_keeps_the_corners, _adjust_chest_keeps_the_corners.
    - apply with_entry_keeps_the_corners, _adjust_shoulder_keeps_the_corners.
    - unfold with_entry. rewrite Hlength. apply ret_keeps_the_corners.
    - apply with_entry_keeps_the_corners, _adjust_armhole_keeps_the_corners. }
  destruct (Hsteps self0 A B F Hgen HA HB HF HnA HnB)
    as (self' & F' & Hrun & Hrest).
  exists self', F'. split; [| exact Hrest].
  rewrite <- Hrun. unfold apply_advanced_adjustments.
  rewrite (bind_returns points _ self self (points_of self) eq_refl).
  unfold points_of. rewrite (generated_not_empty _ Hgen).
  rewrite (bind_returns (ret tt) _ self self tt eq_refl).
  assert (Hstore : store_original_points self = (self0, inr tt)).
  { unfold store_original_points, self0, points_of.
    destruct self as [g [orig |]]; reflexivity. }
  rewrite (bind_returns _ _ _ _ _ Hstore). reflexivity.
Qed.

(** The variations of a maxi dress: the neckline, then the length. *)
Lemma maxi_variations (neckline : string) self (A B : point) :
  generated (generator self) ->
  points_of self !! "A" = Some A ->
  points_of self !! "B" = Some B ->
  exists self',
    apply_design_variations
      (DesignOptions.set_neckline_type neckline
         (DesignOptions.set_length_style "maxi" DesignOptions.defaults)) self
    = (self', inr tt)
    /\ generated (generator self')
    /\ points_of self' !! "A" = Some A
    /\ points_of self' !! "B"
       = Some (fst B, snd B + (120 - length_of self))
    /\ length_of self' = length_of self + (120 - length_of self).
Proof.
  intros Hgen HA HB.
  assert (Hframe : exists self1,
             (if bool_decide (neckline <> "round")
              then _modify_neckline neckline else ret tt) self
             = (self1, inr tt)
             /\ generated (generator self1)
             /\ points_of self1 !! "A" = Some A
             /\ points_of self1 !! "B" = Some B
             /\ length_of self1 = length_of self).
  { destruct (bool_decide (neckline <> "round")).
    - destruct (_modify_neckline_goes_through neckline self Hgen)
        as (self1 & Hrun & Hgen1 & _).
      exists self1. split; [exact Hrun |]. split; [exact Hgen1 |].
      revert Hrun. destruct self as [[m c pts cvs] orig].
      destruct Hgen as (Hdom & _).
      cbn [generator PatternGenerator.points] in Hdom.
      unfold points_of, length_of in *.
      cbn [generator PatternGenerator.points] in HA, HB.
      destruct (label_lookup pts "Q" Hdom) as [q Hq]; [label_in |].
      destruct (label_lookup pts "R" Hdom) as [r Hr]; [label_in |].
      unfold _modify_neckline.
      destruct (bool_decide (neckline = "v_neck"));
        [| destruct (bool_decide (neckline = "square"));
           [| destruct (bool_decide (neckline = "boat"))]];
        run; intros [= <-];
        cbn [generator PatternGenerator.points PatternGenerator.set_points
             PatternGenerator.measurements];
        repeat (rewrite lookup_insert_ne by (intro; discriminate));
        (split; [exact HA |]); (split; [exact HB |]); reflexivity.
    - exists self. split; [reflexivity |]. split; [exact Hgen |].
      split; [exact HA |]. split; [exact HB |]. reflexivity. }
  destruct Hframe as (self1 & Hrun1 & Hgen1 & HA1 & HB1 & Hlen1).
  destruct (_adjust_length_returns (120 - length_of self1) self1)
    as (self2 & Hrun2 & Hpts2 & Hlen2 & _).
  destruct (_adjust_length_goes_through (120 - length_of self1) self1 Hgen1)
    as (self2' & Hrun2' & Hgen2 & _).
  rewrite Hrun2 in Hrun2'. injection Hrun2' as <-.
  exists self2. split.
  - unfold apply_design_variations.
    cbn [DesignOptions.neckline_type DesignOptions.dress_style
         DesignOptions.dart_style DesignOptions.length_style
         DesignOptions.set_neckline_type DesignOptions.set_length_style
         DesignOptions.defaults].
    rewrite (bind_returns _ _ _ _ _ Hrun1).
    change (bool_decide ("fitted" <> "fitted")) with false.
    change (bool_decide ("standard" <> "standard")) with false.
    change (bool_decide ("maxi" <> "midi")) with true.
    rewrite (bind_returns (ret tt) _ self1 self1 tt eq_refl).
    rewrite (bind_returns (ret tt) _ self1 self1 tt eq_refl).
    unfold _modify_length_style.
    rewrite (bind_returns jacket_length _ self1 self1 (length_of self1)
               eq_refl).
    change (bool_decide ("maxi" = "mini")) with false.
    change (bool_decide ("maxi" = "knee")) with false.
    change (bool_decide ("maxi" = "midi")) with false.
    change (bool_decide ("maxi" = "maxi")) with true.
    cbv beta iota zeta. exact Hrun2.
  - split; [exact Hgen2 |]. rewrite !Hpts2, HA1, HB1, Hlen2, Hlen1.
    split; [reflexivity |]. split; reflexivity.
Qed.

(** X14.  A maxi dress made with adjustments is generated at the length of the
    size, 85, before the length style is applied, and the length style
    raises every point that is not on the top edge by 120 - 85.  For every
    size, every neckline and every dict of adjustments that is not empty
    and has no length adjustment, [create_maxi_dress] returns a generated
    pattern whose recorded length is 120 while its corner A is still at
    height 85 and its hem corner B at height 35: the body is 50 long, not
    120. *)
Theorem maxi_dress_with_adjustments_is_not_lengthened (size : float)
    (neckline : string) (adjustments : gmap string float) :
  adjustments <> ∅ ->
  adjustments !! "length_adjustment" = None ->
  exists g,
    create_maxi_dress size neckline (Some adjustments) = inr g
    /\ generated g
    /\ PatternGenerator.points g !! "A" = Some (0, 85)
    /\ PatternGenerator.points g !! "B" = Some (0, 35)
    /\ Measurements.jacket_length (PatternGenerator.measurements g) = 120.
Proof.
  intros Hadj Hlength.
  pose proof (derive_of_size size) as Hsize.
  pose proof (jacket_length_of_size size) as Hjl.
  destruct (post_init_fields (sized size))
    as (_ & _ & _ & _ & _ & _ & Hwa & Hhw & _).
  set (m := Measurements.__post_init__ (sized size)) in *.
  destruct (generated_from_succeeds m _ Hsize)
    as (_ & _ & _ & _ & _ & Hgen).
  destruct (derived_points m _ Hsize) as (HA & HB & _ & _ & _ & HF & _).
  rewrite <- (points_of_generated_from m _ Hsize) in HA, HB, HF.
  rewrite Hjl in HA, HF. rewrite Hwa, Hhw in HF.
  destruct (apply_advanced_adjustments_keeps_the_corners adjustments Hlength
              (init (generated_from m PatternConstants.defaults))
              _ _ _ Hgen HA HB HF eq_refl eq_refl)
    as (self1 & F1 & Hrun1 & Hgen1 & HA1 & HB1 & _ & _ & Hlen1).
  destruct (maxi_variations neckline self1 _ _ Hgen1 HA1 HB1)
    as (self2 & Hrun2 & Hgen2 & HA2 & HB2 & Hlen2).
  exists (generator self2). split.
  - unfold create_maxi_dress. rewrite modifier_of_size_fresh. fold m.
    unfold truthy. rewrite (bool_decide_eq_false_2 _ Hadj).
    cbn [negb default]. unfold returned_generator.
    assert (Hfresh : apply_advanced_adjustments adjustments
                       (init (PatternGenerator.init m None))
                     = (self1, inr tt)).
    { change (PatternGenerator.init m None)
        with (PatternGenerator.init m (Some PatternConstants.defaults)).
      rewrite (apply_advanced_adjustments_fresh adjustments m _ Hsize).
      exact Hrun1. }
    rewrite (bind_returns _ _ _ _ _ Hfresh). cbv zeta. rewrite Hrun2.
    reflexivity.
  - assert (Hlen : length_of self1 = 85.0).
    { rewrite Hlen1. unfold length_of.
      destruct (generated_from_succeeds m _ Hsize) as (_ & _ & _ & Hm & _).
      cbn [init generator]. rewrite Hm. exact Hjl. }
    rewrite Hlen in HB2, Hlen2.
    split; [exact Hgen2 |]. split; [exact HA2 |]. split; [exact HB2 |].
    exact Hlen2.
Qed.

Lemma maxi_dress_with_adjustments_is_not_lengthened_at_size_42 :
  exists g,
    create_maxi_dress 42 "v_neck" (Some {[ "waist_adjustment" := -3.0 ]})
    = inr g
    /\ generated g
    /\ PatternGenerator.points g !! "A" = Some (0, 85)
    /\ PatternGenerator.points g !! "B" = Some (0, 35)
    /\ Measurements.jacket_length (PatternGenerator.measurements g) = 120.
Proof.
  apply (maxi_dress_with_adjustments_is_not_lengthened 42 "v_neck"
           {[ "waist_adjustment" := -3.0 ]}).
  - apply insert_non_empty.
  - reflexivity.
Defined.

End Corners.

(** ** The drawing *)

Section Drawings.

Import Measurements PatternGenerator PatternPlot.

Implicit Types (pts : gmap string point).

Lemma segments_total pts (pairs : list (string * string)) :
  Forall (fun ab => is_Some (pts !! fst ab) /\ is_Some (pts !! snd ab))
    pairs ->
  exists segs,
    segments pts pairs = inr segs
    /\ Forall2 (fun ab pq => pts !! fst ab = Some (fst pq)
                             /\ pts !! snd ab = Some (snd pq)) pairs segs.
Proof.
  induction 1 as [| [a b] rest [[p Hp] [q Hq]] _ (segs & Hrun & Hall)].
  - exists []. split; [reflexivity | constructor].
  - exists ((p, q) :: segs). cbn [fst snd] in *. split.
    + cbn [segments]. unfold getitem. rewrite Hp, Hq, Hrun. reflexivity.
    + constructor; [split; assumption | exact Hall].
Qed.

Lemma polyline_total pts (names : list string) :
  Forall (fun a => is_Some (pts !! a)) names ->
  exists ps,
    polyline pts names = inr ps
    /\ Forall2 (fun a p => pts !! a = Some p) names ps.
Proof.
  induction 1 as [| a rest [p Hp] _ (ps & Hrun & Hall)].
  - exists []. split; [reflexivity | constructor].
  - exists (p :: ps). split.
    + cbn [polyline]. unfold getitem. rewrite Hp, Hrun. reflexivity.
    + constructor; assumption.
Qed.

Lemma labelled_points pts (names : list string) :
  dom pts = list_to_set labels ->
  forallb (fun a => bool_decide (a ∈ labels)) names = true ->
  Forall (fun a => is_Some (pts !! a)) names.
Proof.
  intros Hdom Hall. apply Forall_forall. intros a Hin.
  rewrite forallb_forall in Hall.
  apply list_elem_of_In, Hall, bool_decide_eq_true in Hin.
  apply elem_of_dom. rewrite Hdom. apply elem_of_list_to_set. exact Hin.
Qed.

(** The drawing of a generated pattern. *)
Lemma draw_generated (g : PatternGenerator.t) :
  generated g ->
  exists d,
    draw g = inr d
    /\ Drawing.markers d = points g
    /\ Forall2 (fun ab pq => points g !! fst ab = Some (fst pq)
                             /\ points g !! snd ab = Some (snd pq))
         line_labels (Drawing.lines d)
    /\ Forall2 (fun a p => points g !! a = Some p)
         ["T"; "V"; "I"; "V'"; "N"] (Drawing.armhole_points d)
    /\ (exists w, calculated_values g !! "width" = Some (Some w)
                  /\ Drawing.xlim d = (-5, w + 5))
    /\ Drawing.ylim d = (-5, jacket_length (measurements g) + 5).
Proof.
  intros (Hdom & (w & Hw) & _).
  destruct (segments_total (points g) line_labels) as (segs & Hsegs & Hlines).
  { apply Forall_forall. intros [a b] Hin.
    assert (Ha : Forall (fun a => is_Some (points g !! a))
                   (map fst line_labels))
      by (apply labelled_points; [exact Hdom | vm_compute; reflexivity]).
    assert (Hb : Forall (fun a => is_Some (points g !! a))
                   (map snd line_labels))
      by (apply labelled_points; [exact Hdom | vm_compute; reflexivity]).
    rewrite Forall_forall in Ha, Hb. split.
    - apply Ha. apply (list_elem_of_fmap_2 fst _ (a, b)), Hin.
    - apply Hb. apply (list_elem_of_fmap_2 snd _ (a, b)), Hin. }
  destruct (polyline_total (points g) ["T"; "V"; "I"; "V'"; "N"])
    as (ps & Hps & Harm).
  { apply labelled_points; [exact Hdom | vm_compute; reflexivity]. }
  assert (Hneck : Forall (fun a => is_Some (points g !! a)) ["P"; "Q"; "Q'"])
    by (apply labelled_points; [exact Hdom | vm_compute; reflexivity]).
  inversion Hneck as [| ? ? [P HP] Hneck1]; subst.
  inversion Hneck1 as [| ? ? [Q HQ] Hneck2]; subst.
  inversion Hneck2 as [| ? ? [Q' HQ'] _]; subst.
  eexists. split.
  - unfold draw, cv_get, getitem.
    rewrite Hw, Hsegs, Hps, HP, HQ, HQ'. reflexivity.
  - cbn [Drawing.markers Drawing.lines Drawing.armhole_points Drawing.xlim
         Drawing.ylim].
    repeat split; try assumption. exists w. split; [exact Hw | reflexivity].
Qed.




Lemma cv_get_inr (cv : gmap string (option float)) (key : string)
    (v : float) :
  cv_get cv key = inr v <-> cv !! key = Some (Some v).
Proof.
  unfold cv_get. destruct (cv !! key) as [[x |] |]; split; intros H;
    first [discriminate H | injection H as ->; reflexivity].
Qed.

(** The generator a run that returns leaves, whatever it held before. *)
Lemma generate_pattern_generated (g : PatternGenerator.t)
    (items : list (string * point)) :
  calculate_points_items
    (with_base_values (measurements g) (constants g)) = inr items ->
  generate_pattern None g
  = (set_points (Py.dict items) (fst (calculate_base_values g)),
     inr (Py.dict items))
  /\ generated (set_points (Py.dict items) (fst (calculate_base_values g))).
Proof.
  intros Hit. rewrite generate_pattern_unfold, Hit. cbv zeta.
  split; [reflexivity |].
  destruct (calculate_base_values_any g) as (_ & _ & _ & _ & Hcv).
  destruct (base_scalars (measurements g) (constants g))
    as ((w & Hw) & (a & Ha) & (b & Hb)).
  unfold generated. cbn [points set_points calculated_values].
  split; [rewrite dom_dict, (items_labels _ _ items Hit); reflexivity |].
  repeat split; eexists; apply cv_get_inr; rewrite Hcv by label_in;
    apply cv_get_inr; eassumption.
Qed.

(** The width a run stores. *)
Lemma base_width (m : Measurements.t) (c : PatternConstants.t) :
  cv_get (calculated_values (with_base_values m c)) "width"
  = inr (width_of m c).
Proof. destruct m, c. vm_compute. reflexivity. Qed.

(** The drawing of a generated pattern on the axes of the library. *)
Lemma draw_on_axes_generated (g : PatternGenerator.t) (w : float) :
  generated g ->
  calculated_values g !! "width" = Some (Some w) ->
  draw_on_axes g
  = if is_finite (w + 5) && is_finite (jacket_length (measurements g) + 5)
    then draw g else inl axis_limits_error.
Proof.
  intros Hgen Hw. unfold draw_on_axes, cv_get, set_lim. rewrite Hw.
  cbn [Py.bind Py.ok].
  change (is_finite (-5)) with true. cbn [andb].
  destruct (is_finite (w + 5)); [| reflexivity].
  cbn [Py.bind Py.ok Py.raise andb].
  destruct (is_finite (jacket_length (measurements g) + 5)); reflexivity.
Qed.

(** X16.  On a generator without points [plot_pattern] generates the
    pattern first, whatever scalars the generator holds.  When the
    derivation of the measurements and constants raises, [plot_pattern]
    raises the same exception and the generator still has no points.
    When it returns, the generator keeps the derived point map and the
    axis limits are set next: if the width plus 5 or the jacket length
    plus 5 is NaN or infinite the library refuses the limit and
    [plot_pattern] raises its [ValueError]; otherwise every look-up of the
    drawing succeeds, and what is drawn is the derived point map. *)
Theorem plot_pattern_generates_when_there_are_no_points
    (g : PatternGenerator.t) :
  points g = ∅ ->
  let m := measurements g in
  let c := constants g in
  match derive m c with
  | inl e =>
      snd (plot_pattern_on_axes g) = inl e
      /\ points (fst (plot_pattern_on_axes g)) = ∅
  | inr r =>
      points (fst (plot_pattern_on_axes g)) = snd r
      /\ if is_finite (width_of m c + 5) && is_finite (jacket_length m + 5)
         then exists d,
                snd (plot_pattern_on_axes g) = inr d
                /\ Drawing.markers d = snd r
                /\ length (Drawing.lines d) = 30%nat
         else snd (plot_pattern_on_axes g) = inl axis_limits_error
  end.
Proof.
  intros Hempty m c. subst m c. rewrite derive_unfold.
  unfold plot_pattern_on_axes.
  rewrite (bool_decide_eq_true_2 _ Hempty).
  destruct (calculate_points_items
              (with_base_values (measurements g) (constants g)))
    as [e | items] eqn:Hit.
  - rewrite generate_pattern_unfold, Hit. cbn [fst snd].
    split; [reflexivity |].
    destruct (calculate_base_values_any g) as (_ & _ & _ & -> & _).
    exact Hempty.
  - destruct (generate_pattern_generated g items Hit) as (-> & Hgen).
    destruct (calculate_base_values_any g) as (_ & Hm & _ & _ & Hcv).
    assert (Hw : calculated_values
                   (set_points (Py.dict items) (fst (calculate_base_values g)))
                 !! "width"
                 = Some (Some (width_of (measurements g) (constants g)))).
    { apply cv_get_inr. cbn [calculated_values set_points].
      rewrite Hcv by label_in. apply base_width. }
    cbn [fst snd]. split; [reflexivity |].
    rewrite (draw_on_axes_generated _ _ Hgen Hw).
    cbn [measurements set_points]. rewrite Hm.
    destruct (is_finite _ && is_finite _); [| reflexivity].
    destruct (draw_generated _ Hgen) as (d & Hd & Hmk & Hl & _).
    exists d. split; [exact Hd |].
    split; [rewrite Hmk; reflexivity |].
    rewrite <- (Forall2_length _ _ _ Hl). reflexivity.
Qed.

Lemma plot_pattern_generates_the_default_pattern :
  let g := PatternGenerator.init Measurements.defaults None in
  let m := measurements g in
  let c := constants g in
  match derive m c with
  | inl e =>
      snd (plot_pattern_on_axes g) = inl e
      /\ points (fst (plot_pattern_on_axes g)) = ∅
  | inr r =>
      points (fst (plot_pattern_on_axes g)) = snd r
      /\ if is_finite (width_of m c + 5) && is_finite (jacket_length m + 5)
         then exists d,
                snd (plot_pattern_on_axes g) = inr d
                /\ Drawing.markers d = snd r
                /\ length (Drawing.lines d) = 30%nat
         else snd (plot_pattern_on_axes g) = inl axis_limits_error
  end.
Proof.
  apply (plot_pattern_generates_when_there_are_no_points
           (PatternGenerator.init Measurements.defaults None)).
  reflexivity.
Defined.

End Drawings.

(** ** The interface *)

Section Interface.

Import Measurements PatternGenerator PatternPlot.

Lemma apply_adjustments_generated (adj : gmap string float)
    (g : PatternGenerator.t) :
  generated g -> generated (fst (apply_adjustments adj g)).
Proof.
  destruct g as [m c pts cvs]. intros (Hdom & Hscalars).
  cbn [points calculated_values] in *.
  unfold apply_adjustments.
  cbn [points set_points measurements constants calculated_values fst].
  destruct (adj !! "waist_adjustment") as [w |]; [| split; assumption].
  destruct (label_lookup pts "X" Hdom) as [pX HX]; [label_in |].
  destruct (label_lookup pts "X'" Hdom) as [pX' HX']; [label_in |].
  rewrite HX.
  cbn [points set_points measurements constants calculated_values].
  rewrite lookup_insert_ne by (intro; discriminate). rewrite HX'.
  split; [| exact Hscalars].
  cbn [points set_points].
  repeat (apply dom_insert_label; [| label_in]). exact Hdom.
Qed.

(** The generator [generate_pattern] leaves when the derivation returns,
    with or without adjustments. *)
Lemma generate_pattern_returns (adj : option (gmap string float))
    (g : PatternGenerator.t) (items : list (string * point)) :
  calculate_points_items
    (with_base_values (measurements g) (constants g)) = inr items ->
  exists g',
    generate_pattern adj g = (g', inr (points g'))
    /\ generated g'
    /\ measurements g' = measurements g
    /\ constants g' = constants g.
Proof.
  intros Hit.
  destruct (generate_pattern_generated g items Hit) as (_ & Hgen).
  destruct (generate_pattern_fields adj g) as (Hm & Hc).
  rewrite generate_pattern_unfold, Hit in *. cbv zeta in *.
  destruct adj as [a |]; [destruct (bool_decide (a = ∅)) |];
    eexists; (split; [reflexivity |]); cbn [fst] in *;
    (split; [| split; assumption]);
    first [exact Hgen | apply (apply_adjustments_generated a _ Hgen)].
Qed.

(** The width [generate_pattern] leaves. *)
Lemma generate_pattern_width (adj : option (gmap string float))
    (g : PatternGenerator.t) :
  cv_get (calculated_values (fst (generate_pattern adj g))) "width"
  = inr (width_of (measurements g) (constants g)).
Proof.
  rewrite generate_pattern_unfold.
  destruct (calculate_base_values_any g) as (_ & _ & _ & _ & Hcv).
  pose proof (Hcv "width" ltac:(label_in)) as Hw.
  rewrite base_width in Hw.
  destruct (calculate_points_items _) as [e | items]; [exact Hw |].
  cbv zeta.
  destruct adj as [a |]; [destruct (bool_decide (a = ∅)) |];
    cbn [fst calculated_values set_points]; try exact Hw.
  destruct (apply_adjustments_fields a
              (set_points (Py.dict items) (fst (calculate_base_values g))))
    as (_ & _ & _ & ->).
  exact Hw.
Qed.

Lemma plot_pattern_on_axes_generated (g : PatternGenerator.t) (w : float) :
  generated g ->
  calculated_values g !! "width" = Some (Some w) ->
  plot_pattern_on_axes g
  = (g, if is_finite (w + 5)
             && is_finite (jacket_length (measurements g) + 5)
        then draw g else inl axis_limits_error).
Proof.
  intros Hgen Hw. unfold plot_pattern_on_axes.
  rewrite (generated_not_empty g Hgen).
  rewrite (draw_on_axes_generated g w Hgen Hw). reflexivity.
Qed.

Lemma generate_pattern_from_size_outcome (size : float)
    (adjustments : option (gmap string float)) (output_file : option string) :
  let m := __post_init__ (sized size) in
  if names_a_file output_file
     && negb (is_finite (width_of m PatternConstants.defaults + 5))
  then generate_pattern_from_size size adjustments output_file
       = inl axis_limits_error
  else
    exists (g : PatternGenerator.t) (d : option Drawing.t),
      generate_pattern_from_size size adjustments output_file = inr (g, d)
      /\ generated g
      /\ measurements g = m
      /\ constants g = PatternConstants.defaults
      /\ (names_a_file output_file = true ->
          exists drawing, d = Some drawing
                          /\ Drawing.markers drawing = points g)
      /\ (names_a_file output_file = false -> d = None).
Proof.
  intros m. unfold generate_pattern_from_size. rewrite init_of_size.
  cbn [Py.bind]. fold m.
  destruct (succeeds_inr m PatternConstants.defaults (derive_of_size size))
    as (items & Hit & _).
  pose proof (generate_pattern_width adjustments (init m None)) as Hw.
  destruct (generate_pattern_returns adjustments (init m None) items Hit)
    as (g' & Hrun & Hgen & Hm & Hc).
  rewrite Hrun in Hw |- *. cbn [fst] in Hw.
  apply cv_get_inr in Hw.
  change (measurements (init m None)) with m in *.
  change (constants (init m None)) with PatternConstants.defaults in *.
  destruct (names_a_file output_file); cbn [andb].
  - rewrite (plot_pattern_on_axes_generated g' _ Hgen Hw), Hm.
    pose proof (jacket_length_of_size size) as Hjl. fold m in Hjl.
    rewrite Hjl.
    change (is_finite (85.0 + 5)) with true. rewrite andb_true_r.
    destruct (is_finite (width_of m PatternConstants.defaults + 5));
      cbn [negb]; [| reflexivity].
    destruct (draw_generated g' Hgen) as (d & -> & Hmarkers & _).
    exists g', (Some d). split; [reflexivity |].
    do 3 (split; [assumption |]). split.
    + intros _. exists d. split; [reflexivity | exact Hmarkers].
    + intros H. discriminate H.
  - exists g', None. split; [reflexivity |].
    do 3 (split; [assumption |]). split.
    + intros H. discriminate H.
    + reflexivity.
Qed.

(** X17.  [generate_pattern_from_size] generates the pattern for every
    size, be it zero, negative, infinite or not a number, and for every
    dict of adjustments: the shoulder length does not depend on the size,
    so both leg-solves succeed.  Without an output file it returns the
    generator, which holds the 47 points of the resolved record of that
    size under the default constants.  With an output file the pattern is
    plotted: if the width plus 5 is NaN or infinite the plotting library
    refuses the axis limit and the function raises its [ValueError];
    otherwise it returns the generator, and the drawing shows its points.
    A size that is not a number is refused in this way. *)
Theorem generate_pattern_from_size_fails_only_at_the_axes :
  (forall (size : float) (adjustments : option (gmap string float))
      (output_file : option string),
      let m := __post_init__ (sized size) in
      if names_a_file output_file
         && negb (is_finite (width_of m PatternConstants.defaults + 5))
      then generate_pattern_from_size size adjustments output_file
           = inl axis_limits_error
      else
        exists (g : PatternGenerator.t) (d : option Drawing.t),
          generate_pattern_from_size size adjustments output_file
          = inr (g, d)
          /\ generated g
          /\ measurements g = m
          /\ constants g = PatternConstants.defaults
          /\ (names_a_file output_file = true ->
              exists drawing, d = Some drawing
                              /\ Drawing.markers drawing = points g)
          /\ (names_a_file output_file = false -> d = None))
  /\ (forall adjustments : option (gmap string float),
      generate_pattern_from_size nan adjustments (Some "pattern.pdf")
      = inl axis_limits_error)
  /\ (forall adjustments : option (gmap string float),
      exists g, generate_pattern_from_size nan adjustments None
                = inr (g, None)).
Proof.
  split; [exact generate_pattern_from_size_outcome |]. split.
  - intros adjustments.
    exact (generate_pattern_from_size_outcome nan adjustments
             (Some "pattern.pdf")).
  - intros adjustments.
    destruct (generate_pattern_from_size_outcome nan adjustments None)
      as (g & d & Hrun & _ & _ & _ & _ & Hd).
    rewrite (Hd eq_refl) in Hrun. exists g. exact Hrun.
Qed.

(** Only the waist entry of the adjustments reaches the points. *)
Lemma generate_pattern_waist_only (adjustments : option (gmap string float))
    (g : PatternGenerator.t) :
  generate_pattern adjustments g = generate_pattern (waist_only adjustments) g.
Proof.
  rewrite !generate_pattern_unfold.
  destruct (calculate_points_items _) as [e | items]; [reflexivity |].
  cbv zeta. destruct adjustments as [adj |]; [| reflexivity].
  set (g2 := set_points _ _).
  assert (Hnone : adj !! "waist_adjustment" = None ->
            apply_adjustments adj g2 = (g2, inr tt)).
  { intros H. unfold apply_adjustments. rewrite H. reflexivity. }
  unfold waist_only.
  destruct (bool_decide (adj = ∅)) eqn:Hempty.
  - apply bool_decide_eq_true in Hempty. subst adj.
    rewrite lookup_empty. reflexivity.
  - destruct (adj !! "waist_adjustment") as [w |] eqn:Hw.
    + rewrite bool_decide_eq_false_2 by apply insert_non_empty.
      rewrite (apply_adjustments_reads_waist adj {[ "waist_adjustment" := w ]});
        [reflexivity |].
      rewrite lookup_singleton_eq. symmetry. exact Hw.
    + rewrite (Hnone eq_refl). reflexivity.
Qed.

Lemma generate_pattern_from_size_waist_only (size : float)
    (adjustments : option (gmap string float)) (output_file : option string) :
  generate_pattern_from_size size adjustments output_file
  = generate_pattern_from_size size (waist_only adjustments) output_file.
Proof.
  unfold generate_pattern_from_size.
  destruct (Measurements.init _) as [e | m]; [reflexivity |].
  cbn [Py.bind]. rewrite generate_pattern_waist_only. reflexivity.
Qed.

(** The dict [quick_generate] builds, reduced to its waist entry. *)
Lemma quick_adjustments_waist_only (w h c : float) :
  let adjustments : gmap string float := ∅ in
  let adjustments :=
    if negb (w =? 0)
    then <["waist_adjustment" := w]> adjustments else adjustments in
  let adjustments :=
    if negb (h =? 0)
    then <["hip_adjustment" := h]> adjustments else adjustments in
  let adjustments :=
    if negb (c =? 0)
    then <["chest_adjustment" := c]> adjustments else adjustments in
  waist_only (if bool_decide (adjustments = ∅) then None else Some adjustments)
  = if negb (w =? 0) then Some {[ "waist_adjustment" := w ]} else None.
Proof.
  cbv zeta. unfold waist_only.
  destruct (w =? 0), (h =? 0), (c =? 0); cbn [negb];
    rewrite ?(bool_decide_eq_true_2 (∅ = ∅) eq_refl);
    rewrite ?bool_decide_eq_false_2 by apply insert_non_empty;
    repeat first
      [ rewrite lookup_insert_eq
      | rewrite lookup_insert_ne by (intro; discriminate)
      | rewrite lookup_empty ];
    reflexivity.
Qed.

(** X18.  [quick_generate] takes a hip and a chest adjustment and passes them
    on, but they change nothing: the result is the one for the same waist
    adjustment alone, and with a waist adjustment of zero it is the plain
    pattern of the size. *)
Theorem quick_generate_ignores_hip_and_chest (str : float -> string)
    (size waist_adj hip_adj chest_adj : float) (filename : option string) :
  quick_generate str size waist_adj hip_adj chest_adj filename
  = quick_generate str size waist_adj 0 0 filename
  /\ ((waist_adj =? 0) = true ->
      exists name,
        quick_generate str size waist_adj hip_adj chest_adj filename
        = generate_pattern_from_size size None (Some name)).
Proof.
  unfold quick_generate. cbv zeta.
  rewrite (generate_pattern_from_size_waist_only size
             (if bool_decide (_ = ∅) then None else Some _)).
  rewrite (quick_adjustments_waist_only waist_adj hip_adj chest_adj).
  split.
  - symmetry.
    rewrite (generate_pattern_from_size_waist_only size
               (if bool_decide (_ = ∅) then None else Some _)).
    rewrite (quick_adjustments_waist_only waist_adj 0 0). reflexivity.
  - intros ->. cbn [negb]. eexists. reflexivity.
Qed.

Lemma quick_generate_ignores_hip_and_chest_at_size_44 :
  exists name,
    quick_generate (fun _ => "44.0") 44.0 0 1.5 (-1.0) None
    = generate_pattern_from_size 44.0 None (Some name).
Proof.
  apply (proj2 (quick_generate_ignores_hip_and_chest
                  (fun _ => "44.0") 44.0 0 1.5 (-1.0) None)).
  reflexivity.
Defined.

End Interface.

(** ** The prompts *)

Section Prompts.

Import Measurements PatternInterface.

(** Equality of floats with a positive number is equality. *)
Lemma eqb_finite_eq (x y : float) (m : positive) (e : Z) :
  Prim2SF y = S754_finite false m e -> (x =? y) = true -> x = y.
Proof.
  intros Hy H. apply FloatAxioms.Prim2SF_inj. rewrite Hy.
  rewrite FloatAxioms.eqb_spec, Hy in H.
  unfold SFeqb, SFcompare in H.
  destruct (Prim2SF x) as [s | s | | s m' e']; try discriminate H.
  - destruct s; discriminate H.
  - destruct s; [discriminate H |].
    destruct (Z.compare e' e) eqn:Ee; try discriminate H.
    destruct (Pos.compare_cont Eq m' m) eqn:Em; try discriminate H.
    apply Z.compare_eq in Ee. apply Pos.compare_eq in Em.
    subst. reflexivity.
Qed.

Lemma eqb_40 (s : float) : (s =? 40.0) = true -> s = 40.0.
Proof.
  apply (eqb_finite_eq s 40.0 5629499534213120%positive (-47)%Z).
  reflexivity.
Qed.

Lemma record_eq (r1 r2 : Measurements.t) :
  size r1 = size r2 ->
  shoulder_width r1 = shoulder_width r2 ->
  waist_circumference r1 = waist_circumference r2 ->
  hip_circumference r1 = hip_circumference r2 ->
  chest_circumference r1 = chest_circumference r2 ->
  jacket_length r1 = jacket_length r2 ->
  waist_from_A r1 = waist_from_A r2 ->
  hip_from_waist r1 = hip_from_waist r2 ->
  shoulder_bone r1 = shoulder_bone r2 ->
  neck_depth r1 = neck_depth r2 ->
  r1 = r2.
Proof. destruct r1, r2. cbn. intros; subst; reflexivity. Qed.

(** The record the interface builds for a size alone resolves to the
    record of the size. *)
Lemma smart_defaults_resolve (s : float) :
  __post_init__
    (Measurements.mk s s (s * 2) (s * 2.3) (s * 2.2) 85.0 42.0 19.0 12.0 2.0)
  = __post_init__ (sized s).
Proof.
  destruct (s =? 40.0) eqn:E.
  - apply eqb_40 in E. subst s. vm_compute. reflexivity.
  - destruct (post_init_fields
                (Measurements.mk s s (s * 2) (s * 2.3) (s * 2.2)
                   85.0 42.0 19.0 12.0 2.0))
      as (H1 & H2 & H3 & H4 & H5 & H6 & H7 & H8 & H9 & H10).
    destruct (post_init_fields (sized s))
      as (K1 & K2 & K3 & K4 & K5 & K6 & K7 & K8 & K9 & K10).
    unfold sized in *.
    cbn [size shoulder_width waist_circumference hip_circumference
         chest_circumference jacket_length waist_from_A hip_from_waist
         shoulder_bone neck_depth] in *.
    rewrite E in *. cbn [negb] in *. rewrite !andb_true_r in *.
    change (40.0 =? 40.0) with true in *.
    change (80.0 =? 80.0) with true in *.
    change (92.0 =? 92.0) with true in *.
    change (88.0 =? 88.0) with true in *.
    apply record_eq.
    + rewrite H1, K1. reflexivity.
    + rewrite H5, K5. reflexivity.
    + rewrite H2, K2. destruct (s * 2 =? 80.0); reflexivity.
    + rewrite H3, K3. destruct (s * 2.3 =? 92.0); reflexivity.
    + rewrite H4, K4. destruct (s * 2.2 =? 88.0); reflexivity.
    + rewrite H6, K6. reflexivity.
    + rewrite H7, K7. reflexivity.
    + rewrite H8, K8. reflexivity.
    + rewrite H9, K9. reflexivity.
    + rewrite H10, K10. reflexivity.
Qed.

(** X19.  A user who types a size and nothing else gets the record of that
    size, [Measurements(size=size)]: the defaults the interface computes
    from the size and passes explicitly (size, twice the size, 2.3 and 2.2
    times the size) are those the resolver substitutes, also at size 40
    and at a size that is not a number.  A user who types nothing at all
    gets the default record. *)
Theorem smart_defaults_agree_with_the_resolver :
  (forall (float_of : string -> Py.result float) (text : string)
      (s : float),
      text <> "" -> float_of text = inr s ->
      get_user_measurements float_of (only_size text)
      = Measurements.init {[ "size" := s ]})
  /\ (forall float_of : string -> Py.result float,
      get_user_measurements float_of (only_size "")
      = inr Measurements.defaults)
  /\ (forall (float_of : string -> Py.result float) (text : string)
        (e : Py.exn),
      text <> "" -> float_of text = inl e ->
      get_user_measurements float_of (only_size text) = inl e).
Proof.
  split; [| split].
  - intros float_of text s Htext Hs. rewrite init_of_size.
    unfold get_user_measurements, only_size, answer_or.
    cbn [size_input shoulder_input waist_input hip_input chest_input
         length_input waist_from_a_input hip_from_waist_input].
    rewrite (bool_decide_eq_false_2 _ Htext), Hs.
    rewrite (bool_decide_eq_true_2 ("" = "") eq_refl).
    cbn [negb Py.bind Py.ok].
    rewrite <- smart_defaults_resolve.
    unfold Measurements.init.
    remember Measurements.__post_init__ as resolver.
    vm_compute. reflexivity.
  - intros float_of.
    unfold get_user_measurements, only_size, answer_or.
    cbn [size_input shoulder_input waist_input hip_input chest_input
         length_input waist_from_a_input hip_from_waist_input].
    rewrite (bool_decide_eq_true_2 ("" = "") eq_refl).
    cbn [negb Py.bind Py.ok]. vm_compute. reflexivity.
  - intros float_of text e Htext He.
    unfold get_user_measurements, only_size, answer_or.
    cbn [size_input]. rewrite (bool_decide_eq_false_2 _ Htext), He.
    reflexivity.
Qed.

Lemma smart_defaults_agree_with_the_resolver_at_size_50 :
  get_user_measurements (fun _ => inr 50.0) (only_size "50")
  = Measurements.init {[ "size" := 50.0 ]}.
Proof.
  apply (proj1 smart_defaults_agree_with_the_resolver
           (fun _ => inr 50.0) "50" 50.0).
  - discriminate.
  - reflexivity.
Defined.

End Prompts.

(** ** The first script and the generator *)

Section FirstScript.

Import Measurements PatternConstants PatternGenerator.

(** Goes through the squares and the roots of an evaluated run, in the
    goal. *)
Local Ltac leg_cases :=
  repeat match goal with
  | |- context [match ?x with inl _ => _ | inr _ => _ end] =>
      lazymatch x with
      | Py.pow2 _ => destruct x eqn:?
      | Py.math_sqrt _ => destruct x eqn:?
      end;
      cbv beta iota
  end.

(** The script against the point derivation, on every platform. *)
Lemma first_script_points `{libm : Py.Libm} (m : Measurements.t)
    (c : PatternConstants.t) :
  PatternMaking.points m c
  = match calculate_points_items (with_base_values m c) with
    | inl e => inl e
    | inr items =>
        if (run_of_PN m c =? 0) || (shoulder_length m c =? 0)
        then inl zero_division
        else inr items
    end.
Proof.
  destruct m, c.
  unfold PatternMaking.points, with_base_values, calculate_points_items,
    run_of_PN, back_radicand, shoulder_length, zero_division.
  remember @Py.pow2 as p2. remember @Py.math_sqrt as sq.
  remember @square as sqr.
  vm_compute. subst p2 sq sqr.
  leg_cases; try reflexivity.
  invert_steps.
  repeat match goal with
  | |- context [PrimFloat.eqb ?a ?b] => destruct (PrimFloat.eqb a b)
  end;
  reflexivity.
Qed.

(** X20.  The first script computes the points of the generator.  On the same
    parameters it raises where the point derivation raises, with the same
    exception; where the derivation returns, the script returns the same
    47 items in the same order, unless the shoulder line is vertical or
    the shoulder length is zero: the script then divides by zero, which
    the generator guards against.  The script as written, on its own
    parameter block, returns the points of the default pattern. *)
Theorem first_script_agrees_with_the_generator :
  (forall (m : Measurements.t) (c : PatternConstants.t),
      PatternMaking.points m c
      = match calculate_points_items (with_base_values m c) with
        | inl e => inl e
        | inr items =>
            if (run_of_PN m c =? 0) || (shoulder_length m c =? 0)
            then inl zero_division
            else inr items
        end)
  /\ succeeds
       (PatternMaking.points Measurements.defaults PatternConstants.defaults)
     = true
  /\ PatternMaking.points Measurements.defaults PatternConstants.defaults
     = calculate_points_items
         (with_base_values Measurements.defaults PatternConstants.defaults)
  /\ (let m := with_shoulder_bone 1.0 in
      let c := with_drops 4.0 4.0 in
      (run_of_PN m c =? 0) = true
      /\ PatternMaking.points m c = inl zero_division
      /\ succeeds (derive m c) = true).
Proof.
  split; [| repeat split; vm_compute; reflexivity].
  intros m c. apply first_script_points.
Qed.

End FirstScript.
